(** * Fingerprint sensor driver: packet codec, receive ring and commands

    A shallow embedding of [Fingerprint.cpp] (the STM32 / MbedOS port of the
    Adafruit optical fingerprint sensor library) and the properties of its
    protocol engine.

    Integers of the C++ code are [Z] with the wrap-around of their declared
    width written out ([u8], [u16], [u32]); byte arrays are [list Z]; the
    receive buffer is a byte-addressed store indexed by the offset from
    [buffUART]; the two cursors [pe] and [pl] are offsets into it. *)

From stdpp Require Import base numbers option list gmap.
From Stdlib Require Import ZArith Lia.

Open Scope Z_scope.

(** * Part I: the model *)

(** ** Fixed-width arithmetic *)

Definition u8 (z : Z) : Z := z mod 256.
Definition u16 (z : Z) : Z := z mod 65536.
Definition u32 (z : Z) : Z := z mod 4294967296.

Definition is_byte (z : Z) : Prop := 0 <= z < 256.

(** Reading [a[i]] where the index is a constant inside the array. *)
Definition at_ (a : list Z) (i : nat) : Z := default 0 (a !! i).

(** ** Outcome of a piece of code that may leave an array or never return *)

Inductive res (A : Type) : Type :=
| Done (a : A)
| OutOfBounds
| Diverges.
Arguments Done {A} a.
Arguments OutOfBounds {A}.
Arguments Diverges {A}.

(** ** The constants and sizes declared in [Fingerprint.h]

    The header is not part of the sources at hand: every name the .cpp file
    takes from it is a field of this class, and the theorems below hold for
    every value of them that meets the stated side conditions. *)

Class FingerprintH : Type := {
  FINGERPRINT_OK : Z;
  FINGERPRINT_PACKETRECIEVEERR : Z;
  FINGERPRINT_NOTFOUND : Z;
  FINGERPRINT_TIMEOUT : Z;
  FINGERPRINT_BADPACKET : Z;
  FINGERPRINT_STARTCODE : Z;
  FINGERPRINT_COMMANDPACKET : Z;
  FINGERPRINT_ACKPACKET : Z;
  FINGERPRINT_READSYSPARAM : Z;
  FINGERPRINT_HISPEEDSEARCH : Z;
  DEFAULTTIMEOUT : Z;
  (** [sizeof(buffUART)] *)
  BUFF_SIZE : Z;
  (** number of elements of [Fingerprint_Packet::data] *)
  DATA_SIZE : Z
}.

(** The values of the Adafruit library this driver was ported from, and
    256 bytes for the receive buffer the port adds; they serve as the
    concrete instance on which examples are evaluated. *)
Definition adafruit_h : FingerprintH := {|
  FINGERPRINT_OK := 0x00;
  FINGERPRINT_PACKETRECIEVEERR := 0x01;
  FINGERPRINT_NOTFOUND := 0x09;
  FINGERPRINT_TIMEOUT := 0xFF;
  FINGERPRINT_BADPACKET := 0xFE;
  FINGERPRINT_STARTCODE := 0xEF01;
  FINGERPRINT_COMMANDPACKET := 0x01;
  FINGERPRINT_ACKPACKET := 0x07;
  FINGERPRINT_READSYSPARAM := 0x0F;
  FINGERPRINT_HISPEEDSEARCH := 0x1B;
  DEFAULTTIMEOUT := 1000;
  BUFF_SIZE := 256;
  DATA_SIZE := 64
|}.

(** ** Packets *)

Module Packet.
Record t : Type := mk {
  start_code : Z;       (* uint16_t *)
  address : list Z;     (* uint8_t [4] *)
  type : Z;             (* uint8_t *)
  length : Z;           (* uint16_t *)
  data : list Z         (* uint8_t [DATA_SIZE] *)
}.

Definition with_start_code (v : Z) (p : t) : t :=
  mk v (address p) (type p) (length p) (data p).
Definition with_address (v : list Z) (p : t) : t :=
  mk (start_code p) v (type p) (length p) (data p).
Definition with_type (v : Z) (p : t) : t :=
  mk (start_code p) (address p) v (length p) (data p).
Definition with_length (v : Z) (p : t) : t :=
  mk (start_code p) (address p) (type p) v (data p).
Definition with_data (v : list Z) (p : t) : t :=
  mk (start_code p) (address p) (type p) (length p) v.
End Packet.

(** ** The driver object *)

Record Fingerprint : Type := mkFingerprint {
  thePassword : Z;
  theAddress : Z;
  status_reg : Z;
  system_id : Z;
  capacity : Z;
  security_level : Z;
  device_addr : Z;
  packet_len : Z;
  baud_rate : Z;
  fingerID : Z;
  confidence : Z;
  templateCount : Z;
  (** the bytes at [buffUART + k], keyed by [k]; the array itself owns the
      keys [0 .. BUFF_SIZE - 1] *)
  buffUART : gmap Z Z;
  (** write cursor, as the offset [pe - buffUART] *)
  pe : Z;
  (** read cursor, as the offset [pl - buffUART] *)
  pl : Z;
  (** everything handed to [R503Serial.write] so far, oldest first *)
  R503Serial : list Z
}.

Definition with_ring (b : gmap Z Z) (e l : Z) (f : Fingerprint) : Fingerprint :=
  mkFingerprint (thePassword f) (theAddress f) (status_reg f) (system_id f)
    (capacity f) (security_level f) (device_addr f) (packet_len f)
    (baud_rate f) (fingerID f) (confidence f) (templateCount f)
    b e l (R503Serial f).

Definition with_serial (s : list Z) (f : Fingerprint) : Fingerprint :=
  mkFingerprint (thePassword f) (theAddress f) (status_reg f) (system_id f)
    (capacity f) (security_level f) (device_addr f) (packet_len f)
    (baud_rate f) (fingerID f) (confidence f) (templateCount f)
    (buffUART f) (pe f) (pl f) s.

Definition with_params (sr si ca sl da plen br : Z) (f : Fingerprint) : Fingerprint :=
  mkFingerprint (thePassword f) (theAddress f) sr si ca sl da plen br
    (fingerID f) (confidence f) (templateCount f)
    (buffUART f) (pe f) (pl f) (R503Serial f).

Definition with_match (fid conf : Z) (f : Fingerprint) : Fingerprint :=
  mkFingerprint (thePassword f) (theAddress f) (status_reg f) (system_id f)
    (capacity f) (security_level f) (device_addr f) (packet_len f)
    (baud_rate f) fid conf (templateCount f)
    (buffUART f) (pe f) (pl f) (R503Serial f).

(** [Fingerprint::Fingerprint]: the members the constructor assigns.
    [fingerID], [confidence], [templateCount] and the bytes of [buffUART]
    are not assigned there; their indeterminate values are arguments. *)
Definition Fingerprint_ctor (password : Z) (fid conf cnt : Z) (buf : gmap Z Z)
  : Fingerprint :=
  {| thePassword := password;
     theAddress := 0xFFFFFFFF;
     status_reg := 0x0;
     system_id := 0x0;
     capacity := 64;
     security_level := 0;
     device_addr := 0xFFFFFFFF;
     packet_len := 64;
     baud_rate := 57600;
     fingerID := fid;
     confidence := conf;
     templateCount := cnt;
     buffUART := buf;
     pe := 0;
     pl := 0;
     R503Serial := [] |}.

Section Model.
Context `{H : FingerprintH}.

(** ** Receive ring *)

(** [receiveUART], for the byte [c] that [R503Serial.read] hands over. *)
Definition receiveUART (c : Z) (f : Fingerprint) : Fingerprint :=
  let b := <[pe f := c]> (buffUART f) in
  let e := pe f + 1 in
  with_ring b (if e >? BUFF_SIZE then 0 else e) (pl f) f.

(** [readUARTbuff]; a cell that was never written reads as [0]. *)
Definition readUARTbuff (f : Fingerprint) : Z * Fingerprint :=
  let c := default 0 (buffUART f !! pl f) in
  let l := pl f + 1 in
  (c, with_ring (buffUART f) (pe f) (if l >? BUFF_SIZE then 0 else l) f).

(** ** Serializer *)

(** The [for (uint8_t i = 0; i < packet.length; i++)] loop. *)
Fixpoint write_loop (fuel : nat) (packet : Packet.t) (i sum : Z)
    (dataBuffer : list Z) : res (Z * list Z) :=
  match fuel with
  | O => Diverges
  | S fuel' =>
      if i <? Packet.length packet then
        match Packet.data packet !! Z.to_nat i with
        | None => OutOfBounds
        | Some d =>
            write_loop fuel' packet (u8 (i + 1)) (u16 (sum + d))
              (dataBuffer ++ [d])
        end
      else Done (sum, dataBuffer)
  end.

(** The counter [i] has 256 values, so a loop that has not left after 256
    tests never leaves (see [write_loop_never_exits]). *)
Definition write_fuel : nat := 257.

Definition writeStructuredPacket (packet : Packet.t) (f : Fingerprint)
  : res Fingerprint :=
  let wire_length := u16 (Packet.length packet + 2) in
  let buffer :=
    [ u8 (Z.shiftr (Packet.start_code packet) 8);
      u8 (Z.land (Packet.start_code packet) 0xFF) ]
    ++ [ at_ (Packet.address packet) 0;
         at_ (Packet.address packet) 1;
         at_ (Packet.address packet) 2;
         at_ (Packet.address packet) 3;
         Packet.type packet;
         u8 (Z.shiftr wire_length 8);
         u8 (Z.land wire_length 0xFF) ] in
  let f1 := with_serial (R503Serial f ++ buffer) f in
  let sum0 :=
    u16 (u8 (Z.shiftr wire_length 8) + u8 (Z.land wire_length 0xFF)
         + Packet.type packet) in
  match write_loop write_fuel packet 0 sum0 [] with
  | Done (sum, dataBuffer) =>
      let f2 := with_serial (R503Serial f1 ++ dataBuffer) f1 in
      let sumBuffer := [ u8 (Z.shiftr sum 8); u8 (Z.land sum 0xFF) ] in
      Done (with_serial (R503Serial f2 ++ sumBuffer) f2)
  | OutOfBounds => OutOfBounds
  | Diverges => Diverges
  end.

(** ** Parser *)

(** What the sensor sends and when it reaches the ring: [rx] are the bytes
    still on the line, in order; the k-th element of [arrivals] is the
    number of them the receive interrupt stores between two consecutive
    evaluations of [pl == pe] (nothing arrives once the list is used up);
    [slept] counts the calls of [ThisThread::sleep_for(1ms)]. *)
Record World : Type := mkWorld {
  rx : list Z;
  arrivals : list nat;
  slept : Z
}.

(** [n] byte-arrival interrupts, each a call of [receiveUART]. *)
Fixpoint interrupts (n : nat) (f : Fingerprint) (line : list Z)
  : Fingerprint * list Z :=
  match n, line with
  | S n', c :: line' => interrupts n' (receiveUART c f) line'
  | _, _ => (f, line)
  end.

(** The interrupts that fire before the next test of [pl == pe]. *)
Definition poll (f : Fingerprint) (w : World) : Fingerprint * World :=
  match arrivals w with
  | [] => (f, w)
  | n :: rest =>
      let '(f', line') := interrupts n f (rx w) in
      (f', mkWorld line' rest (slept w))
  end.

(** One pass through the [switch (idx)] and the [idx++] behind it.
    [Overrun] marks the store of the [default] case at an index behind
    the end of the data array; the source has no test for it, and the
    run that goes on is [gsp_switch_unchecked] below. *)
Inductive switched : Type :=
| Next (packet : Packet.t) (idx : Z)
| Return (code : Z) (packet : Packet.t)
| Overrun.

Definition gsp_switch (packet : Packet.t) (idx byte : Z) : switched :=
  if idx =? 0 then
    if negb (byte =? Z.shiftr FINGERPRINT_STARTCODE 8) then Next packet idx
    else Next (Packet.with_start_code (u16 (Z.shiftl byte 8)) packet)
              (u16 (idx + 1))
  else if idx =? 1 then
    let packet' :=
      Packet.with_start_code (Z.lor (Packet.start_code packet) byte) packet in
    if negb (Packet.start_code packet' =? FINGERPRINT_STARTCODE)
    then Return FINGERPRINT_BADPACKET packet'
    else Next packet' (u16 (idx + 1))
  else if (2 <=? idx) && (idx <=? 5) then
    Next (Packet.with_address
            (<[Z.to_nat (idx - 2) := byte]> (Packet.address packet)) packet)
         (u16 (idx + 1))
  else if idx =? 6 then
    Next (Packet.with_type byte packet) (u16 (idx + 1))
  else if idx =? 7 then
    Next (Packet.with_length (u16 (Z.shiftl byte 8)) packet) (u16 (idx + 1))
  else if idx =? 8 then
    Next (Packet.with_length (Z.lor (Packet.length packet) byte) packet)
         (u16 (idx + 1))
  else
    if Z.of_nat (length (Packet.data packet)) <=? idx - 9 then Overrun
    else
      let packet' :=
        Packet.with_data
          (<[Z.to_nat (idx - 9) := byte]> (Packet.data packet)) packet in
      if idx - 8 =? Packet.length packet'
      then Return FINGERPRINT_OK packet'
      else Next packet' (u16 (idx + 1)).

(** The [while (true)] loop; every turn starts at the test of [pl == pe],
    be it the first test of the inner loop or a later one. *)
Fixpoint gsp_loop (fuel : nat) (timeout : Z) (f : Fingerprint) (w : World)
    (packet : Packet.t) (idx timer : Z)
  : res (Z * Packet.t * Fingerprint * World) :=
  match fuel with
  | O => Diverges
  | S fuel' =>
      let '(f1, w1) := poll f w in
      if pl f1 =? pe f1 then
        let w2 := mkWorld (rx w1) (arrivals w1) (slept w1 + 1) in
        let timer' := u16 (timer + 1) in
        if timer' >=? timeout
        then Done (FINGERPRINT_TIMEOUT, packet, f1, w2)
        else gsp_loop fuel' timeout f1 w2 packet idx timer'
      else
        let '(byte, f2) := readUARTbuff f1 in
        match gsp_switch packet idx byte with
        | Next packet' idx' =>
            gsp_loop fuel' timeout f2 w1 packet' idx' timer
        | Return code packet' => Done (code, packet', f2, w1)
        | Overrun => OutOfBounds
        end
  end.

(** Turns of the loop that are enough for it to return: one per entry of
    [arrivals], then one per readable byte and one per millisecond of
    the budget (see [getStructuredPacket_run]). *)
Definition gsp_fuel (timeout : Z) (w : World) : nat :=
  (length (arrivals w) + Z.to_nat BUFF_SIZE + Z.to_nat timeout + 3)%nat.

Definition getStructuredPacket (packet : Packet.t) (timeout : Z)
    (f : Fingerprint) (w : World)
  : res (Z * Packet.t * Fingerprint * World) :=
  gsp_loop (gsp_fuel timeout w) timeout f w packet 0 0.

(** ** The parser past the end of the data array

    The source never compares [idx - 9] with the size of [data]: a frame
    that declares more bytes than the array has makes
    [packet->data[idx-9] = byte] store behind the array.  [gsp_switch]
    stops at the first such store ([Overrun]).  What follows is the same
    [switch] with the store carried out and the loop going on, as a run
    of the compiled code does.  Modelled from the spec: [data] is the
    last member of the packet, so a store behind it changes no member of
    the packet; the list stays as it is (stdpp's insert does nothing out
    of range) and what the byte overwrites is outside the model. *)
Definition gsp_switch_unchecked (packet : Packet.t) (idx byte : Z)
  : switched :=
  if idx =? 0 then
    if negb (byte =? Z.shiftr FINGERPRINT_STARTCODE 8) then Next packet idx
    else Next (Packet.with_start_code (u16 (Z.shiftl byte 8)) packet)
              (u16 (idx + 1))
  else if idx =? 1 then
    let packet' :=
      Packet.with_start_code (Z.lor (Packet.start_code packet) byte) packet in
    if negb (Packet.start_code packet' =? FINGERPRINT_STARTCODE)
    then Return FINGERPRINT_BADPACKET packet'
    else Next packet' (u16 (idx + 1))
  else if (2 <=? idx) && (idx <=? 5) then
    Next (Packet.with_address
            (<[Z.to_nat (idx - 2) := byte]> (Packet.address packet)) packet)
         (u16 (idx + 1))
  else if idx =? 6 then
    Next (Packet.with_type byte packet) (u16 (idx + 1))
  else if idx =? 7 then
    Next (Packet.with_length (u16 (Z.shiftl byte 8)) packet) (u16 (idx + 1))
  else if idx =? 8 then
    Next (Packet.with_length (Z.lor (Packet.length packet) byte) packet)
         (u16 (idx + 1))
  else
    let packet' :=
      Packet.with_data
        (<[Z.to_nat (idx - 9) := byte]> (Packet.data packet)) packet in
    if idx - 8 =? Packet.length packet'
    then Return FINGERPRINT_OK packet'
    else Next packet' (u16 (idx + 1)).

Fixpoint gsp_loop_unchecked (fuel : nat) (timeout : Z) (f : Fingerprint)
    (w : World) (packet : Packet.t) (idx timer : Z)
  : res (Z * Packet.t * Fingerprint * World) :=
  match fuel with
  | O => Diverges
  | S fuel' =>
      let '(f1, w1) := poll f w in
      if pl f1 =? pe f1 then
        let w2 := mkWorld (rx w1) (arrivals w1) (slept w1 + 1) in
        let timer' := u16 (timer + 1) in
        if timer' >=? timeout
        then Done (FINGERPRINT_TIMEOUT, packet, f1, w2)
        else gsp_loop_unchecked fuel' timeout f1 w2 packet idx timer'
      else
        let '(byte, f2) := readUARTbuff f1 in
        match gsp_switch_unchecked packet idx byte with
        | Next packet' idx' =>
            gsp_loop_unchecked fuel' timeout f2 w1 packet' idx' timer
        | Return code packet' => Done (code, packet', f2, w1)
        | Overrun => OutOfBounds
        end
  end.

Definition getStructuredPacket_unchecked (packet : Packet.t) (timeout : Z)
    (f : Fingerprint) (w : World)
  : res (Z * Packet.t * Fingerprint * World) :=
  gsp_loop_unchecked (gsp_fuel timeout w) timeout f w packet 0 0.

(** The packet with its data array cut to [n] elements, and with [k]
    more elements behind it. *)
Definition cut (n : nat) (p : Packet.t) : Packet.t :=
  Packet.with_data (take n (Packet.data p)) p.

Definition widen (k : nat) (p : Packet.t) : Packet.t :=
  Packet.with_data (Packet.data p ++ replicate k 0) p.

(** ** The receive ring as a queue *)

(** [ring_holds f q]: the unread bytes of the ring, oldest first, are [q].
    The cursors take the [BUFF_SIZE + 1] offsets [0 .. BUFF_SIZE]. *)
Definition ring_holds (f : Fingerprint) (q : list Z) : Prop :=
  0 <= pl f <= BUFF_SIZE /\
  Z.of_nat (length q) <= BUFF_SIZE /\
  pe f = (pl f + Z.of_nat (length q)) mod (BUFF_SIZE + 1) /\
  forall (k : nat) (c : Z), q !! k = Some c ->
    buffUART f !! ((pl f + Z.of_nat k) mod (BUFF_SIZE + 1)) = Some c.

(** ** The parser over a queue: [gsp_loop] with the ring replaced by the
    list of its unread bytes *)

Definition fifo_poll (q : list Z) (w : World) : list Z * World :=
  match arrivals w with
  | [] => (q, w)
  | n :: rest => (q ++ take n (rx w), mkWorld (drop n (rx w)) rest (slept w))
  end.

Fixpoint fifo_loop (fuel : nat) (timeout : Z) (q : list Z) (w : World)
    (packet : Packet.t) (idx timer : Z)
  : res (Z * Packet.t * list Z * World) :=
  match fuel with
  | O => Diverges
  | S fuel' =>
      let '(q1, w1) := fifo_poll q w in
      match q1 with
      | [] =>
          let w2 := mkWorld (rx w1) (arrivals w1) (slept w1 + 1) in
          let timer' := u16 (timer + 1) in
          if timer' >=? timeout
          then Done (FINGERPRINT_TIMEOUT, packet, [], w2)
          else fifo_loop fuel' timeout [] w2 packet idx timer'
      | byte :: q2 =>
          match gsp_switch packet idx byte with
          | Next packet' idx' =>
              fifo_loop fuel' timeout q2 w1 packet' idx' timer
          | Return code packet' => Done (code, packet', q2, w1)
          | Overrun => OutOfBounds
          end
      end
  end.

(** ** The parser as a function of the bytes it gets to read *)

(** The state machine of [gsp_switch] fed from a list of bytes. *)
Inductive ran : Type :=
| Returned (code : Z) (packet : Packet.t) (rest : list Z)
| Starved (packet : Packet.t) (idx : Z)
| Overran.

Fixpoint run (packet : Packet.t) (idx : Z) (bytes : list Z) : ran :=
  match bytes with
  | [] => Starved packet idx
  | byte :: bytes' =>
      match gsp_switch packet idx byte with
      | Next packet' idx' => run packet' idx' bytes'
      | Return code packet' => Returned code packet' bytes'
      | Overrun => Overran
      end
  end.

(** How many bytes a reader that takes one byte at every test of
    [pl == pe] that finds one gets before the budget is used up, when
    [have] bytes are unread and [line] bytes are still to arrive.  It
    depends on the lengths and the times only, not on the bytes. *)
Fixpoint readable (have line : nat) (ticks : list nat) (timer timeout : Z)
  : nat :=
  match ticks with
  | [] => have
  | n :: ticks' =>
      match (have + n `min` line)%nat with
      | O =>
          if u16 (timer + 1) >=? timeout then O
          else readable O (line - n) ticks' (u16 (timer + 1)) timeout
      | S h => S (readable h (line - n) ticks' timer timeout)
      end
  end.

Definition budget (timer timeout : Z) : nat :=
  Z.to_nat (Z.max 1 (timeout - timer)).

(** ** Frames, arrival times and reachable states *)

(** The members of the driver object outside the ring and the serial port. *)
Definition session (f : Fingerprint) : list Z :=
  [ thePassword f; theAddress f; status_reg f; system_id f; capacity f;
    security_level f; device_addr f; packet_len f; baud_rate f;
    fingerID f; confidence f; templateCount f ].

(** The two bytes of the start code, as the serializer and the parser
    compute them. *)
Definition start_hi : Z := Z.shiftr FINGERPRINT_STARTCODE 8.
Definition start_lo : Z := Z.land FINGERPRINT_STARTCODE 0xFF.

(** The length field as states 7 and 8 assemble it. *)
Definition declared_length (lh ll : Z) : Z := Z.lor (u16 (Z.shiftl lh 8)) ll.

(** Tests of [pl == pe] before which no interrupt fires. *)
Fixpoint idle_polls (ticks : list nat) : nat :=
  match ticks with
  | [] => 0
  | O :: ticks' => S (idle_polls ticks')
  | S _ :: ticks' => idle_polls ticks'
  end.

(** Every byte of the line arrives, and the tests that see no arrival
    are fewer than [timeout] in all. *)
Definition arrives_in_time (timeout : Z) (w : World) : Prop :=
  (length (rx w) <= sum_list (arrivals w))%nat /\
  (idle_polls (arrivals w) = 0%nat
   \/ Z.of_nat (idle_polls (arrivals w)) < timeout).

(** The values of the C++ type [Fingerprint_Packet]. *)
Definition packet_wf (p : Packet.t) : Prop :=
  0 <= Packet.start_code p < 65536 /\
  length (Packet.address p) = 4%nat /\
  Forall is_byte (Packet.address p) /\
  is_byte (Packet.type p) /\
  0 <= Packet.length p < 65536 /\
  Z.of_nat (length (Packet.data p)) = DATA_SIZE /\
  Forall is_byte (Packet.data p).

Definition byte_sum (l : list Z) : Z := foldr Z.add 0 l.

(** The frame as the wire format lays it out. *)
Definition payload (p : Packet.t) : list Z :=
  take (Z.to_nat (Packet.length p)) (Packet.data p).

Definition wire_length (p : Packet.t) : Z := Packet.length p + 2.

Definition checksum (p : Packet.t) : Z :=
  (wire_length p / 256 + wire_length p mod 256 + Packet.type p
   + byte_sum (payload p)) mod 65536.

Definition wire_frame (p : Packet.t) : list Z :=
  [ Packet.start_code p / 256; Packet.start_code p mod 256 ]
  ++ Packet.address p
  ++ [ Packet.type p; wire_length p / 256; wire_length p mod 256 ]
  ++ payload p
  ++ [ checksum p / 256; checksum p mod 256 ].


(** The nine bytes in front of the payload. *)
Definition header (a0 a1 a2 a3 ty lh ll : Z) : list Z :=
  [start_hi; start_lo; a0; a1; a2; a3; ty; lh; ll].

(** ** Commands *)

(** Modelled from the spec: the constructor of [Fingerprint_Packet],
    declared in the absent header.  The spec gives a packet the fixed
    start code, the broadcast address by default, the type, the length
    and the payload bytes in a buffer of bounded capacity; [uninit]
    stands for the indeterminate former content of that buffer. *)
Definition Fingerprint_Packet (type len : Z) (data uninit : list Z)
  : Packet.t :=
  Packet.mk FINGERPRINT_STARTCODE [0xFF; 0xFF; 0xFF; 0xFF] type len
    (take (Z.to_nat DATA_SIZE) (data ++ drop (length data) uninit)).

(** How the macro [GET_CMD_PACKET] leaves: by one of its two [return]
    statements, or by falling through with the received packet. *)
Inductive got : Type :=
| Failed (code : Z)
| Got (packet : Packet.t).

Definition GET_CMD_PACKET (args uninit : list Z) (f : Fingerprint)
    (w : World) : res (got * Fingerprint * World) :=
  let packet :=
    Fingerprint_Packet FINGERPRINT_COMMANDPACKET (Z.of_nat (length args))
      args uninit in
  match writeStructuredPacket packet f with
  | Done f1 =>
      match getStructuredPacket packet DEFAULTTIMEOUT f1 w with
      | Done (code, packet', f2, w2) =>
          if negb (code =? FINGERPRINT_OK)
          then Done (Failed FINGERPRINT_PACKETRECIEVEERR, f2, w2)
          else if negb (Packet.type packet' =? FINGERPRINT_ACKPACKET)
          then Done (Failed FINGERPRINT_PACKETRECIEVEERR, f2, w2)
          else Done (Got packet', f2, w2)
      | OutOfBounds => OutOfBounds
      | Diverges => Diverges
      end
  | OutOfBounds => OutOfBounds
  | Diverges => Diverges
  end.

(** The decoding of the packet-length code in [getParameters]. *)
Definition decode_packet_len (code : Z) : Z :=
  if code =? 0 then 32
  else if code =? 1 then 64
  else if code =? 2 then 128
  else if code =? 3 then 256
  else code.

(** The assignments of [getParameters] behind the macro.  The shifted
    bytes fit the 16 (32) bits of the casts.  The product for [baud_rate]
    is computed as an [int]; the member is a [uint16_t] like its
    siblings, so the assignment keeps its low 16 bits. *)
Definition store_params (packet : Packet.t) (f : Fingerprint) : Fingerprint :=
  let d := at_ (Packet.data packet) in
  with_params
    (Z.lor (Z.shiftl (u16 (d 1%nat)) 8) (d 2%nat))
    (Z.lor (Z.shiftl (u16 (d 3%nat)) 8) (d 4%nat))
    (Z.lor (Z.shiftl (u16 (d 5%nat)) 8) (d 6%nat))
    (Z.lor (Z.shiftl (u16 (d 7%nat)) 8) (d 8%nat))
    (Z.lor (Z.lor (Z.lor (u32 (Z.shiftl (u32 (d 9%nat)) 24))
                         (u32 (Z.shiftl (u32 (d 10%nat)) 16)))
                  (u32 (Z.shiftl (u32 (d 11%nat)) 8)))
           (u32 (d 12%nat)))
    (decode_packet_len (Z.lor (Z.shiftl (u16 (d 13%nat)) 8) (d 14%nat)))
    (u16 (Z.lor (Z.shiftl (u16 (d 15%nat)) 8) (d 16%nat) * 9600))
    f.

(** [getParameters]; it reads [packet.data[0]] to [packet.data[16]], which
    is inside the array when the array has more than 16 elements. *)
Definition getParameters (uninit : list Z) (f : Fingerprint) (w : World)
  : res (Z * Fingerprint * World) :=
  match GET_CMD_PACKET [FINGERPRINT_READSYSPARAM] uninit f w with
  | Done (Failed code, f', w') => Done (code, f', w')
  | Done (Got packet, f', w') =>
      if Z.of_nat (length (Packet.data packet)) <=? 16 then OutOfBounds
      else Done (at_ (Packet.data packet) 0, store_params packet f', w')
  | OutOfBounds => OutOfBounds
  | Diverges => Diverges
  end.

Definition set_fingerID (v : Z) (f : Fingerprint) : Fingerprint :=
  with_match v (confidence f) f.
Definition set_confidence (v : Z) (f : Fingerprint) : Fingerprint :=
  with_match (fingerID f) v f.

(** [fingerID = 0xFFFF; confidence = 0xFFFF;] *)
Definition search_sentinel (f : Fingerprint) : Fingerprint :=
  set_confidence 0xFFFF (set_fingerID 0xFFFF f).

(** The six assignments that follow, on the 16-bit members. *)
Definition search_parse (packet : Packet.t) (f : Fingerprint) : Fingerprint :=
  let d := at_ (Packet.data packet) in
  let f1 := set_fingerID (d 1%nat) f in
  let f2 := set_fingerID (u16 (Z.shiftl (fingerID f1) 8)) f1 in
  let f3 := set_fingerID (Z.lor (fingerID f2) (d 2%nat)) f2 in
  let f4 := set_confidence (d 3%nat) f3 in
  let f5 := set_confidence (u16 (Z.shiftl (confidence f4) 8)) f4 in
  set_confidence (Z.lor (confidence f5) (d 4%nat)) f5.

(** [fingerFastSearch]; it reads [packet.data[0]] to [packet.data[4]]. *)
Definition fingerFastSearch (uninit : list Z) (f : Fingerprint) (w : World)
  : res (Z * Fingerprint * World) :=
  match GET_CMD_PACKET
          [FINGERPRINT_HISPEEDSEARCH; 0x01; 0x00; 0x00; 0x00; 0xA3]
          uninit f w with
  | Done (Failed code, f', w') => Done (code, f', w')
  | Done (Got packet, f', w') =>
      if Z.of_nat (length (Packet.data packet)) <=? 4 then OutOfBounds
      else Done (at_ (Packet.data packet) 0,
                 search_parse packet (search_sentinel f'), w')
  | OutOfBounds => OutOfBounds
  | Diverges => Diverges
  end.

End Model.

(** ** Inputs on which the theorems are evaluated *)

Definition c1_packet : Packet.t :=
  Packet.mk 0xEF01 [0xFF; 0xFF; 0xFF; 0xFF] 0x01 3
    ([0x1B; 0x01; 0xA3] ++ replicate 61 0).

Definition idle_driver : Fingerprint := Fingerprint_ctor 0 0 0 0 ∅.

(** A packet whose payload fills the 64 bytes of the array. *)
Definition c2_full_packet : Packet.t :=
  Packet.mk 0xEF01 [0xFF; 0xFF; 0xFF; 0xFF] 0x01 64 (replicate 64 0).

(** What the serializer sends for it, and the line that carries it. *)
Definition c2_sent : Fingerprint :=
  match writeStructuredPacket c2_full_packet idle_driver with
  | Done f => f
  | _ => idle_driver
  end.

Definition c2_world : World := mkWorld (R503Serial c2_sent) [75%nat] 0.

Definition c1_frame : list Z :=
  [0xEF; 0x01; 0xFF; 0xFF; 0xFF; 0xFF; 0x01; 0x00; 0x05;
   0x1B; 0x01; 0xA3; 0x00; 0xC5].

Definition c3_world : World := mkWorld c1_frame [14%nat] 0.

Definition c3_out : Z * Packet.t * Fingerprint * World :=
  match @getStructuredPacket adafruit_h c1_packet 1000 idle_driver c3_world with
  | Done out => out
  | _ => (0, c1_packet, idle_driver, c3_world)
  end.

(** The longest run of consecutive tests of [pl == pe] without an arrival,
    [cur] of them being behind us. *)
Fixpoint longest_gap (cur : nat) (ticks : list nat) : nat :=
  match ticks with
  | [] => cur
  | O :: ticks' => longest_gap (S cur) ticks'
  | S _ :: ticks' => Nat.max cur (longest_gap O ticks')
  end.

Definition c4_world : World :=
  mkWorld c1_frame
    [0; 1; 0; 1; 0; 1; 0; 1; 0; 1; 0; 1; 0; 1;
     0; 1; 0; 1; 0; 1; 0; 1; 0; 1; 0; 1; 0; 1]%nat 0.

Definition c4_out : Z * Packet.t * Fingerprint * World :=
  match @getStructuredPacket adafruit_h c1_packet 2 idle_driver c4_world with
  | Done out => out
  | _ => (0, c1_packet, idle_driver, c4_world)
  end.

Definition c7_packet : Packet.t :=
  @Fingerprint_Packet adafruit_h 0x01 1 [0x0F] (replicate 64 0).

Definition c7_sent : Fingerprint :=
  match writeStructuredPacket c7_packet idle_driver with
  | Done f => f
  | _ => idle_driver
  end.

Definition c7_silence : World := mkWorld [] [] 0.

Definition c7_out : Z * Packet.t * Fingerprint * World :=
  match @getStructuredPacket adafruit_h c7_packet 1000 c7_sent c7_silence with
  | Done out => out
  | _ => (0, c7_packet, c7_sent, c7_silence)
  end.

(** The response of the spec's scenario for [getParameters]: capacity 64,
    packet-length code 1, baud-rate code 6. *)
Definition c8_world : World :=
  mkWorld [0xEF; 0x01; 0xFF; 0xFF; 0xFF; 0xFF; 0x07; 0x00; 0x13;
           0x00; 0x00; 0x00; 0x00; 0x00; 0x00; 0x40; 0x00; 0x00;
           0x00; 0x00; 0x00; 0x00; 0x00; 0x01; 0x00; 0x06;
           0x00; 0x61] [28%nat] 0.

Definition c8_out : Z * Packet.t * Fingerprint * World :=
  match @getStructuredPacket adafruit_h c7_packet 1000 c7_sent c8_world with
  | Done out => out
  | _ => (0, c7_packet, c7_sent, c8_world)
  end.

Definition c9_packet : Packet.t :=
  @Fingerprint_Packet adafruit_h 0x01 6 [0x1B; 0x01; 0x00; 0x00; 0x00; 0xA3]
    (replicate 64 0).

Definition c9_sent : Fingerprint :=
  match writeStructuredPacket c9_packet idle_driver with
  | Done f => f
  | _ => idle_driver
  end.

(** An acknowledgment with status [FINGERPRINT_NOTFOUND] and the bytes
    0x12 0x34 0x00 0x56 behind it. *)
Definition c9_world : World :=
  mkWorld [0xEF; 0x01; 0xFF; 0xFF; 0xFF; 0xFF; 0x07; 0x00; 0x07;
           0x09; 0x12; 0x34; 0x00; 0x56; 0x00; 0xB3] [16%nat] 0.

Definition c9_out : Z * Packet.t * Fingerprint * World :=
  match @getStructuredPacket adafruit_h c9_packet 1000 c9_sent c9_world with
  | Done out => out
  | _ => (0, c9_packet, c9_sent, c9_world)
  end.

(** ** The rest of the driver *)

(** The command codes of [Fingerprint.h] the remaining commands use, the
    codes of the LED, and the default arguments the header gives to
    [image2Tz], [fingerSearch] and the last parameter of [LEDcontrol];
    like the constants above they are parameters. *)
Class FingerprintCmds : Type := {
  FINGERPRINT_VERIFYPASSWORD : Z;
  FINGERPRINT_GETIMAGE : Z;
  FINGERPRINT_IMAGE2TZ : Z;
  FINGERPRINT_REGMODEL : Z;
  FINGERPRINT_STORE : Z;
  FINGERPRINT_LOAD : Z;
  FINGERPRINT_UPLOAD : Z;
  FINGERPRINT_DELETE : Z;
  FINGERPRINT_EMPTY : Z;
  FINGERPRINT_LEDON : Z;
  FINGERPRINT_LEDOFF : Z;
  FINGERPRINT_AURALEDCONFIG : Z;
  FINGERPRINT_SEARCH : Z;
  FINGERPRINT_TEMPLATECOUNT : Z;
  FINGERPRINT_SETPASSWORD : Z;
  FINGERPRINT_LED_BREATHING : Z;
  FINGERPRINT_LED_ON : Z;
  FINGERPRINT_LED_RED : Z;
  FINGERPRINT_LED_BLUE : Z;
  FINGERPRINT_LED_PURPLE : Z;
  IMAGE2TZ_DEFAULT_SLOT : Z;
  SEARCH_DEFAULT_SLOT : Z;
  LEDCONTROL_DEFAULT_COUNT : Z
}.

(** The values of the Adafruit library. *)
Definition adafruit_cmds : FingerprintCmds := {|
  FINGERPRINT_VERIFYPASSWORD := 0x13;
  FINGERPRINT_GETIMAGE := 0x01;
  FINGERPRINT_IMAGE2TZ := 0x02;
  FINGERPRINT_REGMODEL := 0x05;
  FINGERPRINT_STORE := 0x06;
  FINGERPRINT_LOAD := 0x07;
  FINGERPRINT_UPLOAD := 0x08;
  FINGERPRINT_DELETE := 0x0C;
  FINGERPRINT_EMPTY := 0x0D;
  FINGERPRINT_LEDON := 0x50;
  FINGERPRINT_LEDOFF := 0x51;
  FINGERPRINT_AURALEDCONFIG := 0x35;
  FINGERPRINT_SEARCH := 0x04;
  FINGERPRINT_TEMPLATECOUNT := 0x1D;
  FINGERPRINT_SETPASSWORD := 0x12;
  FINGERPRINT_LED_BREATHING := 0x01;
  FINGERPRINT_LED_ON := 0x03;
  FINGERPRINT_LED_RED := 0x01;
  FINGERPRINT_LED_BLUE := 0x02;
  FINGERPRINT_LED_PURPLE := 0x03;
  IMAGE2TZ_DEFAULT_SLOT := 1;
  SEARCH_DEFAULT_SLOT := 1;
  LEDCONTROL_DEFAULT_COUNT := 0
|}.

Definition with_templateCount (cnt : Z) (f : Fingerprint) : Fingerprint :=
  mkFingerprint (thePassword f) (theAddress f) (status_reg f) (system_id f)
    (capacity f) (security_level f) (device_addr f) (packet_len f)
    (baud_rate f) (fingerID f) (confidence f) cnt
    (buffUART f) (pe f) (pl f) (R503Serial f).

Section Rest.
Context `{H : FingerprintH} `{C : FingerprintCmds}.

(** *** Repeated use of the ring *)

(** One call of [receiveUART] for each byte of [cs], in order. *)
Definition pushes (cs : list Z) (f : Fingerprint) : Fingerprint :=
  foldl (fun g c => receiveUART c g) f cs.

(** [n] calls of [readUARTbuff], with the bytes they return. *)
Fixpoint pops (n : nat) (f : Fingerprint) : list Z * Fingerprint :=
  match n with
  | O => ([], f)
  | S n' =>
      let '(c, f1) := readUARTbuff f in
      let '(cs, f2) := pops n' f1 in
      (c :: cs, f2)
  end.

(** *** The commands built on the two macros *)

(** The macro [SEND_CMD_PACKET]: [GET_CMD_PACKET] and
    [return packet.data[0]]. *)
Definition SEND_CMD_PACKET (args uninit : list Z) (f : Fingerprint)
    (w : World) : res (Z * Fingerprint * World) :=
  match GET_CMD_PACKET args uninit f w with
  | Done (Failed code, f', w') => Done (code, f', w')
  | Done (Got packet, f', w') =>
      if Z.of_nat (length (Packet.data packet)) <=? 0 then OutOfBounds
      else Done (at_ (Packet.data packet) 0, f', w')
  | OutOfBounds => OutOfBounds
  | Diverges => Diverges
  end.

Definition checkPassword (uninit : list Z) (f : Fingerprint) (w : World)
  : res (Z * Fingerprint * World) :=
  match GET_CMD_PACKET
          [ FINGERPRINT_VERIFYPASSWORD;
            u8 (Z.shiftr (thePassword f) 24);
            u8 (Z.shiftr (thePassword f) 16);
            u8 (Z.shiftr (thePassword f) 8);
            u8 (Z.land (thePassword f) 0xFF) ]
          uninit f w with
  | Done (Failed code, f', w') => Done (code, f', w')
  | Done (Got packet, f', w') =>
      if Z.of_nat (length (Packet.data packet)) <=? 0 then OutOfBounds
      else if at_ (Packet.data packet) 0 =? FINGERPRINT_OK
      then Done (FINGERPRINT_OK, f', w')
      else Done (FINGERPRINT_PACKETRECIEVEERR, f', w')
  | OutOfBounds => OutOfBounds
  | Diverges => Diverges
  end.

Definition verifyPassword (uninit : list Z) (f : Fingerprint) (w : World)
  : res (bool * Fingerprint * World) :=
  match checkPassword uninit f w with
  | Done (code, f', w') => Done (code =? FINGERPRINT_OK, f', w')
  | OutOfBounds => OutOfBounds
  | Diverges => Diverges
  end.

Definition getImage : list Z -> Fingerprint -> World
                      -> res (Z * Fingerprint * World) :=
  SEND_CMD_PACKET [FINGERPRINT_GETIMAGE].

Definition image2Tz (slot : Z) : list Z -> Fingerprint -> World
                                 -> res (Z * Fingerprint * World) :=
  SEND_CMD_PACKET [FINGERPRINT_IMAGE2TZ; slot].

Definition createModel : list Z -> Fingerprint -> World
                         -> res (Z * Fingerprint * World) :=
  SEND_CMD_PACKET [FINGERPRINT_REGMODEL].

Definition storeModel (location : Z) : list Z -> Fingerprint -> World
                                       -> res (Z * Fingerprint * World) :=
  SEND_CMD_PACKET
    [ FINGERPRINT_STORE; 0x01;
      u8 (Z.shiftr location 8); u8 (Z.land location 0xFF) ].

Definition loadModel (location : Z) : list Z -> Fingerprint -> World
                                      -> res (Z * Fingerprint * World) :=
  SEND_CMD_PACKET
    [ FINGERPRINT_LOAD; 0x01;
      u8 (Z.shiftr location 8); u8 (Z.land location 0xFF) ].

Definition getModel : list Z -> Fingerprint -> World
                      -> res (Z * Fingerprint * World) :=
  SEND_CMD_PACKET [FINGERPRINT_UPLOAD; 0x01].

Definition deleteModel (location : Z) : list Z -> Fingerprint -> World
                                        -> res (Z * Fingerprint * World) :=
  SEND_CMD_PACKET
    [ FINGERPRINT_DELETE;
      u8 (Z.shiftr location 8); u8 (Z.land location 0xFF); 0x00; 0x01 ].

Definition emptyDatabase : list Z -> Fingerprint -> World
                           -> res (Z * Fingerprint * World) :=
  SEND_CMD_PACKET [FINGERPRINT_EMPTY].

(** [LEDcontrol(bool on)] *)
Definition LEDcontrol (on : bool) : list Z -> Fingerprint -> World
                                    -> res (Z * Fingerprint * World) :=
  if on then SEND_CMD_PACKET [FINGERPRINT_LEDON]
  else SEND_CMD_PACKET [FINGERPRINT_LEDOFF].

(** [LEDcontrol(control, speed, coloridx, count)] *)
Definition LEDcontrol_aura (control speed coloridx count : Z)
  : list Z -> Fingerprint -> World -> res (Z * Fingerprint * World) :=
  SEND_CMD_PACKET [FINGERPRINT_AURALEDCONFIG; control; speed; coloridx; count].

Definition setPassword (password : Z) : list Z -> Fingerprint -> World
                                        -> res (Z * Fingerprint * World) :=
  SEND_CMD_PACKET
    [ FINGERPRINT_SETPASSWORD;
      u8 (Z.shiftr password 24); u8 (Z.shiftr password 16);
      u8 (Z.shiftr password 8); u8 password ].

(** [fingerSearch]; the request carries the member [capacity]. *)
Definition fingerSearch (slot : Z) (uninit : list Z) (f : Fingerprint)
    (w : World) : res (Z * Fingerprint * World) :=
  match GET_CMD_PACKET
          [ FINGERPRINT_SEARCH; slot; u8 0x00; u8 0x00;
            u8 (Z.shiftr (capacity f) 8); u8 (Z.land (capacity f) 0xFF) ]
          uninit f w with
  | Done (Failed code, f', w') => Done (code, f', w')
  | Done (Got packet, f', w') =>
      if Z.of_nat (length (Packet.data packet)) <=? 4 then OutOfBounds
      else Done (at_ (Packet.data packet) 0,
                 search_parse packet (search_sentinel f'), w')
  | OutOfBounds => OutOfBounds
  | Diverges => Diverges
  end.

(** The three assignments to the 16-bit member [templateCount]. *)
Definition count_parse (packet : Packet.t) (f : Fingerprint) : Fingerprint :=
  let d := at_ (Packet.data packet) in
  let f1 := with_templateCount (d 1%nat) f in
  let f2 := with_templateCount (u16 (Z.shiftl (templateCount f1) 8)) f1 in
  with_templateCount (Z.lor (templateCount f2) (d 2%nat)) f2.

Definition getTemplateCount (uninit : list Z) (f : Fingerprint) (w : World)
  : res (Z * Fingerprint * World) :=
  match GET_CMD_PACKET [FINGERPRINT_TEMPLATECOUNT] uninit f w with
  | Done (Failed code, f', w') => Done (code, f', w')
  | Done (Got packet, f', w') =>
      if Z.of_nat (length (Packet.data packet)) <=? 2 then OutOfBounds
      else Done (at_ (Packet.data packet) 0, count_parse packet f', w')
  | OutOfBounds => OutOfBounds
  | Diverges => Diverges
  end.

(** *** The identification routines of the application

    [getFingerprintIDez] and [getFingerprintID] on the global driver
    object [finger]; what they print is left out, what they send, return
    and store is as in the source.  Each command has its own packet
    object, with its own indeterminate content. *)

Definition getFingerprintIDez (u1 u2 u3 : list Z) (f : Fingerprint)
    (w : World) : res (Z * Fingerprint * World) :=
  match getImage u1 f w with
  | Done (p, f1, w1) =>
      if negb (p =? FINGERPRINT_OK) then Done (-1, f1, w1)
      else
        match image2Tz IMAGE2TZ_DEFAULT_SLOT u2 f1 w1 with
        | Done (p, f2, w2) =>
            if negb (p =? FINGERPRINT_OK) then Done (-1, f2, w2)
            else
              match fingerFastSearch u3 f2 w2 with
              | Done (p, f3, w3) =>
                  if negb (p =? FINGERPRINT_OK) then Done (-1, f3, w3)
                  else Done (fingerID f3, f3, w3)
              | OutOfBounds => OutOfBounds
              | Diverges => Diverges
              end
        | OutOfBounds => OutOfBounds
        | Diverges => Diverges
        end
  | OutOfBounds => OutOfBounds
  | Diverges => Diverges
  end.

(** Every [case] of the two [switch] statements other than
    [FINGERPRINT_OK] returns [p]; the return type is [uint8_t]. *)
Definition getFingerprintID (u1 u2 u3 : list Z) (f : Fingerprint)
    (w : World) : res (Z * Fingerprint * World) :=
  match getImage u1 f w with
  | Done (p, f1, w1) =>
      if negb (p =? FINGERPRINT_OK) then Done (p, f1, w1)
      else
        match image2Tz IMAGE2TZ_DEFAULT_SLOT u2 f1 w1 with
        | Done (p, f2, w2) =>
            if negb (p =? FINGERPRINT_OK) then Done (p, f2, w2)
            else
              match fingerSearch SEARCH_DEFAULT_SLOT u3 f2 w2 with
              | Done (p, f3, w3) =>
                  if p =? FINGERPRINT_OK then Done (u8 (fingerID f3), f3, w3)
                  else Done (p, f3, w3)
              | OutOfBounds => OutOfBounds
              | Diverges => Diverges
              end
        | OutOfBounds => OutOfBounds
        | Diverges => Diverges
        end
  | OutOfBounds => OutOfBounds
  | Diverges => Diverges
  end.

(** *** The LED routines of the application

    Each calls [finger.LEDcontrol] with three arguments, the fourth being
    the default of the header, and drops the result. *)

Definition dropped (r : res (Z * Fingerprint * World))
  : res (Fingerprint * World) :=
  match r with
  | Done (_, f', w') => Done (f', w')
  | OutOfBounds => OutOfBounds
  | Diverges => Diverges
  end.

Definition breathLED (uninit : list Z) (f : Fingerprint) (w : World)
  : res (Fingerprint * World) :=
  dropped (LEDcontrol_aura FINGERPRINT_LED_BREATHING 100 FINGERPRINT_LED_BLUE
             LEDCONTROL_DEFAULT_COUNT uninit f w).

Definition breathLEDFast (uninit : list Z) (f : Fingerprint) (w : World)
  : res (Fingerprint * World) :=
  dropped (LEDcontrol_aura FINGERPRINT_LED_BREATHING 20 FINGERPRINT_LED_BLUE
             LEDCONTROL_DEFAULT_COUNT uninit f w).

Definition purpleLED (uninit : list Z) (f : Fingerprint) (w : World)
  : res (Fingerprint * World) :=
  dropped (LEDcontrol_aura FINGERPRINT_LED_ON 0 FINGERPRINT_LED_PURPLE
             LEDCONTROL_DEFAULT_COUNT uninit f w).

Definition redLED (uninit : list Z) (f : Fingerprint) (w : World)
  : res (Fingerprint * World) :=
  dropped (LEDcontrol_aura FINGERPRINT_LED_ON 0 FINGERPRINT_LED_PURPLE
             LEDCONTROL_DEFAULT_COUNT uninit f w).

Definition blueLED (uninit : list Z) (f : Fingerprint) (w : World)
  : res (Fingerprint * World) :=
  dropped (LEDcontrol_aura FINGERPRINT_LED_ON 0 FINGERPRINT_LED_BLUE
             LEDCONTROL_DEFAULT_COUNT uninit f w).

(** *** Words for the statements *)

(** Side conditions on the header every statement about an exchange
    needs: a 16-bit start code and timeout, a payload array the 8-bit
    loop counter can index, a receive buffer. *)
Definition header_sane : Prop :=
  0 <= FINGERPRINT_STARTCODE < 65536 /\
  0 < DATA_SIZE <= 255 /\
  0 <= DEFAULTTIMEOUT < 65536 /\
  0 <= BUFF_SIZE.

(** The frame of the command packet with payload [args]. *)
Definition command_frame (args : list Z) : list Z :=
  let wl := Z.of_nat (length args) + 2 in
  let sum := (wl / 256 + wl mod 256 + FINGERPRINT_COMMANDPACKET
              + byte_sum args) mod 65536 in
  [ start_hi; start_lo; 0xFF; 0xFF; 0xFF; 0xFF;
    FINGERPRINT_COMMANDPACKET; wl / 256; wl mod 256 ]
  ++ args ++ [ sum / 256; sum mod 256 ].

(** The unread bytes of the ring followed by the bytes still on the line
    are [bytes]; all of them arrive, with fewer idle tests in all than
    [timeout], and fit the ring. *)
Definition pending (timeout : Z) (f : Fingerprint) (w : World)
    (bytes : list Z) : Prop :=
  exists q,
    ring_holds f q
    /\ Z.of_nat (length q) + Z.of_nat (length (rx w)) <= BUFF_SIZE
    /\ arrives_in_time timeout w
    /\ q ++ rx w = bytes.

(** [frame] is a frame of type [ty] with the bytes [body] behind its
    header, as many as its length field declares. *)
Definition reply (ty : Z) (body frame : list Z) : Prop :=
  exists a0 a1 a2 a3 lh ll,
    frame = header a0 a1 a2 a3 ty lh ll ++ body
    /\ body <> []
    /\ declared_length lh ll = Z.of_nat (length body).

(** The sensor answers: behind [junk] free of the start-code high byte,
    the pending bytes are a frame of type [ty] with body [body], then
    [rest]. *)
Definition answers (timeout : Z) (f : Fingerprint) (w : World)
    (junk : list Z) (ty : Z) (body rest : list Z) : Prop :=
  exists frame,
    reply ty body frame
    /\ pending timeout f w (junk ++ frame ++ rest)
    /\ Forall (fun b => b <> start_hi) junk.

(** The 16-bit number with high byte [hi] and low byte [lo], and the
    32-bit number with the bytes [b3] (highest) to [b0]. *)
Definition be16 (hi lo : Z) : Z := hi * 256 + lo.
Definition be32 (b3 b2 b1 b0 : Z) : Z :=
  ((b3 * 256 + b2) * 256 + b1) * 256 + b0.

End Rest.

(** ** Further inputs on which the theorems are evaluated *)

(** Two acknowledgment frames with a three-byte body. *)
Definition x5_frame1 : list Z :=
  [0xEF; 0x01; 0xFF; 0xFF; 0xFF; 0xFF; 0x07; 0x00; 0x03; 0x00; 0x00; 0x0A].

Definition x5_frame2 : list Z :=
  [0xEF; 0x01; 0xFF; 0xFF; 0xFF; 0xFF; 0x07; 0x00; 0x03; 0x09; 0x00; 0x13].

Definition x5_world : World :=
  mkWorld ([0x00] ++ x5_frame1 ++ [0x33; 0x44] ++ x5_frame2 ++ [0x55])
    [5; 0; 0; 9; 0; 30]%nat 0.

(** A header that declares the length 0, and a frame behind it. *)
Definition x6_world : World :=
  mkWorld ([0xEF; 0x01; 0xFF; 0xFF; 0xFF; 0xFF; 0x07; 0x00; 0x00]
           ++ x5_frame2) [21%nat] 0.

(** A packet with a data array of two elements that declares four. *)
Definition x7_packet : Packet.t :=
  Packet.mk 0xEF01 [0xFF; 0xFF; 0xFF; 0xFF] 0x01 4 [0x00; 0x00].

Definition x7_world : World := mkWorld x5_frame1 [12%nat] 0.

(** [getImage] answered by the first of the two frames. *)
Definition x9_out : Z * Fingerprint * World :=
  match @getImage adafruit_h adafruit_cmds (replicate 64 0) idle_driver
          x7_world with
  | Done out => out
  | _ => (0, idle_driver, x7_world)
  end.

(** [setPassword] and then [checkPassword], answered by the two frames. *)
Definition x13_out1 : Z * Fingerprint * World :=
  match @setPassword adafruit_h adafruit_cmds 0x01020304 (replicate 64 0)
          idle_driver x5_world with
  | Done out => out
  | _ => (0, idle_driver, x5_world)
  end.

Definition x13_out2 : Z * Fingerprint * World :=
  match @checkPassword adafruit_h adafruit_cmds (replicate 64 0)
          x13_out1.1.2 x13_out1.2 with
  | Done out => out
  | _ => (0, idle_driver, x5_world)
  end.

(** An acknowledgment with the confirmation code 0x13 (wrong password). *)
Definition x14_world : World :=
  mkWorld [0xEF; 0x01; 0xFF; 0xFF; 0xFF; 0xFF; 0x07; 0x00; 0x03;
           0x13; 0x00; 0x1D] [12%nat] 0.

(** An acknowledgment of [getTemplateCount]: confirmation code 1, count
    300. *)
Definition x15_world : World :=
  mkWorld [0xEF; 0x01; 0xFF; 0xFF; 0xFF; 0xFF; 0x07; 0x00; 0x05;
           0x01; 0x01; 0x2C; 0x00; 0x36] [14%nat] 0.

(** An acknowledgment of a search: confirmation code 9, identifier 258,
    confidence 100. *)
Definition x16_frame : list Z :=
  [0xEF; 0x01; 0xFF; 0xFF; 0xFF; 0xFF; 0x07; 0x00; 0x07;
   0x09; 0x01; 0x02; 0x00; 0x64; 0x00; 0x7E].

Definition x16_world : World := mkWorld x16_frame [16%nat] 0.

(** An acknowledgment of [getParameters] with the baud-rate code 12. *)
Definition x18_world : World :=
  mkWorld [0xEF; 0x01; 0xFF; 0xFF; 0xFF; 0xFF; 0x07; 0x00; 0x13;
           0x00; 0x00; 0x00; 0x00; 0x00; 0x00; 0x40; 0x00; 0x00;
           0x00; 0x00; 0x00; 0x00; 0x00; 0x01; 0x00; 0x0C;
           0x00; 0x67] [28%nat] 0.

(** A driver that remembers the match 7 with confidence 90 and the count
    12. *)
Definition x17_driver : Fingerprint := Fingerprint_ctor 0 7 90 12 ∅.

(** The answers to the three commands of an identification: two plain
    confirmations and a match, identifier 258 with confidence 100. *)
Definition x19_frame3 : list Z :=
  [0xEF; 0x01; 0xFF; 0xFF; 0xFF; 0xFF; 0x07; 0x00; 0x07;
   0x00; 0x01; 0x02; 0x00; 0x64; 0x00; 0x75].

Definition x19_world : World :=
  mkWorld (x5_frame1 ++ x5_frame1 ++ x19_frame3)
    [0; 12; 0; 0; 12; 0; 16]%nat 0.

(** The confirmation code 2 (no finger), and a frame behind it. *)
Definition x20_world : World :=
  mkWorld ([0xEF; 0x01; 0xFF; 0xFF; 0xFF; 0xFF; 0x07; 0x00; 0x03;
            0x02; 0x00; 0x0C] ++ x5_frame1) [24%nat] 0.

(** [redLED] answered by a plain confirmation. *)
Definition x22_out : Fingerprint * World :=
  match @redLED adafruit_h adafruit_cmds (replicate 64 0) idle_driver
          x7_world with
  | Done out => out
  | _ => (idle_driver, x7_world)
  end.

(** * Part II: lemmas *)

Section Lemmas.
Context `{H : FingerprintH}.

(** ** The receive ring is a queue *)

Lemma wrap_step (p : Z) :
  0 <= p <= BUFF_SIZE ->
  (if p + 1 >? BUFF_SIZE then 0 else p + 1) = (p + 1) mod (BUFF_SIZE + 1).
Proof.
  intros Hp. destruct (Z.gtb_spec (p + 1) BUFF_SIZE) as [Hgt|Hle].
  - assert (p + 1 = BUFF_SIZE + 1) as -> by lia.
    symmetry. apply Z.mod_same. lia.
  - symmetry. apply Z.mod_small. lia.
Qed.

Lemma mod_apart (a k n m : Z) :
  0 <= k < n -> n < m -> (a + k) mod m <> (a + n) mod m.
Proof.
  intros Hk Hn Heq.
  assert (Hd : ((a + n) - (a + k)) mod m = 0).
  { rewrite Zminus_mod, Heq, Z.sub_diag. apply Z.mod_0_l. lia. }
  replace (a + n - (a + k)) with (n - k) in Hd by lia.
  rewrite Z.mod_small in Hd; lia.
Qed.

Lemma ring_holds_nil (f : Fingerprint) :
  0 <= pl f <= BUFF_SIZE -> pe f = pl f -> ring_holds f [].
Proof.
  intros Hr He. repeat split; try lia.
  - cbn. lia.
  - cbn. rewrite Z.add_0_r, Z.mod_small; lia.
  - intros k c Hk. destruct k; discriminate.
Qed.

Lemma ring_empty_test (f : Fingerprint) (q : list Z) :
  ring_holds f q -> (pl f =? pe f) = true <-> q = [].
Proof.
  intros (Hr & Hn & He & _). rewrite Z.eqb_eq. split.
  - intros Heq. destruct q as [|c q]; [done|]. exfalso.
    apply (mod_apart (pl f) 0 (Z.of_nat (length (c :: q))) (BUFF_SIZE + 1)).
    + cbn [length]. lia.
    + lia.
    + rewrite <- He, <- Heq, Z.add_0_r, Z.mod_small; lia.
  - intros ->. rewrite He. cbn. rewrite Z.add_0_r, Z.mod_small; lia.
Qed.

Lemma receiveUART_holds (c : Z) (f : Fingerprint) (q : list Z) :
  ring_holds f q -> Z.of_nat (length q) < BUFF_SIZE ->
  ring_holds (receiveUART c f) (q ++ [c]).
Proof.
  intros (Hr & Hn & He & Hc) Hlt.
  assert (Hpe : 0 <= pe f <= BUFF_SIZE).
  { rewrite He.
    pose proof (Z.mod_pos_bound (pl f + Z.of_nat (length q)) (BUFF_SIZE + 1)).
    lia. }
  unfold ring_holds, receiveUART. cbn.
  rewrite length_app. cbn [length].
  split; [lia|]. split; [lia|]. split.
  - rewrite wrap_step by lia. rewrite He.
    rewrite Zplus_mod_idemp_l. f_equal. lia.
  - intros k d Hk.
    destruct (decide (k < length q)%nat) as [Hin|Hout].
    + rewrite lookup_app_l in Hk by done.
      rewrite lookup_insert_ne; [by apply Hc|].
      rewrite He. intros Heq. symmetry in Heq. revert Heq.
      apply mod_apart; lia.
    + assert (k = length q) as ->.
      { apply lookup_lt_Some in Hk. rewrite length_app in Hk. cbn in Hk. lia. }
      rewrite lookup_app_r in Hk by lia.
      rewrite Nat.sub_diag in Hk. cbn in Hk. injection Hk as <-.
      rewrite <- He. apply lookup_insert_eq.
Qed.

Lemma readUARTbuff_holds (f : Fingerprint) (c : Z) (q : list Z) :
  ring_holds f (c :: q) ->
  (readUARTbuff f).1 = c /\ ring_holds (readUARTbuff f).2 q.
Proof.
  intros (Hr & Hn & He & Hc). cbn [length] in *.
  unfold readUARTbuff. cbn. split.
  - specialize (Hc 0%nat c eq_refl). cbn in Hc.
    rewrite Z.add_0_r, Z.mod_small in Hc by lia. by rewrite Hc.
  - unfold ring_holds. cbn. rewrite wrap_step by lia.
    pose proof (Z.mod_pos_bound (pl f + 1) (BUFF_SIZE + 1)).
    split; [lia|]. split; [lia|]. split.
    + rewrite He, Zplus_mod_idemp_l. f_equal. lia.
    + intros k d Hk. rewrite Zplus_mod_idemp_l.
      specialize (Hc (S k) d Hk).
      replace (pl f + 1 + Z.of_nat k) with (pl f + Z.of_nat (S k)) by lia.
      done.
Qed.

Lemma interrupts_holds (n : nat) (line : list Z) (f : Fingerprint) (q : list Z) :
  ring_holds f q ->
  Z.of_nat (length q) + Z.of_nat (length line) <= BUFF_SIZE ->
  (interrupts n f line).2 = drop n line /\
  ring_holds (interrupts n f line).1 (q ++ take n line).
Proof.
  revert line f q. induction n as [|n IH]; intros line f q Hq Hlen.
  - cbn. rewrite drop_0, take_0, app_nil_r. done.
  - destruct line as [|c line]; cbn [interrupts].
    + cbn. rewrite app_nil_r. done.
    + cbn [length] in Hlen.
      destruct (IH line (receiveUART c f) (q ++ [c])) as [Hd Hh].
      * apply receiveUART_holds; [done|lia].
      * rewrite length_app. cbn [length]. lia.
      * split; [done|]. rewrite <- app_assoc in Hh. done.
Qed.

Lemma poll_holds (f : Fingerprint) (w : World) (q : list Z) :
  ring_holds f q ->
  Z.of_nat (length q) + Z.of_nat (length (rx w)) <= BUFF_SIZE ->
  (poll f w).2 = (fifo_poll q w).2 /\
  ring_holds (poll f w).1 (fifo_poll q w).1 /\
  (fifo_poll q w).1 ++ rx (fifo_poll q w).2 = q ++ rx w.
Proof.
  intros Hq Hlen. unfold poll, fifo_poll.
  destruct (arrivals w) as [|n rest]; [done|].
  destruct (interrupts_holds n (rx w) f q Hq Hlen) as [Hd Hh].
  destruct (interrupts n f (rx w)) as [f' line']. cbn in *. subst line'.
  split; [done|]. split; [done|].
  by rewrite <- app_assoc, take_drop.
Qed.

(** The ring is a queue: the parser over the ring and the parser over
    the list of unread bytes return the same. *)
Lemma gsp_loop_fifo (fuel : nat) (timeout : Z) (f : Fingerprint)
    (w : World) (q : list Z) (packet : Packet.t) (idx timer : Z) :
  ring_holds f q ->
  Z.of_nat (length q) + Z.of_nat (length (rx w)) <= BUFF_SIZE ->
  match fifo_loop fuel timeout q w packet idx timer with
  | Done (code, p, q', w') =>
      exists f', gsp_loop fuel timeout f w packet idx timer
                 = Done (code, p, f', w') /\ ring_holds f' q'
  | OutOfBounds => gsp_loop fuel timeout f w packet idx timer = OutOfBounds
  | Diverges => gsp_loop fuel timeout f w packet idx timer = Diverges
  end.
Proof.
  revert f w q packet idx timer.
  induction fuel as [|fuel IH]; intros f w q packet idx timer Hq Hlen;
    [done|].
  cbn [fifo_loop gsp_loop].
  destruct (poll_holds f w q Hq Hlen) as (Hw & Hh & Hcons).
  destruct (poll f w) as [f1 w1], (fifo_poll q w) as [q1 w1'].
  cbn in Hw, Hh, Hcons. subst w1'.
  assert (Hlen1 : Z.of_nat (length q1) + Z.of_nat (length (rx w1)) <= BUFF_SIZE).
  { rewrite <- Nat2Z.inj_add, <- length_app, Hcons, length_app. lia. }
  pose proof (ring_empty_test f1 q1 Hh) as Htest.
  destruct q1 as [|byte q2].
  - rewrite (proj2 Htest eq_refl).
    destruct (u16 (timer + 1) >=? timeout).
    + exists f1. done.
    + apply IH; [done|]. cbn in *. lia.
  - destruct Htest as [Ht _].
    destruct (pl f1 =? pe f1); [by specialize (Ht eq_refl)|].
    destruct (readUARTbuff_holds f1 byte q2 Hh) as [Hb Hh2].
    destruct (readUARTbuff f1) as [b f2]. cbn in Hb, Hh2. subst b.
    destruct (gsp_switch packet idx byte) as [p' i'|code p'|].
    + apply IH; [done|]. cbn [length] in Hlen1. lia.
    + exists f2. done.
    + done.
Qed.

(** ** What a call of [getStructuredPacket] returns *)

Lemma fifo_loop_run (fuel : nat) (timeout : Z) (q : list Z) (w : World)
    (packet : Packet.t) (idx timer : Z) :
  0 <= timer -> timer < timeout \/ timer = 0 -> timeout < 65536 ->
  (length (arrivals w) + length q + length (rx w) + budget timer timeout
   < fuel)%nat ->
  let r := readable (length q) (length (rx w)) (arrivals w) timer timeout in
  match run packet idx (take r (q ++ rx w)) with
  | Returned code p rest =>
      exists consumed q' w',
        fifo_loop fuel timeout q w packet idx timer = Done (code, p, q', w')
        /\ take r (q ++ rx w) = consumed ++ rest
        /\ q ++ rx w = consumed ++ q' ++ rx w'
  | Starved p i =>
      exists w',
        fifo_loop fuel timeout q w packet idx timer
        = Done (FINGERPRINT_TIMEOUT, p, [], w')
        /\ q ++ rx w = take r (q ++ rx w) ++ rx w'
  | Overran => fifo_loop fuel timeout q w packet idx timer = OutOfBounds
  end.
Proof.
  revert q w packet idx timer.
  induction fuel as [|fuel IH]; intros q w packet idx timer Ht0 Ht Hto Hfuel;
    [lia|].
  destruct w as [line ticks sl]. cbn [rx arrivals] in *.
  cbn [fifo_loop]. unfold fifo_poll. cbn [rx arrivals slept].
  assert (Hu : u16 (timer + 1) = timer + 1).
  { unfold u16. apply Z.mod_small. lia. }
  destruct ticks as [|n ticks].
  - (* nothing arrives any more *)
    cbn [readable]. rewrite take_app_length.
    destruct q as [|byte q2].
    + cbn [run]. rewrite Hu.
      destruct (Z.geb_spec (timer + 1) timeout) as [Hge|Hlt].
      * eexists. split; [done|]. done.
      * specialize (IH [] (mkWorld line [] (sl + 1)) packet idx (timer + 1)).
        cbn [rx arrivals length readable] in IH.
        rewrite take_0 in IH. cbn [run] in IH.
        apply IH; try lia. unfold budget in *. cbn [length] in Hfuel. lia.
    + cbn [run].
      specialize (IH q2 (mkWorld line [] sl)).
      cbn [rx arrivals length readable] in IH.
      rewrite take_app_length in IH.
      destruct (gsp_switch packet idx byte) as [p' i'|code p'|]; [| |done].
      * specialize (IH p' i' timer Ht0 Ht Hto).
        cbn [length] in Hfuel.
        specialize (IH ltac:(lia)).
        destruct (run p' i' q2) as [code p rest|p i|]; [| |done].
        -- destruct IH as (consumed & q' & w' & He & Hc1 & Hc2).
           exists (byte :: consumed), q', w'. split; [done|].
           split; cbn; by f_equal.
        -- destruct IH as (w' & He & Hc). exists w'. split; [done|].
           cbn. by f_equal.
      * exists [byte], q2, (mkWorld line [] sl). done.
  - (* the interrupts of this turn *)
    cbn [readable].
    assert (Hl1 : (length q + n `min` length line)%nat
                  = length (q ++ take n line)).
    { rewrite length_app, length_take. done. }
    assert (Hl2 : (length line - n)%nat = length (drop n line)).
    { by rewrite length_drop. }
    assert (Hcons : q ++ line = (q ++ take n line) ++ drop n line).
    { by rewrite <- app_assoc, take_drop. }
    rewrite Hl1, Hl2, Hcons.
    assert (Hsum : (length (q ++ take n line) + length (drop n line)
                    = length q + length line)%nat).
    { rewrite <- length_app, <- Hcons, length_app. done. }
    cbn [length] in Hfuel.
    destruct (q ++ take n line) as [|byte q2].
    + cbn [length]. rewrite Hu.
      destruct (Z.geb_spec (timer + 1) timeout) as [Hge|Hlt].
      * cbn. eexists. split; [done|]. done.
      * specialize (IH [] (mkWorld (drop n line) ticks (sl + 1))
                      packet idx (timer + 1)).
        cbn [rx arrivals length] in IH. cbn [app] in *.
        apply IH; try lia. unfold budget in *. cbn [length] in Hsum. lia.
    + cbn [length]. cbn [take app run].
      specialize (IH q2 (mkWorld (drop n line) ticks sl)).
      cbn [rx arrivals] in IH.
      destruct (gsp_switch packet idx byte) as [p' i'|code p'|]; [| |done].
      * specialize (IH p' i' timer Ht0 Ht Hto).
        cbn [length] in Hsum.
        specialize (IH ltac:(lia)). cbn zeta in IH.
        destruct (run p' i' _) as [code p rest|p i|]; [| |done].
        -- destruct IH as (consumed & q' & w' & He & Hc1 & Hc2).
           exists (byte :: consumed), q', w'. split; [done|].
           split; cbn; by f_equal.
        -- destruct IH as (w' & He & Hc). exists w'. split; [done|].
           cbn. by f_equal.
      * eexists [byte], q2, _. split; [done|]. split; [|done].
        cbn. done.
Qed.

Lemma interrupts_session (n : nat) (line : list Z) (f : Fingerprint) :
  session (interrupts n f line).1 = session f /\
  R503Serial (interrupts n f line).1 = R503Serial f.
Proof.
  revert line f. induction n as [|n IH]; intros [|c line] f; try done.
  cbn [interrupts]. destruct (IH line (receiveUART c f)) as [-> ->]. done.
Qed.

Lemma gsp_loop_session (fuel : nat) (timeout : Z) (f f' : Fingerprint)
    (w w' : World) (packet p : Packet.t) (idx timer code : Z) :
  gsp_loop fuel timeout f w packet idx timer = Done (code, p, f', w') ->
  session f' = session f /\ R503Serial f' = R503Serial f.
Proof.
  revert f w packet idx timer.
  induction fuel as [|fuel IH]; intros f w packet idx timer; [done|].
  cbn [gsp_loop].
  assert (Hp : session (poll f w).1 = session f
               /\ R503Serial (poll f w).1 = R503Serial f).
  { unfold poll. destruct (arrivals w) as [|n rest]; [done|].
    pose proof (interrupts_session n (rx w) f) as Hi.
    by destruct (interrupts n f (rx w)). }
  destruct (poll f w) as [f1 w1]. cbn in Hp. destruct Hp as [Hs Hr].
  destruct (pl f1 =? pe f1).
  - destruct (u16 (timer + 1) >=? timeout).
    + intros [= <- <- <- <-]. done.
    + intros Hl. apply IH in Hl. destruct Hl as [-> ->]. done.
  - unfold readUARTbuff.
    destruct (gsp_switch packet idx _) as [p' i'|c p'|]; [| |done].
    + intros Hl. apply IH in Hl. destruct Hl as [-> ->]. done.
    + intros [= <- <- <- <-]. done.
Qed.

Lemma gsp_switch_code (packet p : Packet.t) (idx byte code : Z) :
  gsp_switch packet idx byte = Return code p ->
  code = FINGERPRINT_BADPACKET \/ code = FINGERPRINT_OK.
Proof.
  unfold gsp_switch.
  destruct (idx =? 0); [by destruct (negb _)|].
  destruct (idx =? 1).
  { destruct (negb _); [|done]. intros [= <- <-]. by left. }
  destruct ((2 <=? idx) && (idx <=? 5)); [done|].
  destruct (idx =? 6); [done|].
  destruct (idx =? 7); [done|].
  destruct (idx =? 8); [done|].
  destruct (_ <=? idx - 9); [done|].
  destruct (idx - 8 =? _); [|done].
  intros [= <- <-]. by right.
Qed.

(** The count of [sleep_for(1ms)] calls and the [timer] move together,
    and the timer is never set back: the call returns
    [FINGERPRINT_TIMEOUT] when their common count reaches [timeout], and
    it returns from the [switch] only below it. *)
Lemma gsp_loop_slept (fuel : nat) (timeout : Z) (f f' : Fingerprint)
    (w w' : World) (packet p : Packet.t) (idx timer code : Z) :
  0 <= timer -> timer < timeout \/ timer = 0 -> timeout < 65536 ->
  gsp_loop fuel timeout f w packet idx timer = Done (code, p, f', w') ->
  let s := slept w' - slept w in
  (code = FINGERPRINT_TIMEOUT /\ 1 <= s /\ timeout <= timer + s
   /\ (timer + s - 1 < timeout \/ s = 1))
  \/ ((code = FINGERPRINT_OK \/ code = FINGERPRINT_BADPACKET)
      /\ 0 <= s /\ (timer + s < timeout \/ s = 0)).
Proof.
  revert f w packet idx timer.
  induction fuel as [|fuel IH]; intros f w packet idx timer Ht0 Ht Hto;
    [done|].
  cbn [gsp_loop].
  assert (Hp : slept (poll f w).2 = slept w).
  { unfold poll. destruct (arrivals w) as [|n rest]; [done|].
    by destruct (interrupts n f (rx w)). }
  destruct (poll f w) as [f1 w1]. cbn in Hp.
  assert (Hu : u16 (timer + 1) = timer + 1).
  { unfold u16. apply Z.mod_small. lia. }
  destruct (pl f1 =? pe f1).
  - rewrite Hu. destruct (Z.geb_spec (timer + 1) timeout) as [Hge|Hlt].
    + intros [= <- <- <- <-]. cbn. left. lia.
    + intros Hl. apply IH in Hl; [|lia..]. cbn in Hl. lia.
  - unfold readUARTbuff.
    destruct (gsp_switch packet idx _) as [p' i'|c p'|] eqn:Hsw; [| |done].
    + intros Hl. apply IH in Hl; [|lia..]. lia.
    + intros [= <- <- <- <-]. right.
      apply gsp_switch_code in Hsw. split; [tauto|lia].
Qed.

(** Every call returns, and what it returns is what the state machine
    makes of the bytes it gets to read within the budget. *)
Lemma getStructuredPacket_run (packet : Packet.t) (timeout : Z)
    (f : Fingerprint) (w : World) (q : list Z) :
  ring_holds f q ->
  Z.of_nat (length q) + Z.of_nat (length (rx w)) <= BUFF_SIZE ->
  0 <= timeout < 65536 ->
  let r := readable (length q) (length (rx w)) (arrivals w) 0 timeout in
  match run packet 0 (take r (q ++ rx w)) with
  | Returned code p rest =>
      exists consumed q' f' w',
        getStructuredPacket packet timeout f w = Done (code, p, f', w')
        /\ ring_holds f' q'
        /\ take r (q ++ rx w) = consumed ++ rest
        /\ q ++ rx w = consumed ++ q' ++ rx w'
  | Starved p i =>
      exists f' w',
        getStructuredPacket packet timeout f w
        = Done (FINGERPRINT_TIMEOUT, p, f', w')
        /\ ring_holds f' []
        /\ q ++ rx w = take r (q ++ rx w) ++ rx w'
  | Overran => getStructuredPacket packet timeout f w = OutOfBounds
  end.
Proof.
  intros Hq Hlen Hto r. unfold getStructuredPacket.
  pose proof (fifo_loop_run (gsp_fuel timeout w) timeout q w packet 0 0)
    as Hrun.
  pose proof (gsp_loop_fifo (gsp_fuel timeout w) timeout f w q packet 0 0
                Hq Hlen) as Hsim.
  cbn zeta in Hrun. fold r in Hrun.
  assert (Hfuel : (length (arrivals w) + length q + length (rx w)
                   + budget 0 timeout < gsp_fuel timeout w)%nat).
  { unfold gsp_fuel, budget. lia. }
  specialize (Hrun ltac:(lia) ltac:(lia) ltac:(lia) Hfuel).
  destruct (run packet 0 (take r (q ++ rx w))) as [code p rest|p i|].
  - destruct Hrun as (consumed & q' & w' & He & Hc1 & Hc2).
    rewrite He in Hsim. destruct Hsim as (f' & Hg & Hh).
    exists consumed, q', f', w'. done.
  - destruct Hrun as (w' & He & Hc).
    rewrite He in Hsim. destruct Hsim as (f' & Hg & Hh).
    exists f', w'. done.
  - rewrite Hrun in Hsim. done.
Qed.

(** ** The state machine on a frame *)

Lemma lor_shift8 (h b : Z) :
  0 <= h -> 0 <= b < 256 -> Z.lor (Z.shiftl h 8) b = h * 256 + b.
Proof.
  intros Hh Hb.
  assert (Hl : Z.land (Z.shiftl h 8) b = 0).
  { apply Z.bits_inj'. intros n Hn.
    rewrite Z.land_spec, Z.bits_0.
    destruct (Z.lt_ge_cases n 8) as [Hlt|Hge].
    - rewrite Z.shiftl_spec_low by lia. done.
    - destruct (Z.eq_dec b 0) as [->|Hb0].
      + rewrite Z.bits_0. apply andb_false_r.
      + rewrite (Z.bits_above_log2 b n); [apply andb_false_r|lia|].
        assert (Z.log2 b < 8); [|lia].
        apply Z.log2_lt_pow2; lia. }
  pose proof (Z.add_lor_land (Z.shiftl h 8) b) as Ha.
  rewrite Hl, Z.add_0_r in Ha. rewrite Ha.
  rewrite Z.shiftl_mul_pow2 by lia. lia.
Qed.

Lemma start_hi_div : start_hi = FINGERPRINT_STARTCODE / 256.
Proof. unfold start_hi. by rewrite Z.shiftr_div_pow2. Qed.

Lemma start_lo_mod : start_lo = FINGERPRINT_STARTCODE mod 256.
Proof. unfold start_lo. by rewrite (Z.land_ones _ 8). Qed.

(** After the high byte, the second byte completes the start code exactly
    when it is the low byte. *)
Lemma start_code_second (b : Z) :
  0 <= FINGERPRINT_STARTCODE < 65536 -> 0 <= b < 256 ->
  Z.lor (u16 (Z.shiftl start_hi 8)) b = FINGERPRINT_STARTCODE <-> b = start_lo.
Proof.
  intros Hs Hb. rewrite start_lo_mod.
  pose proof (Z.div_mod FINGERPRINT_STARTCODE 256 ltac:(lia)) as Hdm.
  pose proof (Z.mod_pos_bound FINGERPRINT_STARTCODE 256 ltac:(lia)) as Hm.
  assert (Hhi : 0 <= start_hi < 256).
  { rewrite start_hi_div. split; [apply Z.div_pos; lia|].
    apply Z.div_lt_upper_bound; lia. }
  assert (Hu : u16 (Z.shiftl start_hi 8) = Z.shiftl start_hi 8).
  { unfold u16. apply Z.mod_small.
    rewrite Z.shiftl_mul_pow2 by lia. lia. }
  rewrite Hu, lor_shift8 by lia. rewrite start_hi_div. lia.
Qed.

Lemma gsp_switch_skip (p : Packet.t) (b : Z) :
  b <> start_hi -> gsp_switch p 0 b = Next p 0.
Proof.
  intros Hb. unfold gsp_switch. cbn.
  destruct (Z.eqb_spec b (Z.shiftr FINGERPRINT_STARTCODE 8)); done.
Qed.

Lemma gsp_switch_hit (p : Packet.t) :
  gsp_switch p 0 start_hi
  = Next (Packet.with_start_code (u16 (Z.shiftl start_hi 8)) p) 1.
Proof.
  unfold gsp_switch, start_hi. cbn. by rewrite Z.eqb_refl.
Qed.

Lemma gsp_switch_default (p : Packet.t) (idx b : Z) :
  9 <= idx ->
  gsp_switch p idx b =
    if Z.of_nat (length (Packet.data p)) <=? idx - 9 then Overrun
    else
      let p' := Packet.with_data (<[Z.to_nat (idx - 9) := b]> (Packet.data p)) p in
      if idx - 8 =? Packet.length p then Return FINGERPRINT_OK p'
      else Next p' (u16 (idx + 1)).
Proof.
  intros Hi. unfold gsp_switch.
  destruct (Z.eqb_spec idx 0); [lia|].
  destruct (Z.eqb_spec idx 1); [lia|].
  destruct (Z.leb_spec idx 5); [lia|]. rewrite andb_false_r.
  destruct (Z.eqb_spec idx 6); [lia|].
  destruct (Z.eqb_spec idx 7); [lia|].
  destruct (Z.eqb_spec idx 8); [lia|]. done.
Qed.

(** States 1 to 8 on the eight bytes behind the start-code high byte. *)
Lemma run_header (p : Packet.t) (b a0 a1 a2 a3 ty lh ll : Z) (bs : list Z) :
  run p 1 (b :: a0 :: a1 :: a2 :: a3 :: ty :: lh :: ll :: bs) =
    if negb (Z.lor (Packet.start_code p) b =? FINGERPRINT_STARTCODE)
    then Returned FINGERPRINT_BADPACKET
           (Packet.with_start_code (Z.lor (Packet.start_code p) b) p)
           (a0 :: a1 :: a2 :: a3 :: ty :: lh :: ll :: bs)
    else run (Packet.mk (Z.lor (Packet.start_code p) b)
                (<[3%nat := a3]> (<[2%nat := a2]> (<[1%nat := a1]>
                   (<[0%nat := a0]> (Packet.address p)))))
                ty (declared_length lh ll) (Packet.data p)) 9 bs.
Proof.
  cbn [run]. unfold gsp_switch at 1. cbn.
  destruct (negb _); reflexivity.
Qed.

Lemma address_filled (a : list Z) (a0 a1 a2 a3 : Z) :
  length a = 4%nat ->
  <[3%nat := a3]> (<[2%nat := a2]> (<[1%nat := a1]> (<[0%nat := a0]> a)))
  = [a0; a1; a2; a3].
Proof.
  destruct a as [|? [|? [|? [|? [|? ?]]]]]; done.
Qed.

Lemma gsp_switch_second (p : Packet.t) (b : Z) :
  gsp_switch p 1 b =
    let p' := Packet.with_start_code (Z.lor (Packet.start_code p) b) p in
    if negb (Packet.start_code p' =? FINGERPRINT_STARTCODE)
    then Return FINGERPRINT_BADPACKET p' else Next p' 2.
Proof. reflexivity. Qed.

Lemma take_S_insert (l : list Z) (k : nat) (b : Z) :
  (k < length l)%nat -> take (S k) (<[k := b]> l) = take k l ++ [b].
Proof.
  intros Hk. rewrite insert_take_drop by done.
  rewrite take_app_ge; rewrite length_take, Nat.min_l by lia; [|lia].
  replace (S k - k)%nat with 1%nat by lia. done.
Qed.

Lemma run_body (body rest : list Z) (p : Packet.t) (k : nat) :
  body <> [] ->
  Packet.length p = Z.of_nat (k + length body) ->
  (k + length body <= length (Packet.data p))%nat ->
  Z.of_nat (length (Packet.data p)) < 65527 ->
  run p (9 + Z.of_nat k) (body ++ rest)
  = Returned FINGERPRINT_OK
      (Packet.with_data
         (take k (Packet.data p) ++ body
          ++ drop (k + length body) (Packet.data p)) p)
      rest.
Proof.
  revert p k. induction body as [|b body IH]; intros p k Hne Hl Hfit Hsmall;
    [done|].
  cbn [length] in Hl, Hfit. cbn [app run].
  rewrite gsp_switch_default by lia.
  destruct (Z.leb_spec (Z.of_nat (length (Packet.data p)))
              (9 + Z.of_nat k - 9)) as [Hov|_]; [lia|].
  replace (Z.to_nat (9 + Z.of_nat k - 9)) with k by lia. cbn zeta.
  destruct (Z.eqb_spec (9 + Z.of_nat k - 8) (Packet.length p)) as [He|Hn].
  - destruct body as [|b' body]; [|cbn [length] in Hl; lia].
    cbn [app length]. rewrite insert_take_drop by lia.
    replace (k + 1)%nat with (S k) by lia. done.
  - assert (Hu : u16 (9 + Z.of_nat k + 1) = 9 + Z.of_nat (S k)).
    { unfold u16. rewrite Z.mod_small; lia. }
    rewrite Hu.
    assert (Hb : body <> []) by (intros ->; cbn [length] in Hl; lia).
    rewrite IH; cbn [Packet.with_data Packet.data Packet.length];
      [|done|lia|rewrite length_insert; lia|rewrite length_insert; lia].
    unfold Packet.with_data. cbn. f_equal. f_equal.
    rewrite take_S_insert by lia.
    rewrite drop_insert_lt by lia.
    rewrite <- app_assoc. cbn.
    replace (k + S (length body))%nat with (S (k + length body)) by lia.
    done.
Qed.

Lemma run_body_inv (bs rest : list Z) (p p' : Packet.t) (k : nat) (code : Z) :
  Z.of_nat (length (Packet.data p)) < 65527 ->
  run p (9 + Z.of_nat k) bs = Returned code p' rest ->
  exists body,
    bs = body ++ rest /\ body <> []
    /\ Packet.length p = Z.of_nat (k + length body)
    /\ (k + length body <= length (Packet.data p))%nat.
Proof.
  revert p k. induction bs as [|b bs IH]; intros p k Hsmall; [done|].
  cbn [run]. rewrite gsp_switch_default by lia.
  destruct (Z.leb_spec (Z.of_nat (length (Packet.data p)))
              (9 + Z.of_nat k - 9)) as [Hov|Hin]; [done|].
  cbn zeta.
  destruct (Z.eqb_spec (9 + Z.of_nat k - 8) (Packet.length p)) as [He|Hn].
  - intros [= <- <- <-]. exists [b]. cbn [length]. repeat split; [done|lia..].
  - assert (Hu : u16 (9 + Z.of_nat k + 1) = 9 + Z.of_nat (S k)).
    { unfold u16. rewrite Z.mod_small; lia. }
    rewrite Hu. intros Hr. apply IH in Hr.
    + destruct Hr as (body & -> & Hb & Hl & Hfit).
      cbn [Packet.with_data Packet.data Packet.length] in Hl, Hfit.
      rewrite length_insert in Hfit.
      exists (b :: body). cbn [length]. repeat split; [done|lia..].
    + cbn. rewrite length_insert. done.
Qed.

Lemma run_cons (p : Packet.t) (idx b : Z) (bs : list Z) :
  run p idx (b :: bs) =
    match gsp_switch p idx b with
    | Next p' idx' => run p' idx' bs
    | Return code p' => Returned code p' bs
    | Overrun => Overran
    end.
Proof. reflexivity. Qed.

Lemma run_skip (junk bs : list Z) (p : Packet.t) :
  Forall (fun b => b <> start_hi) junk ->
  run p 0 (junk ++ bs) = run p 0 bs.
Proof.
  induction 1 as [|b junk Hb _ IH]; [done|].
  cbn [app run]. by rewrite gsp_switch_skip.
Qed.

Lemma run_starved_prefix (l1 l2 : list Z) (p p2 : Packet.t) (idx i2 : Z) :
  run p idx (l1 ++ l2) = Starved p2 i2 ->
  exists p1 i1, run p idx l1 = Starved p1 i1.
Proof.
  revert p idx. induction l1 as [|b l1 IH]; intros p idx; [by eexists _, _|].
  cbn [app run]. destruct (gsp_switch p idx b); [by apply IH|done..].
Qed.

(** A frame, possibly behind bytes that are not the start-code high byte,
    is accepted; the packet holds every byte behind the length field. *)
Lemma run_frame (junk body rest : list Z) (a0 a1 a2 a3 ty lh ll : Z)
    (p : Packet.t) :
  Forall (fun b => b <> start_hi) junk ->
  0 <= FINGERPRINT_STARTCODE < 65536 ->
  length (Packet.address p) = 4%nat ->
  body <> [] ->
  declared_length lh ll = Z.of_nat (length body) ->
  (length body <= length (Packet.data p))%nat ->
  Z.of_nat (length (Packet.data p)) < 65527 ->
  run p 0 (junk ++ [start_hi; start_lo; a0; a1; a2; a3; ty; lh; ll]
           ++ body ++ rest)
  = Returned FINGERPRINT_OK
      (Packet.mk FINGERPRINT_STARTCODE [a0; a1; a2; a3] ty
         (Z.of_nat (length body))
         (body ++ drop (length body) (Packet.data p)))
      rest.
Proof.
  intros Hj Hs Ha Hb Hl Hfit Hsmall.
  rewrite run_skip by done. cbn [app].
  rewrite run_cons, gsp_switch_hit, run_header.
  cbn [Packet.with_start_code Packet.start_code Packet.address Packet.data].
  assert (Hlo : 0 <= start_lo < 256).
  { rewrite start_lo_mod. apply Z.mod_pos_bound. lia. }
  rewrite (proj2 (start_code_second start_lo Hs Hlo) eq_refl).
  rewrite Z.eqb_refl. cbn [negb].
  rewrite address_filled by done.
  rewrite (run_body body rest _ 0); cbn; [|done|lia..].
  by rewrite Hl.
Qed.

Lemma run_header_short (p : Packet.t) (b : Z) (bs : list Z) :
  (length bs < 7)%nat ->
  (exists p1 i1, run p 1 (b :: bs) = Starved p1 i1) \/
  (exists p1 r, run p 1 (b :: bs) = Returned FINGERPRINT_BADPACKET p1 r).
Proof.
  intros Hl.
  do 7 (destruct bs as [|? bs];
        [cbn [run]; unfold gsp_switch at 1; cbn; destruct (negb _); eauto|]).
  cbn in Hl. lia.
Qed.

(** A wrong second byte ends the call with [FINGERPRINT_BADPACKET]. *)
Lemma run_bad_start (junk tail : list Z) (b : Z) (p : Packet.t) :
  Forall (fun c => c <> start_hi) junk ->
  0 <= FINGERPRINT_STARTCODE < 65536 ->
  is_byte b -> b <> start_lo ->
  run p 0 (junk ++ start_hi :: b :: tail)
  = Returned FINGERPRINT_BADPACKET
      (Packet.with_start_code (Z.lor (u16 (Z.shiftl start_hi 8)) b) p) tail.
Proof.
  intros Hj Hs Hb Hne. rewrite run_skip by done.
  rewrite run_cons, gsp_switch_hit, run_cons, gsp_switch_second.
  cbn [Packet.with_start_code Packet.start_code].
  destruct (Z.eqb_spec (Z.lor (u16 (Z.shiftl start_hi 8)) b)
              FINGERPRINT_STARTCODE) as [He|_]; [|done].
  by apply start_code_second in He.
Qed.

(** Only a frame is accepted: if the state machine returns
    [FINGERPRINT_OK], the bytes it consumed are a frame whose declared
    length is the number of bytes behind the length field. *)
Lemma run_ok_inv (bytes rest : list Z) (p p' : Packet.t) :
  0 <= FINGERPRINT_STARTCODE < 65536 ->
  FINGERPRINT_OK <> FINGERPRINT_BADPACKET ->
  Forall is_byte bytes ->
  Z.of_nat (length (Packet.data p)) < 65527 ->
  run p 0 bytes = Returned FINGERPRINT_OK p' rest ->
  exists junk a0 a1 a2 a3 ty lh ll body,
    bytes = junk ++ [start_hi; start_lo; a0; a1; a2; a3; ty; lh; ll]
            ++ body ++ rest
    /\ Forall (fun b => b <> start_hi) junk
    /\ body <> []
    /\ declared_length lh ll = Z.of_nat (length body)
    /\ (length body <= length (Packet.data p))%nat.
Proof.
  intros Hs Hcodes Hbytes Hsmall.
  induction Hbytes as [|b bs Hb Hbs IH]; [done|].
  destruct (decide (b = start_hi)) as [->|Hne].
  - rewrite run_cons, gsp_switch_hit.
    destruct bs as [|b1 bs]; [done|].
    destruct (decide (length bs < 7)%nat) as [Hshort|Hlong].
    + intros Hr.
      destruct (run_header_short
                  (Packet.with_start_code (u16 (Z.shiftl start_hi 8)) p)
                  b1 bs Hshort) as [(p1 & i1 & Hst)|(p1 & r & Hbad)];
        rewrite Hr in *; [done|]. by injection Hbad.
    + destruct bs as [|a0 [|a1 [|a2 [|a3 [|ty [|lh [|ll bs]]]]]]];
        try (cbn in Hlong; lia).
      rewrite run_header.
      cbn [Packet.with_start_code Packet.start_code Packet.address
             Packet.data].
      destruct (Z.eqb_spec (Z.lor (u16 (Z.shiftl start_hi 8)) b1)
                  FINGERPRINT_STARTCODE) as [He|_]; cbn [negb];
        [|by intros [= ? _]].
      inversion Hbs as [|? ? Hb1 _]; subst.
      apply start_code_second in He; [|done..]. subst b1.
      intros Hr. apply (run_body_inv _ _ _ _ 0%nat) in Hr; [|done].
      destruct Hr as (body & -> & Hne & Hl & Hfit). cbn in Hl, Hfit.
      exists [], a0, a1, a2, a3, ty, lh, ll, body. done.
  - rewrite run_cons, gsp_switch_skip by done. intros Hr.
    destruct (IH Hr)
      as (junk & a0 & a1 & a2 & a3 & ty & lh & ll & body & -> & Hj & Hrest).
    exists (b :: junk), a0, a1, a2, a3, ty, lh, ll, body.
    split; [done|]. split; [by constructor|done].
Qed.

(** ** Arrival times *)

Lemma readable_dry (ticks : list nat) (have : nat) (timer timeout : Z) :
  readable have 0 ticks timer timeout = have.
Proof.
  revert have timer. induction ticks as [|n ticks IH]; intros have timer;
    [done|].
  cbn [readable]. rewrite Nat.min_0_r, Nat.add_0_r.
  destruct have as [|h]; [|by rewrite IH].
  destruct (u16 (timer + 1) >=? timeout); [done|apply IH].
Qed.

Lemma readable_all (ticks : list nat) (have line : nat) (timer timeout : Z) :
  0 <= timer -> timeout < 65536 ->
  (line <= sum_list ticks)%nat ->
  idle_polls ticks = 0%nat \/ timer + Z.of_nat (idle_polls ticks) < timeout ->
  readable have line ticks timer timeout = (have + line)%nat.
Proof.
  revert have line timer.
  induction ticks as [|n ticks IH]; intros have line timer Ht0 Hto Hsum Hidle.
  { cbn in *. lia. }
  destruct line as [|l]; [rewrite readable_dry; lia|].
  cbn [readable]. destruct n as [|n].
  - cbn [idle_polls] in Hidle. cbn in Hsum.
    cbn [Nat.min]. rewrite Nat.add_0_r, Nat.sub_0_r.
    destruct have as [|h].
    + assert (Hu : u16 (timer + 1) = timer + 1).
      { unfold u16. apply Z.mod_small. lia. }
      rewrite Hu.
      destruct (Z.geb_spec (timer + 1) timeout) as [Hge|Hlt]; [lia|].
      rewrite IH; lia.
    + rewrite IH; lia.
  - cbn [idle_polls] in Hidle. cbn in Hsum.
    cbn [Nat.min]. rewrite Nat.add_succ_r. cbn [Nat.sub].
    rewrite IH; lia.
Qed.

(** ** The serializer *)

Lemma u8_hi (z : Z) : 0 <= z < 65536 -> u8 (Z.shiftr z 8) = z / 256.
Proof.
  intros Hz. rewrite Z.shiftr_div_pow2 by lia. unfold u8.
  apply Z.mod_small. split; [apply Z.div_pos; lia|].
  apply Z.div_lt_upper_bound; lia.
Qed.

Lemma u8_lo (z : Z) : u8 (Z.land z 0xFF) = z mod 256.
Proof.
  change (Z.land z 0xFF) with (Z.land z (Z.ones 8)).
  rewrite Z.land_ones by lia. unfold u8.
  apply Z.mod_small, Z.mod_pos_bound. lia.
Qed.

Lemma write_loop_spec (p : Packet.t) (n fuel : nat) (i sum : Z)
    (dataBuffer : list Z) :
  (n < fuel)%nat -> 0 <= i -> i + Z.of_nat n = Packet.length p ->
  Packet.length p <= 255 ->
  Packet.length p <= Z.of_nat (length (Packet.data p)) ->
  0 <= sum < 65536 ->
  write_loop fuel p i sum dataBuffer
  = Done (u16 (sum + byte_sum (take n (drop (Z.to_nat i) (Packet.data p)))),
          dataBuffer ++ take n (drop (Z.to_nat i) (Packet.data p))).
Proof.
  revert fuel i sum dataBuffer.
  induction n as [|n IH]; intros fuel i sum buf Hf Hi Hn H255 Hfit Hsum;
    (destruct fuel as [|fuel]; [lia|]); cbn [write_loop].
  - destruct (Z.ltb_spec i (Packet.length p)); [lia|].
    cbn. rewrite Z.add_0_r, app_nil_r. unfold u16.
    by rewrite Z.mod_small.
  - destruct (Z.ltb_spec i (Packet.length p)); [|lia].
    destruct (lookup_lt_is_Some_2 (Packet.data p) (Z.to_nat i)) as [d Hd];
      [lia|].
    rewrite Hd.
    assert (Hu : u8 (i + 1) = i + 1).
    { unfold u8. apply Z.mod_small. lia. }
    rewrite Hu, IH; [|lia..|unfold u16; apply Z.mod_pos_bound; lia].
    replace (Z.to_nat (i + 1)) with (S (Z.to_nat i)) by lia.
    rewrite (drop_S _ _ _ Hd). cbn [take byte_sum foldr].
    rewrite <- app_assoc. cbn [app]. f_equal. f_equal.
    unfold u16. rewrite Zplus_mod_idemp_l. f_equal.
    fold (byte_sum (take n (drop (S (Z.to_nat i)) (Packet.data p)))). lia.
Qed.

(** With 256 or more bytes to send, the 8-bit counter wraps before it
    reaches [packet.length] and the loop is never left. *)
Lemma write_loop_never_exits (p : Packet.t) (fuel : nat) (i sum : Z)
    (dataBuffer : list Z) :
  256 <= Packet.length p ->
  256 <= Z.of_nat (length (Packet.data p)) ->
  0 <= i < 256 ->
  write_loop fuel p i sum dataBuffer = Diverges.
Proof.
  intros Hl Hd. revert i sum dataBuffer.
  induction fuel as [|fuel IH]; intros i sum buf Hi; [done|].
  cbn [write_loop].
  destruct (Z.ltb_spec i (Packet.length p)); [|lia].
  destruct (lookup_lt_is_Some_2 (Packet.data p) (Z.to_nat i)) as [d ->];
    [lia|].
  apply IH. unfold u8. apply Z.mod_pos_bound. lia.
Qed.

Lemma writeStructuredPacket_frame (p : Packet.t) (f : Fingerprint) :
  0 <= Packet.start_code p < 65536 ->
  length (Packet.address p) = 4%nat ->
  0 <= Packet.length p <= 255 ->
  Packet.length p <= Z.of_nat (length (Packet.data p)) ->
  writeStructuredPacket p f
  = Done (with_serial (R503Serial f ++ wire_frame p) f).
Proof.
  intros Hsc Ha Hl Hfit. unfold writeStructuredPacket.
  assert (Hw : u16 (Packet.length p + 2) = wire_length p).
  { unfold u16, wire_length. apply Z.mod_small. lia. }
  rewrite Hw.
  assert (Hwl : 0 <= wire_length p < 65536) by (unfold wire_length; lia).
  rewrite !u8_hi, !u8_lo by lia.
  pose proof (Z.mod_pos_bound (wire_length p) 256 ltac:(lia)).
  assert (0 <= wire_length p / 256 < 256).
  { split; [apply Z.div_pos; lia|apply Z.div_lt_upper_bound; lia]. }
  rewrite (write_loop_spec p (Z.to_nat (Packet.length p)));
    [|unfold write_fuel; lia|lia..|unfold u16; apply Z.mod_pos_bound; lia].
  change (Z.to_nat 0) with 0%nat. rewrite drop_0. fold (payload p).
  assert (Hck : u16 (u16 (wire_length p / 256 + wire_length p mod 256
                          + Packet.type p) + byte_sum (payload p))
                = checksum p).
  { unfold u16, checksum. by rewrite Zplus_mod_idemp_l. }
  rewrite Hck.
  assert (0 <= checksum p < 65536).
  { unfold checksum. apply Z.mod_pos_bound. lia. }
  rewrite u8_hi, u8_lo by lia.
  unfold with_serial, wire_frame. cbn. f_equal. f_equal.
  destruct (Packet.address p) as [|a0 [|a1 [|a2 [|a3 [|? ?]]]]];
    try done.
  cbn. rewrite <- !app_assoc. cbn. done.
Qed.

(** ** Reachable states of the ring *)




(** ** Frames of the serializer, accepted and short frames *)

Lemma declared_length_split (n : Z) :
  0 <= n < 65536 -> declared_length (n / 256) (n mod 256) = n.
Proof.
  intros Hn. unfold declared_length.
  pose proof (Z.div_mod n 256 ltac:(lia)).
  pose proof (Z.mod_pos_bound n 256 ltac:(lia)).
  assert (0 <= n / 256) by (apply Z.div_pos; lia).
  assert (Hu : u16 (Z.shiftl (n / 256) 8) = Z.shiftl (n / 256) 8).
  { unfold u16. apply Z.mod_small. rewrite Z.shiftl_mul_pow2 by lia. lia. }
  rewrite Hu, lor_shift8 by lia. lia.
Qed.

Lemma payload_length (p : Packet.t) :
  0 <= Packet.length p <= Z.of_nat (length (Packet.data p)) ->
  Z.of_nat (length (payload p)) = Packet.length p.
Proof. intros Hl. unfold payload. rewrite length_take. lia. Qed.

(** The state machine on the frame of a packet. *)
Lemma run_wire_frame (p r : Packet.t) :
  packet_wf p -> Packet.start_code p = FINGERPRINT_STARTCODE ->
  Packet.length p + 2 <= Z.of_nat (length (Packet.data r)) ->
  Packet.length p <= Z.of_nat (length (Packet.data p)) ->
  length (Packet.address r) = 4%nat ->
  Z.of_nat (length (Packet.data r)) < 65527 ->
  run r 0 (wire_frame p)
  = Returned FINGERPRINT_OK
      (Packet.mk FINGERPRINT_STARTCODE (Packet.address p) (Packet.type p)
         (Packet.length p + 2)
         (payload p ++ [checksum p / 256; checksum p mod 256]
          ++ drop (Z.to_nat (Packet.length p + 2)) (Packet.data r)))
      [].
Proof.
  intros (Hsc & Ha & _ & _ & Hl & _ & _) Hstart Hfit Hown Har Hsmall.
  pose proof (payload_length p ltac:(lia)) as Hpl.
  unfold wire_frame. rewrite Hstart in *.
  rewrite <- start_hi_div, <- start_lo_mod.
  destruct (Packet.address p) as [|a0 [|a1 [|a2 [|a3 [|? ?]]]]] eqn:Hadr;
    try done.
  pose proof (run_frame [] (payload p ++ [checksum p / 256; checksum p mod 256])
                [] a0 a1 a2 a3 (Packet.type p)
                (wire_length p / 256) (wire_length p mod 256) r) as Hrun.
  cbn [app] in Hrun |- *. rewrite app_nil_r in Hrun.
  assert (Hlen : Z.of_nat (length (payload p ++ [checksum p / 256;
                                                 checksum p mod 256]))
                 = Packet.length p + 2).
  { rewrite length_app. cbn [length]. lia. }
  rewrite Hrun; clear Hrun; try done.
  - rewrite Hlen.
    replace (length (payload p ++ [checksum p / 256; checksum p mod 256]))
      with (Z.to_nat (Packet.length p + 2)) by lia.
    by rewrite <- app_assoc.
  - by destruct (payload p).
  - rewrite Hlen. apply declared_length_split. unfold wire_length. lia.
  - lia.
Qed.

(** A call that returns [FINGERPRINT_OK] has read a frame, and the packet
    is the one [run_frame] describes. *)
Lemma getStructuredPacket_ok_inv (packet p' : Packet.t) (timeout : Z)
    (f f' : Fingerprint) (w w' : World) (q : list Z) :
  0 <= FINGERPRINT_STARTCODE < 65536 ->
  FINGERPRINT_OK <> FINGERPRINT_TIMEOUT ->
  FINGERPRINT_OK <> FINGERPRINT_BADPACKET ->
  length (Packet.address packet) = 4%nat ->
  Z.of_nat (length (Packet.data packet)) < 65527 ->
  ring_holds f q ->
  Z.of_nat (length q) + Z.of_nat (length (rx w)) <= BUFF_SIZE ->
  Forall is_byte (q ++ rx w) ->
  0 <= timeout < 65536 ->
  getStructuredPacket packet timeout f w
  = Done (FINGERPRINT_OK, p', f', w') ->
  exists junk a0 a1 a2 a3 ty lh ll body q' rest,
    q ++ rx w = junk ++ header a0 a1 a2 a3 ty lh ll ++ body ++ q' ++ rx w'
    /\ take (readable (length q) (length (rx w)) (arrivals w) 0 timeout)
         (q ++ rx w)
       = (junk ++ header a0 a1 a2 a3 ty lh ll ++ body) ++ rest
    /\ ring_holds f' q'
    /\ Forall (fun b => b <> start_hi) junk
    /\ body <> []
    /\ declared_length lh ll = Z.of_nat (length body)
    /\ (length body <= length (Packet.data packet))%nat
    /\ p' = Packet.mk FINGERPRINT_STARTCODE [a0; a1; a2; a3] ty
              (Z.of_nat (length body))
              (body ++ drop (length body) (Packet.data packet)).
Proof.
  intros Hs Hto Hbad Ha Hsmall Hq Hlen Hbytes Htime Hg.
  pose proof (getStructuredPacket_run packet timeout f w q Hq Hlen Htime)
    as Hrun.
  cbn zeta in Hrun.
  destruct (run packet 0 _) as [code p rest|p i|] eqn:Hr.
  - destruct Hrun as (consumed & q' & f1 & w1 & Hg1 & Hh & Hc1 & Hc2).
    rewrite Hg in Hg1. injection Hg1 as <- <- <- <-.
    pose proof Hr as Hinv.
    apply run_ok_inv in Hinv; [|done|done|by apply Forall_take|done].
    destruct Hinv as (junk & a0 & a1 & a2 & a3 & ty & lh & ll & body
                      & Hdec & Hj & Hne & Hl & Hfit).
    rewrite Hdec, run_frame in Hr by done.
    injection Hr as <-.
    assert (Hcons : consumed = junk ++ header a0 a1 a2 a3 ty lh ll ++ body).
    { apply (app_inv_tail rest). rewrite <- Hc1, Hdec.
      unfold header. by rewrite <- !app_assoc. }
    exists junk, a0, a1, a2, a3, ty, lh, ll, body, q', rest.
    split; [|split; [|done]].
    + rewrite Hc2, Hcons. unfold header. by rewrite <- !app_assoc.
    + by rewrite Hc1, Hcons.
  - destruct Hrun as (f1 & w1 & Hg1 & _).
    rewrite Hg in Hg1. by injection Hg1.
  - by rewrite Hg in Hrun.
Qed.

Lemma run_body_short (body : list Z) (p : Packet.t) (k : nat) :
  Z.of_nat (k + length body) < Packet.length p ->
  (k + length body <= length (Packet.data p))%nat ->
  Z.of_nat (length (Packet.data p)) < 65527 ->
  exists p1 i1, run p (9 + Z.of_nat k) body = Starved p1 i1.
Proof.
  revert p k. induction body as [|b body IH]; intros p k Hl Hfit Hsmall;
    [by eexists _, _|].
  cbn [length] in Hl, Hfit. rewrite run_cons, gsp_switch_default by lia.
  destruct (Z.leb_spec (Z.of_nat (length (Packet.data p)))
              (9 + Z.of_nat k - 9)) as [Hov|_]; [lia|].
  cbn zeta.
  destruct (Z.eqb_spec (9 + Z.of_nat k - 8) (Packet.length p)); [lia|].
  assert (Hu : u16 (9 + Z.of_nat k + 1) = 9 + Z.of_nat (S k)).
  { unfold u16. rewrite Z.mod_small; lia. }
  rewrite Hu. apply IH; cbn; rewrite ?length_insert; lia.
Qed.

(** A frame that stops short of its declared length never completes. *)
Lemma run_frame_short (junk body : list Z) (a0 a1 a2 a3 ty lh ll : Z)
    (p : Packet.t) :
  Forall (fun b => b <> start_hi) junk ->
  0 <= FINGERPRINT_STARTCODE < 65536 ->
  Z.of_nat (length body) < declared_length lh ll ->
  (length body <= length (Packet.data p))%nat ->
  Z.of_nat (length (Packet.data p)) < 65527 ->
  exists p1 i1,
    run p 0 (junk ++ header a0 a1 a2 a3 ty lh ll ++ body) = Starved p1 i1.
Proof.
  intros Hj Hs Hl Hfit Hsmall.
  rewrite run_skip by done. unfold header. cbn [app].
  rewrite run_cons, gsp_switch_hit, run_header.
  cbn [Packet.with_start_code Packet.start_code Packet.address Packet.data].
  assert (Hlo : 0 <= start_lo < 256).
  { rewrite start_lo_mod. apply Z.mod_pos_bound. lia. }
  rewrite (proj2 (start_code_second start_lo Hs Hlo) eq_refl).
  rewrite Z.eqb_refl. cbn [negb].
  apply (run_body_short body _ 0); cbn; lia.
Qed.

(** ** The command macro *)

Lemma writeStructuredPacket_session (p : Packet.t) (f f' : Fingerprint) :
  writeStructuredPacket p f = Done f' -> session f' = session f.
Proof.
  unfold writeStructuredPacket.
  destruct (write_loop _ _ _ _ _) as [[sum buf]| |]; [|done..].
  by intros [= <-].
Qed.

Lemma GET_CMD_PACKET_failed (args uninit : list Z) (f f1 f2 : Fingerprint)
    (w w2 : World) (p : Packet.t) (code : Z) :
  writeStructuredPacket
    (Fingerprint_Packet FINGERPRINT_COMMANDPACKET (Z.of_nat (length args))
       args uninit) f = Done f1 ->
  getStructuredPacket
    (Fingerprint_Packet FINGERPRINT_COMMANDPACKET (Z.of_nat (length args))
       args uninit) DEFAULTTIMEOUT f1 w = Done (code, p, f2, w2) ->
  code <> FINGERPRINT_OK \/ Packet.type p <> FINGERPRINT_ACKPACKET ->
  GET_CMD_PACKET args uninit f w
  = Done (Failed FINGERPRINT_PACKETRECIEVEERR, f2, w2).
Proof.
  intros Hw Hg Hfail. unfold GET_CMD_PACKET. rewrite Hw, Hg.
  destruct (Z.eqb_spec code FINGERPRINT_OK) as [->|Hc]; [|done].
  destruct (Z.eqb_spec (Packet.type p) FINGERPRINT_ACKPACKET); [|done].
  by destruct Hfail.
Qed.

Lemma GET_CMD_PACKET_got (args uninit : list Z) (f f1 f2 : Fingerprint)
    (w w2 : World) (p : Packet.t) :
  writeStructuredPacket
    (Fingerprint_Packet FINGERPRINT_COMMANDPACKET (Z.of_nat (length args))
       args uninit) f = Done f1 ->
  getStructuredPacket
    (Fingerprint_Packet FINGERPRINT_COMMANDPACKET (Z.of_nat (length args))
       args uninit) DEFAULTTIMEOUT f1 w
  = Done (FINGERPRINT_OK, p, f2, w2) ->
  Packet.type p = FINGERPRINT_ACKPACKET ->
  GET_CMD_PACKET args uninit f w = Done (Got p, f2, w2).
Proof.
  intros Hw Hg Hack. unfold GET_CMD_PACKET.
  by rewrite Hw, Hg, Hack, !Z.eqb_refl.
Qed.

(** ** Frames longer than the payload array *)

Lemma run_body_overrun (body : list Z) (p : Packet.t) (k : nat) :
  (k <= length (Packet.data p))%nat ->
  (length (Packet.data p) < k + length body)%nat ->
  Z.of_nat (length (Packet.data p)) < Packet.length p ->
  Z.of_nat (length (Packet.data p)) < 65527 ->
  run p (9 + Z.of_nat k) body = Overran.
Proof.
  revert p k. induction body as [|b body IH]; intros p k Hk Hlong Hl Hsmall.
  { cbn [length] in Hlong. lia. }
  cbn [length] in Hlong. rewrite run_cons, gsp_switch_default by lia.
  destruct (Z.leb_spec (Z.of_nat (length (Packet.data p)))
              (9 + Z.of_nat k - 9)) as [_|Hin]; [done|].
  cbn zeta.
  destruct (Z.eqb_spec (9 + Z.of_nat k - 8) (Packet.length p)); [lia|].
  assert (Hu : u16 (9 + Z.of_nat k + 1) = 9 + Z.of_nat (S k)).
  { unfold u16. rewrite Z.mod_small; lia. }
  rewrite Hu. apply IH; cbn; rewrite ?length_insert; lia.
Qed.

(** The frame of a packet whose payload and checksum do not fit the
    receiving array: the parser stores behind the end of the array. *)
Lemma getStructuredPacket_overruns (p r : Packet.t) (timeout : Z)
    (f : Fingerprint) (w : World) :
  packet_wf p -> Packet.start_code p = FINGERPRINT_STARTCODE ->
  Packet.length p <= Z.of_nat (length (Packet.data p)) ->
  Z.of_nat (length (Packet.data r)) < Packet.length p + 2 < 65536 ->
  Z.of_nat (length (Packet.data r)) < 65527 ->
  rx w = wire_frame p ->
  ring_holds f [] ->
  Z.of_nat (length (rx w)) <= BUFF_SIZE ->
  0 <= timeout < 65536 ->
  arrives_in_time timeout w ->
  getStructuredPacket r timeout f w = OutOfBounds.
Proof.
  intros (Hsc & Ha & _ & _ & Hl & _ & _) Hstart Hown Hbig Hsmall Hline Hq
    Hbuf Hto [Hsum Hidle].
  pose proof (getStructuredPacket_run r timeout f w [] Hq) as Hrun.
  cbn [length app] in Hrun. specialize (Hrun ltac:(lia) Hto).
  cbn zeta in Hrun.
  rewrite readable_all in Hrun; [|lia|lia|done|lia].
  cbn [Nat.add] in Hrun. rewrite firstn_all, Hline in Hrun.
  assert (Hrun' : run r 0 (wire_frame p) = Overran); [|by rewrite Hrun' in Hrun].
  pose proof (payload_length p ltac:(lia)) as Hpl.
  unfold wire_frame. rewrite Hstart in *.
  rewrite <- start_hi_div, <- start_lo_mod.
  destruct (Packet.address p) as [|a0 [|a1 [|a2 [|a3 [|? ?]]]]]; try done.
  cbn [app]. rewrite run_cons, gsp_switch_hit, run_header.
  cbn [Packet.with_start_code Packet.start_code Packet.address Packet.data].
  assert (Hlo : 0 <= start_lo < 256).
  { rewrite start_lo_mod. apply Z.mod_pos_bound. lia. }
  rewrite (proj2 (start_code_second start_lo Hsc Hlo) eq_refl).
  rewrite Z.eqb_refl. cbn [negb].
  apply (run_body_overrun _ _ 0); cbn [Packet.data Packet.length].
  - lia.
  - rewrite length_app. cbn [length]. lia.
  - rewrite declared_length_split; unfold wire_length; lia.
  - done.
Qed.

End Lemmas.

Lemma c1_packet_wf : @packet_wf adafruit_h c1_packet.
Proof.
  unfold packet_wf, c1_packet, is_byte. cbn.
  repeat split; try lia; repeat constructor; lia.
Qed.

Lemma idle_driver_ring `{H : FingerprintH} :
  0 <= BUFF_SIZE -> ring_holds idle_driver [].
Proof. intros Hn. apply ring_holds_nil; cbn; lia. Qed.

Lemma take_swap_prefix (r : nat) (x x2 t rest : list Z) :
  take r (x ++ t) = x ++ rest -> length x2 = length x ->
  take r (x2 ++ t) = x2 ++ rest.
Proof.
  intros Ht Hl.
  assert (Hr : (length x <= r)%nat).
  { apply (f_equal length) in Ht.
    rewrite length_take, !length_app in Ht. lia. }
  rewrite take_app_ge in Ht by done. apply app_inv_head in Ht.
  rewrite take_app_ge by lia. by rewrite Hl, Ht.
Qed.

(** ** Lemmas for the rest of the driver *)

Section RestLemmas.
Context `{H : FingerprintH} `{C : FingerprintCmds}.

(** *** Repeated use of the ring *)

Lemma pushes_holds (cs : list Z) (f : Fingerprint) (q : list Z) :
  ring_holds f q ->
  Z.of_nat (length q) + Z.of_nat (length cs) <= BUFF_SIZE ->
  ring_holds (pushes cs f) (q ++ cs).
Proof.
  revert f q. induction cs as [|c cs IH]; intros f q Hq Hlen.
  - by rewrite app_nil_r.
  - cbn [pushes foldl]. cbn [length] in Hlen.
    replace (q ++ c :: cs) with ((q ++ [c]) ++ cs) by by rewrite <- app_assoc.
    apply IH.
    + apply receiveUART_holds; [done|lia].
    + rewrite length_app. cbn [length]. lia.
Qed.

Lemma pops_holds (q rest : list Z) (f : Fingerprint) :
  ring_holds f (q ++ rest) ->
  (pops (length q) f).1 = q /\ ring_holds (pops (length q) f).2 rest.
Proof.
  revert f. induction q as [|c q IH]; intros f Hq; [done|].
  cbn [length pops].
  destruct (readUARTbuff_holds f c (q ++ rest) Hq) as [Hc Hq1].
  destruct (readUARTbuff f) as [c' f1]. cbn in Hc, Hq1. subst c'.
  destruct (IH f1 Hq1) as [Hcs Hq2].
  destruct (pops (length q) f1) as [cs f2]. cbn in *. by subst cs.
Qed.

Lemma pushes_cursors (cs : list Z) (f : Fingerprint) :
  0 <= pe f <= BUFF_SIZE ->
  pe (pushes cs f) = (pe f + Z.of_nat (length cs)) mod (BUFF_SIZE + 1)
  /\ pl (pushes cs f) = pl f.
Proof.
  revert f. induction cs as [|c cs IH]; intros f Hpe.
  - cbn. rewrite Z.add_0_r, Z.mod_small; [done|lia].
  - cbn [pushes foldl length].
    destruct (IH (receiveUART c f)) as [He Hl].
    + cbn. destruct (Z.gtb_spec (pe f + 1) BUFF_SIZE); lia.
    + unfold pushes in He, Hl. rewrite He, Hl. split; [|done].
      cbn [receiveUART with_ring pe]. rewrite wrap_step by done.
      rewrite Zplus_mod_idemp_l. f_equal. lia.
Qed.

(** *** The line and the session during a call *)

Lemma interrupts_line (n : nat) (line : list Z) (f : Fingerprint) :
  (interrupts n f line).2 = drop n line.
Proof.
  revert line f. induction n as [|n IH]; intros [|c line] f; try done.
  cbn [interrupts]. by rewrite IH.
Qed.

Lemma gsp_loop_line (fuel : nat) (timeout : Z) (f f' : Fingerprint)
    (w w' : World) (packet p : Packet.t) (idx timer code : Z) :
  gsp_loop fuel timeout f w packet idx timer = Done (code, p, f', w') ->
  exists n, rx w' = drop n (rx w).
Proof.
  revert f w packet idx timer.
  induction fuel as [|fuel IH]; intros f w packet idx timer; [done|].
  cbn [gsp_loop].
  assert (Hp : exists n, rx (poll f w).2 = drop n (rx w)).
  { unfold poll. destruct (arrivals w) as [|n rest]; [by exists 0%nat|].
    pose proof (interrupts_line n (rx w) f) as Hi.
    destruct (interrupts n f (rx w)). cbn in *. by exists n. }
  destruct (poll f w) as [f1 w1]. cbn in Hp. destruct Hp as [n Hn].
  destruct (pl f1 =? pe f1).
  - destruct (u16 (timer + 1) >=? timeout).
    + intros [= <- <- <- <-]. by exists n.
    + intros Hl. apply IH in Hl as [m Hm]. cbn in Hm.
      exists (n + m)%nat. by rewrite Hm, Hn, drop_drop.
  - unfold readUARTbuff.
    destruct (gsp_switch packet idx _) as [p' i'|c p'|]; [| |done].
    + intros Hl. apply IH in Hl as [m Hm]. cbn in Hm.
      exists (n + m)%nat. by rewrite Hm, Hn, drop_drop.
    + intros [= <- <- <- <-]. by exists n.
Qed.

Lemma readable_ge_have (ticks : list nat) (have line : nat)
    (timer timeout : Z) :
  (have <= readable have line ticks timer timeout)%nat.
Proof.
  revert have line timer.
  induction ticks as [|n ticks IH]; intros have line timer; [done|].
  cbn [readable].
  destruct (have + n `min` line)%nat as [|h] eqn:Hh; [lia|].
  specialize (IH h (line - n)%nat timer). lia.
Qed.

(** *** Frames the parser accepts *)

(** A frame within the bytes the call gets to read is accepted, and the
    bytes behind it stay where they are. *)
Lemma getStructuredPacket_accepts_within (packet : Packet.t) (timeout : Z)
    (f : Fingerprint) (w : World) (q junk body rest : list Z)
    (a0 a1 a2 a3 ty lh ll : Z) :
  0 <= FINGERPRINT_STARTCODE < 65536 ->
  length (Packet.address packet) = 4%nat ->
  Z.of_nat (length (Packet.data packet)) < 65527 ->
  ring_holds f q ->
  Z.of_nat (length q) + Z.of_nat (length (rx w)) <= BUFF_SIZE ->
  0 <= timeout < 65536 ->
  q ++ rx w = junk ++ header a0 a1 a2 a3 ty lh ll ++ body ++ rest ->
  (length (junk ++ header a0 a1 a2 a3 ty lh ll ++ body)
   <= readable (length q) (length (rx w)) (arrivals w) 0 timeout)%nat ->
  Forall (fun b => b <> start_hi) junk ->
  body <> [] ->
  declared_length lh ll = Z.of_nat (length body) ->
  (length body <= length (Packet.data packet))%nat ->
  exists f' w' q',
    getStructuredPacket packet timeout f w
    = Done (FINGERPRINT_OK,
            Packet.mk FINGERPRINT_STARTCODE [a0; a1; a2; a3] ty
              (Z.of_nat (length body))
              (body ++ drop (length body) (Packet.data packet)),
            f', w')
    /\ ring_holds f' q'
    /\ q' ++ rx w' = rest
    /\ session f' = session f
    /\ R503Serial f' = R503Serial f.
Proof.
  intros Hs Ha Hsmall Hq Hlen Hto Hall Hr Hj Hne Hl Hfit.
  pose proof (getStructuredPacket_run packet timeout f w q Hq Hlen Hto)
    as Hrun.
  cbn zeta in Hrun.
  set (r := readable (length q) (length (rx w)) (arrivals w) 0 timeout) in *.
  set (x := junk ++ header a0 a1 a2 a3 ty lh ll ++ body) in *.
  assert (Hallx : q ++ rx w = x ++ rest).
  { rewrite Hall. unfold x. by rewrite <- !app_assoc. }
  assert (Htake : take r (q ++ rx w) = x ++ take (r - length x) rest).
  { rewrite Hallx. by apply take_app_ge. }
  rewrite Htake in Hrun.
  assert (Hrunx : run packet 0 (x ++ take (r - length x) rest)
                  = Returned FINGERPRINT_OK
                      (Packet.mk FINGERPRINT_STARTCODE [a0; a1; a2; a3] ty
                         (Z.of_nat (length body))
                         (body ++ drop (length body) (Packet.data packet)))
                      (take (r - length x) rest)).
  { unfold x, header. rewrite <- !app_assoc. by apply run_frame. }
  rewrite Hrunx in Hrun.
  destruct Hrun as (consumed & q' & f' & w' & Hg & Hh & Hc1 & Hc2).
  apply app_inv_tail in Hc1. subst consumed.
  rewrite Hallx in Hc2. apply app_inv_head in Hc2.
  pose proof Hg as Hsess. unfold getStructuredPacket in Hsess.
  apply gsp_loop_session in Hsess as [Hs1 Hs2].
  by exists f', w', q'.
Qed.

Lemma arrives_in_time_readable (timeout : Z) (w : World) (have : nat) :
  0 <= timeout < 65536 -> arrives_in_time timeout w ->
  readable have (length (rx w)) (arrivals w) 0 timeout
  = (have + length (rx w))%nat.
Proof.
  intros Hto [Hsum Hidle]. apply readable_all; [lia|lia|done|lia].
Qed.

(** *** Frames the parser never accepts *)

Lemma run_returned_app (l1 l2 rest : list Z) (p p' : Packet.t) (idx code : Z) :
  run p idx l1 = Returned code p' rest ->
  run p idx (l1 ++ l2) = Returned code p' (rest ++ l2).
Proof.
  revert p idx. induction l1 as [|b l1 IH]; intros p idx; [done|].
  cbn [app]. rewrite !run_cons.
  destruct (gsp_switch p idx b); [by apply IH| |done].
  by intros [= <- <- <-].
Qed.

Lemma run_body_no_return (bs rest : list Z) (p p' : Packet.t) (k : nat)
    (code : Z) :
  Packet.length p <= Z.of_nat k ->
  Z.of_nat (length (Packet.data p)) < 65527 ->
  run p (9 + Z.of_nat k) bs <> Returned code p' rest.
Proof.
  revert p k. induction bs as [|b bs IH]; intros p k Hl Hsmall; [done|].
  rewrite run_cons, gsp_switch_default by lia.
  destruct (Z.leb_spec (Z.of_nat (length (Packet.data p)))
              (9 + Z.of_nat k - 9)) as [_|Hin]; [done|].
  cbn zeta.
  destruct (Z.eqb_spec (9 + Z.of_nat k - 8) (Packet.length p)); [lia|].
  assert (Hu : u16 (9 + Z.of_nat k + 1) = 9 + Z.of_nat (S k)).
  { unfold u16. rewrite Z.mod_small; lia. }
  rewrite Hu. apply IH; cbn; rewrite ?length_insert; lia.
Qed.

Lemma run_zero_length (junk tail rest : list Z) (a0 a1 a2 a3 ty lh ll : Z)
    (p p' : Packet.t) (code : Z) :
  Forall (fun b => b <> start_hi) junk ->
  0 <= FINGERPRINT_STARTCODE < 65536 ->
  declared_length lh ll = 0 ->
  Z.of_nat (length (Packet.data p)) < 65527 ->
  run p 0 (junk ++ header a0 a1 a2 a3 ty lh ll ++ tail)
  <> Returned code p' rest.
Proof.
  intros Hj Hs Hl Hsmall.
  rewrite run_skip by done. unfold header. cbn [app].
  rewrite run_cons, gsp_switch_hit, run_header.
  cbn [Packet.with_start_code Packet.start_code Packet.address Packet.data].
  assert (Hlo : 0 <= start_lo < 256).
  { rewrite start_lo_mod. apply Z.mod_pos_bound. lia. }
  rewrite (proj2 (start_code_second start_lo Hs Hlo) eq_refl).
  rewrite Z.eqb_refl. cbn [negb].
  apply (run_body_no_return tail rest _ p' 0); cbn; lia.
Qed.

Lemma run_long_length (junk tail : list Z) (a0 a1 a2 a3 ty lh ll : Z)
    (p : Packet.t) :
  Forall (fun b => b <> start_hi) junk ->
  0 <= FINGERPRINT_STARTCODE < 65536 ->
  Z.of_nat (length (Packet.data p)) < declared_length lh ll ->
  (length (Packet.data p) < length tail)%nat ->
  Z.of_nat (length (Packet.data p)) < 65527 ->
  run p 0 (junk ++ header a0 a1 a2 a3 ty lh ll ++ tail) = Overran.
Proof.
  intros Hj Hs Hl Hlong Hsmall.
  rewrite run_skip by done. unfold header. cbn [app].
  rewrite run_cons, gsp_switch_hit, run_header.
  cbn [Packet.with_start_code Packet.start_code Packet.address Packet.data].
  assert (Hlo : 0 <= start_lo < 256).
  { rewrite start_lo_mod. apply Z.mod_pos_bound. lia. }
  rewrite (proj2 (start_code_second start_lo Hs Hlo) eq_refl).
  rewrite Z.eqb_refl. cbn [negb].
  apply (run_body_overrun tail _ 0); cbn; lia.
Qed.

(** No start-code high byte among the bytes: all of them are dropped. *)
Lemma getStructuredPacket_no_start (packet : Packet.t) (timeout : Z)
    (f : Fingerprint) (w : World) (q : list Z) :
  ring_holds f q ->
  Z.of_nat (length q) + Z.of_nat (length (rx w)) <= BUFF_SIZE ->
  0 <= timeout < 65536 ->
  Forall (fun b => b <> start_hi) (q ++ rx w) ->
  exists f' w',
    getStructuredPacket packet timeout f w
    = Done (FINGERPRINT_TIMEOUT, packet, f', w')
    /\ ring_holds f' []
    /\ session f' = session f
    /\ R503Serial f' = R503Serial f.
Proof.
  intros Hq Hlen Hto Hall.
  pose proof (getStructuredPacket_run packet timeout f w q Hq Hlen Hto)
    as Hrun.
  cbn zeta in Hrun.
  set (r := readable (length q) (length (rx w)) (arrivals w) 0 timeout) in *.
  assert (Hr : run packet 0 (take r (q ++ rx w)) = Starved packet 0).
  { rewrite <- (app_nil_r (take r (q ++ rx w))).
    rewrite run_skip; [done|]. by apply Forall_take. }
  rewrite Hr in Hrun. destruct Hrun as (f' & w' & Hg & Hh & _).
  pose proof Hg as Hsess. unfold getStructuredPacket in Hsess.
  apply gsp_loop_session in Hsess as [Hs1 Hs2].
  by exists f', w'.
Qed.

(** *** Big-endian numbers *)

Lemma lor_disjoint (a b n : Z) :
  0 <= n -> 0 <= b < 2 ^ n -> a mod 2 ^ n = 0 -> Z.lor a b = a + b.
Proof.
  intros Hn Hb Ha.
  assert (Hl : Z.land a b = 0).
  { apply Z.bits_inj'. intros i Hi.
    rewrite Z.land_spec, Z.bits_0.
    destruct (Z.lt_ge_cases i n) as [Hlt|Hge].
    - assert (Z.testbit a i = false) as ->; [|done].
      rewrite <- (Z.mod_pow2_bits_low a n i) by lia.
      rewrite Ha. apply Z.bits_0.
    - destruct (Z.eq_dec b 0) as [->|Hb0].
      + rewrite Z.bits_0. apply andb_false_r.
      + rewrite (Z.bits_above_log2 b i); [apply andb_false_r|lia|].
        assert (Z.log2 b < n); [|lia].
        apply Z.log2_lt_pow2; lia. }
  pose proof (Z.add_lor_land a b) as Hadd.
  rewrite Hl, Z.add_0_r in Hadd. done.
Qed.

Lemma be16_parse (hi lo : Z) :
  is_byte hi -> is_byte lo -> Z.lor (u16 (Z.shiftl hi 8)) lo = be16 hi lo.
Proof.
  intros Hh Hlo. unfold is_byte in *.
  assert (Hu : u16 (Z.shiftl hi 8) = Z.shiftl hi 8).
  { unfold u16. apply Z.mod_small. rewrite Z.shiftl_mul_pow2 by lia. lia. }
  rewrite Hu, lor_shift8 by lia. done.
Qed.

Lemma be16_cast (hi lo : Z) :
  is_byte hi -> is_byte lo -> Z.lor (Z.shiftl (u16 hi) 8) lo = be16 hi lo.
Proof.
  intros Hh Hlo. unfold is_byte in *.
  assert (Hu : u16 hi = hi) by (unfold u16; apply Z.mod_small; lia).
  rewrite Hu, lor_shift8 by lia. done.
Qed.

Lemma be16_range (hi lo : Z) :
  is_byte hi -> is_byte lo -> 0 <= be16 hi lo < 65536.
Proof. unfold is_byte, be16. lia. Qed.

Lemma be16_split (n : Z) :
  0 <= n < 65536 ->
  be16 (u8 (Z.shiftr n 8)) (u8 (Z.land n 0xFF)) = n
  /\ is_byte (u8 (Z.shiftr n 8)) /\ is_byte (u8 (Z.land n 0xFF)).
Proof.
  intros Hn. rewrite u8_hi, u8_lo by done. unfold be16, is_byte.
  pose proof (Z.div_mod n 256 ltac:(lia)).
  pose proof (Z.mod_pos_bound n 256 ltac:(lia)).
  assert (0 <= n / 256 < 256).
  { split; [apply Z.div_pos; lia|apply Z.div_lt_upper_bound; lia]. }
  lia.
Qed.

(** *** One exchange *)

Lemma gsp_loop_in_time (fuel : nat) (timeout : Z) (f f' : Fingerprint)
    (w w' : World) (packet p : Packet.t) (idx timer code : Z) :
  gsp_loop fuel timeout f w packet idx timer = Done (code, p, f', w') ->
  arrives_in_time timeout w -> arrives_in_time timeout w'.
Proof.
  revert f w packet idx timer.
  induction fuel as [|fuel IH]; intros f w packet idx timer; [done|].
  cbn [gsp_loop]. intros Hl Hw.
  assert (Hp : arrives_in_time timeout (poll f w).2).
  { unfold poll. destruct w as [line ticks s]. cbn [arrivals rx slept].
    destruct ticks as [|n rest]; [done|].
    pose proof (interrupts_line n line f) as Hi.
    destruct (interrupts n f line) as [f1 line1]. cbn in Hi. subst line1.
    destruct Hw as [Hsum Hidle]. cbn [arrivals rx] in *.
    split; cbn [arrivals rx snd].
    - rewrite length_drop. cbn in Hsum. lia.
    - destruct n; cbn [idle_polls] in Hidle; lia. }
  destruct (poll f w) as [f1 w1]. cbn [snd] in Hp.
  destruct (pl f1 =? pe f1).
  - destruct (u16 (timer + 1) >=? timeout).
    + injection Hl as <- <- <- <-. done.
    + apply IH in Hl; done.
  - unfold readUARTbuff in Hl.
    destruct (gsp_switch packet idx _) as [p' i'|c p'|]; [| |done].
    + apply IH in Hl; done.
    + injection Hl as <- <- <- <-. done.
Qed.

Lemma Fingerprint_Packet_data (ty n : Z) (args uninit : list Z) :
  Z.of_nat (length uninit) = DATA_SIZE ->
  Z.of_nat (length args) <= DATA_SIZE ->
  Z.of_nat (length (Packet.data (Fingerprint_Packet ty n args uninit)))
  = DATA_SIZE
  /\ take (length args) (Packet.data (Fingerprint_Packet ty n args uninit))
     = args.
Proof.
  intros Hu Ha. cbn [Fingerprint_Packet Packet.data]. split.
  - rewrite length_take, length_app, length_drop. lia.
  - rewrite take_take, Nat.min_l by lia. by rewrite take_app_length.
Qed.

Lemma command_frame_wire (args uninit : list Z) :
  0 <= FINGERPRINT_STARTCODE < 65536 ->
  Z.of_nat (length uninit) = DATA_SIZE ->
  Z.of_nat (length args) <= DATA_SIZE ->
  wire_frame
    (Fingerprint_Packet FINGERPRINT_COMMANDPACKET (Z.of_nat (length args))
       args uninit)
  = command_frame args.
Proof.
  intros Hs Hu Ha.
  destruct (Fingerprint_Packet_data FINGERPRINT_COMMANDPACKET
              (Z.of_nat (length args)) args uninit Hu Ha) as [_ Ht].
  unfold wire_frame, command_frame, checksum, payload, wire_length.
  cbn [Fingerprint_Packet Packet.start_code Packet.address Packet.type
       Packet.length].
  rewrite Nat2Z.id, Ht, start_hi_div, start_lo_mod. done.
Qed.

Lemma GET_CMD_PACKET_write (args uninit : list Z) (f : Fingerprint) :
  header_sane ->
  Z.of_nat (length uninit) = DATA_SIZE ->
  Z.of_nat (length args) <= DATA_SIZE ->
  writeStructuredPacket
    (Fingerprint_Packet FINGERPRINT_COMMANDPACKET (Z.of_nat (length args))
       args uninit) f
  = Done (with_serial (R503Serial f ++ command_frame args) f).
Proof.
  intros (Hs & Hd & _) Hu Ha.
  destruct (Fingerprint_Packet_data FINGERPRINT_COMMANDPACKET
              (Z.of_nat (length args)) args uninit Hu Ha) as [Hlen _].
  rewrite writeStructuredPacket_frame.
  - by rewrite command_frame_wire.
  - done.
  - done.
  - cbn [Fingerprint_Packet Packet.length]. lia.
  - rewrite Hlen. cbn [Fingerprint_Packet Packet.length]. lia.
Qed.

(** Whatever the sensor does, a command that returns has sent its frame
    and nothing else, and has left the members alone. *)
Lemma GET_CMD_PACKET_sends (args uninit : list Z) (f f' : Fingerprint)
    (w w' : World) (g : got) :
  header_sane ->
  Z.of_nat (length uninit) = DATA_SIZE ->
  Z.of_nat (length args) <= DATA_SIZE ->
  GET_CMD_PACKET args uninit f w = Done (g, f', w') ->
  R503Serial f' = R503Serial f ++ command_frame args
  /\ session f' = session f.
Proof.
  intros Hh Hu Ha. unfold GET_CMD_PACKET. cbn zeta.
  rewrite GET_CMD_PACKET_write by done.
  destruct (getStructuredPacket _ _ _ _) as [[[[code p] f2] w2]| |] eqn:Hg;
    [|done..].
  unfold getStructuredPacket in Hg. apply gsp_loop_session in Hg as [Hs Hr].
  cbn in Hs, Hr.
  destruct (negb (code =? _)); [|destruct (negb (_ =? _))];
    intros [= <- <- <-]; by rewrite Hr.
Qed.

Lemma pending_serial (timeout : Z) (f : Fingerprint) (w : World)
    (s bytes : list Z) :
  pending timeout f w bytes -> pending timeout (with_serial s f) w bytes.
Proof. intros (q & Hq & Hrest). by exists q. Qed.

(** The sensor answers with a frame: the exchange succeeds when the
    frame is an acknowledgment, and what is behind the frame stays
    pending. *)
Lemma GET_CMD_PACKET_answered (args uninit : list Z) (f : Fingerprint)
    (w : World) (junk body rest : list Z) (ty : Z) :
  header_sane ->
  Z.of_nat (length uninit) = DATA_SIZE ->
  Z.of_nat (length args) <= DATA_SIZE ->
  answers DEFAULTTIMEOUT f w junk ty body rest ->
  Z.of_nat (length body) <= DATA_SIZE ->
  exists p' f' w',
    GET_CMD_PACKET args uninit f w
    = Done (if ty =? FINGERPRINT_ACKPACKET then Got p'
            else Failed FINGERPRINT_PACKETRECIEVEERR, f', w')
    /\ Packet.type p' = ty
    /\ Packet.length p' = Z.of_nat (length body)
    /\ Z.of_nat (length (Packet.data p')) = DATA_SIZE
    /\ take (length body) (Packet.data p') = body
    /\ pending DEFAULTTIMEOUT f' w' rest
    /\ session f' = session f
    /\ R503Serial f' = R503Serial f ++ command_frame args.
Proof.
  intros Hh Hu Ha (frame & Hrep & Hpend & Hj) Hb.
  destruct Hrep as (a0 & a1 & a2 & a3 & lh & ll & -> & Hne & Hl).
  destruct Hpend as (q & Hq & Hfit & Htime & Hall).
  pose proof Hh as (Hs & Hd & Hto & Hbuf).
  destruct (Fingerprint_Packet_data FINGERPRINT_COMMANDPACKET
              (Z.of_nat (length args)) args uninit Hu Ha) as [Hlen _].
  set (packet := Fingerprint_Packet FINGERPRINT_COMMANDPACKET
                   (Z.of_nat (length args)) args uninit) in *.
  set (f1 := with_serial (R503Serial f ++ command_frame args) f).
  rewrite <- app_assoc in Hall.
  destruct (getStructuredPacket_accepts_within packet DEFAULTTIMEOUT f1 w q
              junk body rest a0 a1 a2 a3 ty lh ll)
    as (f' & w' & q' & Hg & Hq' & Hrest & Hsess & Hser); try done.
  - lia.
  - rewrite arrives_in_time_readable by done.
    rewrite <- length_app, Hall, !length_app. lia.
  - lia.
  - pose proof Hg as Hin. unfold getStructuredPacket in Hin.
    apply gsp_loop_in_time in Hin; [|done].
    eexists _, f', w'. split; [|split; [|split; [|split; [|split]]]].
    + unfold GET_CMD_PACKET. cbn zeta. fold packet.
      unfold packet at 1. rewrite GET_CMD_PACKET_write by done.
      fold packet. fold f1. rewrite Hg. rewrite Z.eqb_refl.
      cbn [negb Packet.type].
      destruct (ty =? FINGERPRINT_ACKPACKET); reflexivity.
    + done.
    + done.
    + cbn [Packet.data]. rewrite length_app, length_drop. lia.
    + cbn [Packet.data]. by rewrite take_app_length.
    + split; [|done]. exists q'. split; [done|].
      split; [|done].
      rewrite <- !Nat2Z.inj_add, <- length_app, Hrest.
      rewrite <- !Nat2Z.inj_add, <- length_app, Hall in Hfit.
      rewrite !length_app in Hfit. lia.
Qed.

(** No byte with the value of the start-code high byte is pending: the
    exchange fails after the whole timeout. *)
Lemma GET_CMD_PACKET_unanswered (args uninit : list Z) (f : Fingerprint)
    (w : World) (noise : list Z) :
  header_sane ->
  FINGERPRINT_TIMEOUT <> FINGERPRINT_OK ->
  FINGERPRINT_TIMEOUT <> FINGERPRINT_BADPACKET ->
  Z.of_nat (length uninit) = DATA_SIZE ->
  Z.of_nat (length args) <= DATA_SIZE ->
  pending DEFAULTTIMEOUT f w noise ->
  Forall (fun b => b <> start_hi) noise ->
  exists f' w',
    GET_CMD_PACKET args uninit f w
    = Done (Failed FINGERPRINT_PACKETRECIEVEERR, f', w')
    /\ session f' = session f
    /\ R503Serial f' = R503Serial f ++ command_frame args
    /\ slept w' = slept w + Z.max 1 DEFAULTTIMEOUT.
Proof.
  intros Hh Hne Hnb Hu Ha (q & Hq & Hfit & Htime & Hall) Hj.
  pose proof Hh as (Hs & Hd & Hto & Hbuf).
  set (packet := Fingerprint_Packet FINGERPRINT_COMMANDPACKET
                   (Z.of_nat (length args)) args uninit).
  set (f1 := with_serial (R503Serial f ++ command_frame args) f).
  destruct (getStructuredPacket_no_start packet DEFAULTTIMEOUT f1 w q)
    as (f' & w' & Hg & Hq' & Hsess & Hser); try done.
  { by rewrite Hall. }
  exists f', w'. split; [|split; [done|split; [done|]]].
  - unfold GET_CMD_PACKET. cbn zeta.
    rewrite GET_CMD_PACKET_write by done. fold packet f1. rewrite Hg.
    destruct (Z.eqb_spec FINGERPRINT_TIMEOUT FINGERPRINT_OK); done.
  - unfold getStructuredPacket in Hg.
    apply gsp_loop_slept in Hg; [|lia..]. cbn zeta in Hg.
    destruct Hg as [(_ & H1 & H2 & H3)|([He|He] & _)]; [lia|done..].
Qed.

(** *** The serializer beyond the payload array *)

Lemma write_loop_overrun (p : Packet.t) (n fuel : nat) (i sum : Z)
    (dataBuffer : list Z) :
  (n < fuel)%nat -> 0 <= i ->
  i + Z.of_nat n = Z.of_nat (length (Packet.data p)) ->
  Z.of_nat (length (Packet.data p)) < Packet.length p ->
  Z.of_nat (length (Packet.data p)) <= 255 ->
  write_loop fuel p i sum dataBuffer = OutOfBounds.
Proof.
  revert fuel i sum dataBuffer.
  induction n as [|n IH]; intros fuel i sum buf Hf Hi Hn Hlong H255;
    (destruct fuel as [|fuel]; [lia|]); cbn [write_loop];
    (destruct (Z.ltb_spec i (Packet.length p)); [|lia]).
  - rewrite (lookup_ge_None_2 (Packet.data p) (Z.to_nat i)); [done|lia].
  - destruct (lookup_lt_is_Some_2 (Packet.data p) (Z.to_nat i)) as [d ->];
      [lia|].
    assert (Hu : u8 (i + 1) = i + 1).
    { unfold u8. apply Z.mod_small. lia. }
    rewrite Hu. apply IH; lia.
Qed.

Lemma writeStructuredPacket_cases (p : Packet.t) (f : Fingerprint) :
  0 <= Packet.length p ->
  let n := Z.of_nat (length (Packet.data p)) in
  (Packet.length p <= 255 /\ Packet.length p <= n
   /\ exists f', writeStructuredPacket p f = Done f')
  \/ (n < Packet.length p /\ n <= 255
      /\ writeStructuredPacket p f = OutOfBounds)
  \/ (256 <= Packet.length p /\ 256 <= n
      /\ writeStructuredPacket p f = Diverges).
Proof.
  intros H0 n. unfold writeStructuredPacket. cbn zeta.
  set (sum0 := u16 _).
  assert (Hsum : 0 <= sum0 < 65536).
  { unfold sum0, u16. apply Z.mod_pos_bound. lia. }
  destruct (Z.le_gt_cases (Packet.length p) n) as [Hfit|Hlong].
  - destruct (Z.le_gt_cases (Packet.length p) 255) as [Hs|Hb].
    + left. split; [done|split; [done|]].
      rewrite (write_loop_spec p (Z.to_nat (Packet.length p)));
        [by eexists|unfold write_fuel; lia|lia|lia|lia|unfold n in Hfit; lia
        |done].
    + right; right. split; [lia|split; [lia|]].
      rewrite write_loop_never_exits; [done|lia|unfold n in *; lia|lia].
  - destruct (Z.le_gt_cases n 255) as [Hs|Hb].
    + right; left. split; [done|split; [done|]].
      rewrite (write_loop_overrun p (Z.to_nat n));
        [done|unfold write_fuel; lia|lia|unfold n; lia|done|done].
    + right; right. split; [lia|split; [lia|]].
      rewrite write_loop_never_exits; [done|lia|unfold n in *; lia|lia].
Qed.

(** *** A frame among the pending bytes *)

Lemma getStructuredPacket_pending (packet : Packet.t) (timeout : Z)
    (f : Fingerprint) (w : World) (junk frame body rest : list Z) (ty : Z) :
  0 <= FINGERPRINT_STARTCODE < 65536 ->
  length (Packet.address packet) = 4%nat ->
  Z.of_nat (length (Packet.data packet)) < 65527 ->
  0 <= timeout < 65536 ->
  pending timeout f w (junk ++ frame ++ rest) ->
  reply ty body frame ->
  Forall (fun b => b <> start_hi) junk ->
  (length body <= length (Packet.data packet))%nat ->
  exists r f' w',
    getStructuredPacket packet timeout f w = Done (FINGERPRINT_OK, r, f', w')
    /\ Packet.start_code r = FINGERPRINT_STARTCODE
    /\ Packet.type r = ty
    /\ Packet.length r = Z.of_nat (length body)
    /\ Packet.data r = body ++ drop (length body) (Packet.data packet)
    /\ pending timeout f' w' rest
    /\ session f' = session f
    /\ R503Serial f' = R503Serial f.
Proof.
  intros Hs Ha Hsmall Hto (q & Hq & Hfit & Htime & Hall) Hrep Hj Hb.
  destruct Hrep as (a0 & a1 & a2 & a3 & lh & ll & -> & Hne & Hl).
  rewrite <- app_assoc in Hall.
  destruct (getStructuredPacket_accepts_within packet timeout f w q
              junk body rest a0 a1 a2 a3 ty lh ll)
    as (f' & w' & q' & Hg & Hq' & Hrest & Hsess & Hser); try done.
  { rewrite arrives_in_time_readable by done.
    rewrite <- length_app, Hall, !length_app. lia. }
  pose proof Hg as Hin. unfold getStructuredPacket in Hin.
  apply gsp_loop_in_time in Hin; [|done].
  eexists _, f', w'. split; [exact Hg|].
  do 4 (split; [done|]). split; [|done].
  exists q'. split; [done|]. split; [|done].
  rewrite <- !Nat2Z.inj_add, <- length_app, Hrest.
  rewrite <- !Nat2Z.inj_add, <- length_app, Hall in Hfit.
  rewrite !length_app in Hfit. lia.
Qed.

Lemma at_take (l b : list Z) (n i : nat) :
  take n l = b -> (i < n)%nat -> at_ l i = at_ b i.
Proof.
  intros <- Hi. unfold at_. by rewrite lookup_take_lt.
Qed.

(** *** Numbers of four bytes *)

Lemma be32_parse (b3 b2 b1 b0 : Z) :
  is_byte b3 -> is_byte b2 -> is_byte b1 -> is_byte b0 ->
  Z.lor (Z.lor (Z.lor (u32 (Z.shiftl (u32 b3) 24))
                      (u32 (Z.shiftl (u32 b2) 16)))
               (u32 (Z.shiftl (u32 b1) 8)))
        (u32 b0)
  = be32 b3 b2 b1 b0.
Proof.
  unfold is_byte, be32. intros H3 H2 H1 H0.
  assert (Hu : forall b k, 0 <= b < 256 -> 0 <= k <= 24 ->
                 u32 (Z.shiftl (u32 b) k) = b * 2 ^ k).
  { intros b k Hb Hk. unfold u32. rewrite (Z.mod_small b) by lia.
    rewrite Z.shiftl_mul_pow2 by lia. apply Z.mod_small.
    assert (0 < 2 ^ k) by (apply Z.pow_pos_nonneg; lia).
    assert (2 ^ k <= 2 ^ 24) by (apply Z.pow_le_mono_r; lia).
    change (2 ^ 24) with 16777216 in *. nia. }
  rewrite !Hu by lia.
  assert (Hu0 : u32 b0 = b0) by (unfold u32; apply Z.mod_small; lia).
  rewrite Hu0.
  change (2 ^ 24) with 16777216. change (2 ^ 16) with 65536.
  change (2 ^ 8) with 256.
  rewrite (lor_disjoint (b3 * 16777216) (b2 * 65536) 24); [|lia| |].
  - rewrite (lor_disjoint _ (b1 * 256) 16); [|lia| |].
    + rewrite (lor_disjoint _ b0 8); [lia|lia|change (2 ^ 8) with 256; lia|].
      change (2 ^ 8) with 256.
      replace (b3 * 16777216 + b2 * 65536 + b1 * 256)
        with ((b3 * 65536 + b2 * 256 + b1) * 256) by lia.
      apply Z.mod_mul. lia.
    + change (2 ^ 16) with 65536. lia.
    + change (2 ^ 16) with 65536.
      replace (b3 * 16777216 + b2 * 65536)
        with ((b3 * 256 + b2) * 65536) by lia.
      apply Z.mod_mul. lia.
  - change (2 ^ 24) with 16777216. lia.
  - change (2 ^ 24) with 16777216. apply Z.mod_mul. lia.
Qed.

Lemma be32_split (n : Z) :
  0 <= n < 4294967296 ->
  be32 (u8 (Z.shiftr n 24)) (u8 (Z.shiftr n 16)) (u8 (Z.shiftr n 8))
    (u8 (Z.land n 0xFF)) = n
  /\ u8 (Z.land n 0xFF) = u8 n
  /\ is_byte (u8 (Z.shiftr n 24)) /\ is_byte (u8 (Z.shiftr n 16))
  /\ is_byte (u8 (Z.shiftr n 8)) /\ is_byte (u8 n).
Proof.
  intros Hn. rewrite u8_lo. unfold u8, be32, is_byte.
  rewrite !Z.shiftr_div_pow2 by lia.
  change (2 ^ 24) with (256 * (256 * 256)).
  change (2 ^ 16) with (256 * 256). change (2 ^ 8) with 256.
  rewrite <- !Z.div_div by lia.
  pose proof (Z.div_mod n 256 ltac:(lia)).
  pose proof (Z.div_mod (n / 256) 256 ltac:(lia)).
  pose proof (Z.div_mod (n / 256 / 256) 256 ltac:(lia)).
  pose proof (Z.div_mod (n / 256 / 256 / 256) 256 ltac:(lia)).
  pose proof (Z.mod_pos_bound n 256 ltac:(lia)).
  pose proof (Z.mod_pos_bound (n / 256) 256 ltac:(lia)).
  pose proof (Z.mod_pos_bound (n / 256 / 256) 256 ltac:(lia)).
  pose proof (Z.mod_pos_bound (n / 256 / 256 / 256) 256 ltac:(lia)).
  assert (n / 256 / 256 / 256 / 256 = 0).
  { rewrite !Z.div_div by lia. apply Z.div_small. lia. }
  lia.
Qed.

(** *** The members a command stores *)

Lemma session_with_match (a b : Z) (f g : Fingerprint) :
  session g = session f ->
  session (with_match a b g) = session (with_match a b f).
Proof. unfold session. cbn. intros [= -> -> -> -> -> -> -> -> -> _ _ ->]. done. Qed.

Lemma session_with_templateCount (a : Z) (f g : Fingerprint) :
  session g = session f ->
  session (with_templateCount a g) = session (with_templateCount a f).
Proof. unfold session. cbn. intros [= -> -> -> -> -> -> -> -> -> -> -> _]. done. Qed.

Lemma session_with_params (sr si ca sl da plen br : Z) (f g : Fingerprint) :
  session g = session f ->
  session (with_params sr si ca sl da plen br g)
  = session (with_params sr si ca sl da plen br f).
Proof. unfold session. cbn. intros [= -> -> _ _ _ _ _ _ _ -> -> ->]. done. Qed.

Lemma search_parse_reply (p : Packet.t) (f : Fingerprint)
    (st i1 i2 c1 c2 : Z) (more : list Z) :
  take (length (st :: i1 :: i2 :: c1 :: c2 :: more)) (Packet.data p)
  = st :: i1 :: i2 :: c1 :: c2 :: more ->
  is_byte i1 -> is_byte i2 -> is_byte c1 -> is_byte c2 ->
  search_parse p (search_sentinel f)
  = with_match (be16 i1 i2) (be16 c1 c2) f.
Proof.
  intros Ht H1 H2 H3 H4.
  unfold search_parse, search_sentinel, set_fingerID, set_confidence.
  cbn [with_match fingerID confidence].
  rewrite (at_take _ _ _ 1 Ht), (at_take _ _ _ 2 Ht),
    (at_take _ _ _ 3 Ht), (at_take _ _ _ 4 Ht) by (cbn; lia).
  cbn [at_ lookup list_lookup default].
  rewrite !be16_parse by done.
  by destruct f.
Qed.

Lemma count_parse_reply (p : Packet.t) (f : Fingerprint)
    (st c1 c2 : Z) (more : list Z) :
  take (length (st :: c1 :: c2 :: more)) (Packet.data p)
  = st :: c1 :: c2 :: more ->
  is_byte c1 -> is_byte c2 ->
  count_parse p f = with_templateCount (be16 c1 c2) f.
Proof.
  intros Ht H1 H2. unfold count_parse.
  cbn [with_templateCount templateCount].
  rewrite (at_take _ _ _ 1 Ht), (at_take _ _ _ 2 Ht) by (cbn; lia).
  cbn [at_ lookup list_lookup default].
  rewrite be16_parse by done.
  by destruct f.
Qed.

Lemma pending_match (timeout a b : Z) (f : Fingerprint) (w : World)
    (bytes : list Z) :
  pending timeout f w bytes -> pending timeout (with_match a b f) w bytes.
Proof. intros (q & Hq & Hrest). by exists q. Qed.

Lemma pending_templateCount (timeout a : Z) (f : Fingerprint) (w : World)
    (bytes : list Z) :
  pending timeout f w bytes ->
  pending timeout (with_templateCount a f) w bytes.
Proof. intros (q & Hq & Hrest). by exists q. Qed.

(** *** Commands and their answers *)

Lemma SEND_CMD_PACKET_sends (args uninit : list Z) (f f' : Fingerprint)
    (w w' : World) (code : Z) :
  header_sane ->
  Z.of_nat (length uninit) = DATA_SIZE ->
  Z.of_nat (length args) <= DATA_SIZE ->
  SEND_CMD_PACKET args uninit f w = Done (code, f', w') ->
  R503Serial f' = R503Serial f ++ command_frame args
  /\ session f' = session f.
Proof.
  intros Hh Hu Ha. unfold SEND_CMD_PACKET.
  destruct (GET_CMD_PACKET args uninit f w) as [[[g f2] w2]| |] eqn:Hg;
    [|done..].
  apply GET_CMD_PACKET_sends in Hg; [|done..].
  destruct g as [c|p]; [|destruct (_ <=? 0); [done|]];
    by intros [= <- <- <-].
Qed.

Lemma SEND_CMD_PACKET_reply (args uninit : list Z) (f : Fingerprint)
    (w : World) (junk more rest : list Z) (ty st : Z) :
  header_sane ->
  Z.of_nat (length uninit) = DATA_SIZE ->
  Z.of_nat (length args) <= DATA_SIZE ->
  answers DEFAULTTIMEOUT f w junk ty (st :: more) rest ->
  Z.of_nat (length (st :: more)) <= DATA_SIZE ->
  exists f' w',
    SEND_CMD_PACKET args uninit f w
    = Done (if ty =? FINGERPRINT_ACKPACKET then st
            else FINGERPRINT_PACKETRECIEVEERR, f', w')
    /\ pending DEFAULTTIMEOUT f' w' rest
    /\ session f' = session f
    /\ R503Serial f' = R503Serial f ++ command_frame args.
Proof.
  intros Hh Hu Ha Hans Hb.
  destruct (GET_CMD_PACKET_answered args uninit f w junk (st :: more) rest ty)
    as (p' & f' & w' & Hg & _ & _ & Hlen & Ht & Hrest); try done.
  exists f', w'. split; [|done].
  unfold SEND_CMD_PACKET. rewrite Hg.
  destruct (ty =? FINGERPRINT_ACKPACKET); [|done].
  destruct Hh as (_ & Hd & _).
  destruct (Z.leb_spec (Z.of_nat (length (Packet.data p'))) 0); [lia|].
  by rewrite (at_take _ _ _ 0 Ht) by (cbn; lia).
Qed.

Lemma SEND_CMD_PACKET_noise (args uninit : list Z) (f : Fingerprint)
    (w : World) (noise : list Z) :
  header_sane ->
  FINGERPRINT_TIMEOUT <> FINGERPRINT_OK ->
  FINGERPRINT_TIMEOUT <> FINGERPRINT_BADPACKET ->
  Z.of_nat (length uninit) = DATA_SIZE ->
  Z.of_nat (length args) <= DATA_SIZE ->
  pending DEFAULTTIMEOUT f w noise ->
  Forall (fun b => b <> start_hi) noise ->
  exists f' w',
    SEND_CMD_PACKET args uninit f w
    = Done (FINGERPRINT_PACKETRECIEVEERR, f', w')
    /\ session f' = session f
    /\ R503Serial f' = R503Serial f ++ command_frame args
    /\ slept w' = slept w + Z.max 1 DEFAULTTIMEOUT.
Proof.
  intros Hh Hne Hnb Hu Ha Hp Hj.
  destruct (GET_CMD_PACKET_unanswered args uninit f w noise)
    as (f' & w' & Hg & Hrest); try done.
  exists f', w'. split; [|done].
  unfold SEND_CMD_PACKET. by rewrite Hg.
Qed.

Lemma fingerFastSearch_reply (uninit : list Z) (f : Fingerprint)
    (w : World) (junk more rest : list Z) (st i1 i2 c1 c2 : Z) :
  header_sane -> 6 <= DATA_SIZE ->
  Z.of_nat (length uninit) = DATA_SIZE ->
  answers DEFAULTTIMEOUT f w junk FINGERPRINT_ACKPACKET
    (st :: i1 :: i2 :: c1 :: c2 :: more) rest ->
  Z.of_nat (length (st :: i1 :: i2 :: c1 :: c2 :: more)) <= DATA_SIZE ->
  is_byte i1 -> is_byte i2 -> is_byte c1 -> is_byte c2 ->
  exists f' w',
    fingerFastSearch uninit f w = Done (st, f', w')
    /\ pending DEFAULTTIMEOUT f' w' rest
    /\ session f' = session (with_match (be16 i1 i2) (be16 c1 c2) f)
    /\ R503Serial f'
       = R503Serial f
         ++ command_frame
              [FINGERPRINT_HISPEEDSEARCH; 0x01; 0x00; 0x00; 0x00; 0xA3].
Proof.
  intros Hh H6 Hu Hans Hb H1 H2 H3 H4.
  destruct (GET_CMD_PACKET_answered
              [FINGERPRINT_HISPEEDSEARCH; 0x01; 0x00; 0x00; 0x00; 0xA3]
              uninit f w junk (st :: i1 :: i2 :: c1 :: c2 :: more) rest
              FINGERPRINT_ACKPACKET)
    as (p' & f' & w' & Hg & _ & _ & Hlen & Ht & Hpend & Hsess & Hser);
    try done.
  rewrite Z.eqb_refl in Hg.
  exists (with_match (be16 i1 i2) (be16 c1 c2) f'), w'.
  split; [|split; [by apply pending_match|split]].
  - unfold fingerFastSearch. rewrite Hg.
    cbn [length] in Hb.
    destruct (Z.leb_spec (Z.of_nat (length (Packet.data p'))) 4); [lia|].
    rewrite (at_take _ _ _ 0 Ht) by (cbn; lia).
    by rewrite (search_parse_reply p' f' st i1 i2 c1 c2 more).
  - by apply session_with_match.
  - done.
Qed.

Lemma fingerSearch_reply (slot : Z) (uninit : list Z) (f : Fingerprint)
    (w : World) (junk more rest : list Z) (st i1 i2 c1 c2 : Z) :
  header_sane -> 6 <= DATA_SIZE ->
  Z.of_nat (length uninit) = DATA_SIZE ->
  answers DEFAULTTIMEOUT f w junk FINGERPRINT_ACKPACKET
    (st :: i1 :: i2 :: c1 :: c2 :: more) rest ->
  Z.of_nat (length (st :: i1 :: i2 :: c1 :: c2 :: more)) <= DATA_SIZE ->
  is_byte i1 -> is_byte i2 -> is_byte c1 -> is_byte c2 ->
  exists f' w',
    fingerSearch slot uninit f w = Done (st, f', w')
    /\ pending DEFAULTTIMEOUT f' w' rest
    /\ session f' = session (with_match (be16 i1 i2) (be16 c1 c2) f)
    /\ R503Serial f'
       = R503Serial f
         ++ command_frame
              [ FINGERPRINT_SEARCH; slot; u8 0x00; u8 0x00;
                u8 (Z.shiftr (capacity f) 8);
                u8 (Z.land (capacity f) 0xFF) ].
Proof.
  intros Hh H6 Hu Hans Hb H1 H2 H3 H4.
  destruct (GET_CMD_PACKET_answered
              [ FINGERPRINT_SEARCH; slot; u8 0x00; u8 0x00;
                u8 (Z.shiftr (capacity f) 8);
                u8 (Z.land (capacity f) 0xFF) ]
              uninit f w junk (st :: i1 :: i2 :: c1 :: c2 :: more) rest
              FINGERPRINT_ACKPACKET)
    as (p' & f' & w' & Hg & _ & _ & Hlen & Ht & Hpend & Hsess & Hser);
    try done.
  rewrite Z.eqb_refl in Hg.
  exists (with_match (be16 i1 i2) (be16 c1 c2) f'), w'.
  split; [|split; [by apply pending_match|split]].
  - unfold fingerSearch. rewrite Hg.
    cbn [length] in Hb.
    destruct (Z.leb_spec (Z.of_nat (length (Packet.data p'))) 4); [lia|].
    rewrite (at_take _ _ _ 0 Ht) by (cbn; lia).
    by rewrite (search_parse_reply p' f' st i1 i2 c1 c2 more).
  - by apply session_with_match.
  - done.
Qed.

Lemma answers_intro (timeout : Z) (f : Fingerprint) (w : World)
    (ty : Z) (body frame rest : list Z) :
  reply ty body frame ->
  pending timeout f w (frame ++ rest) ->
  answers timeout f w [] ty body rest.
Proof. intros Hr Hp. exists frame. by split; [|split]. Qed.

Lemma pending_params (timeout sr si ca sl da plen br : Z) (f : Fingerprint)
    (w : World) (bytes : list Z) :
  pending timeout f w bytes ->
  pending timeout (with_params sr si ca sl da plen br f) w bytes.
Proof. intros (q & Hq & Hrest). by exists q. Qed.

Lemma session_inv (f g : Fingerprint) :
  session g = session f ->
  thePassword g = thePassword f /\ capacity g = capacity f
  /\ fingerID g = fingerID f /\ confidence g = confidence f
  /\ templateCount g = templateCount f.
Proof. unfold session. intros [= ? ? ? ? ? ? ? ? ? ? ? ?]. done. Qed.

Lemma checkPassword_sends (uninit : list Z) (f f' : Fingerprint)
    (w w' : World) (code : Z) :
  header_sane -> 5 <= DATA_SIZE ->
  Z.of_nat (length uninit) = DATA_SIZE ->
  checkPassword uninit f w = Done (code, f', w') ->
  R503Serial f'
  = R503Serial f
    ++ command_frame
         [ FINGERPRINT_VERIFYPASSWORD;
           u8 (Z.shiftr (thePassword f) 24);
           u8 (Z.shiftr (thePassword f) 16);
           u8 (Z.shiftr (thePassword f) 8);
           u8 (Z.land (thePassword f) 0xFF) ]
  /\ session f' = session f.
Proof.
  intros Hh H5 Hu. unfold checkPassword.
  destruct (GET_CMD_PACKET _ uninit f w) as [[[g f2] w2]| |] eqn:Hg;
    [|done..].
  apply GET_CMD_PACKET_sends in Hg; [|done|done|cbn; lia].
  destruct g as [c|p]; [by intros [= <- <- <-]|].
  destruct (_ <=? 0); [done|].
  destruct (_ =? FINGERPRINT_OK); by intros [= <- <- <-].
Qed.

End RestLemmas.

Lemma idle_driver_pending `{H : FingerprintH} (timeout : Z) (w : World) :
  0 <= BUFF_SIZE ->
  Z.of_nat (length (rx w)) <= BUFF_SIZE ->
  arrives_in_time timeout w ->
  pending timeout idle_driver w (rx w).
Proof.
  intros Hb Hfit Htime. exists []. split; [by apply idle_driver_ring|].
  split; [cbn; lia|done].
Qed.

(** ** The parser past the end of the data array *)

Section UncheckedLemmas.
Context `{H : FingerprintH}.

Lemma cut_all (n : nat) (p : Packet.t) :
  (length (Packet.data p) <= n)%nat -> cut n p = p.
Proof.
  intros Hn. destruct p as [sc a ty l d]. unfold cut. cbn in *.
  by rewrite take_ge.
Qed.

Lemma cut_widen (k : nat) (p : Packet.t) :
  cut (length (Packet.data p)) (widen k p) = p.
Proof.
  destruct p as [sc a ty l d]. unfold cut, widen. cbn.
  by rewrite take_app_length.
Qed.

Lemma cut_insert (n i : nat) (b : Z) (d : list Z) :
  take n (<[i := b]> d) = <[i := b]> (take n d).
Proof.
  destruct (Nat.lt_ge_cases i n) as [Hlt|Hge].
  - by apply take_insert_lt.
  - rewrite take_insert_ge by done.
    rewrite list_insert_ge; [done|]. rewrite length_take. lia.
Qed.

Lemma take_body_slack (k : nat) (body d : list Z) :
  take (length d) (body ++ drop (length body) (d ++ replicate k 0))
  = take (length d) (body ++ drop (length body) d).
Proof.
  destruct (Nat.le_gt_cases (length body) (length d)) as [Hle|Hgt].
  - rewrite drop_app_le by done. rewrite app_assoc.
    rewrite take_app_le; [done|]. rewrite length_app, length_drop. lia.
  - rewrite !(take_app_le body) by lia. done.
Qed.

(** Where [gsp_switch] does not stop, the unchecked switch does the
    same, on a data array of any size. *)
Lemma gsp_switch_cut (n : nat) (p : Packet.t) (idx b : Z) :
  match gsp_switch p idx b with
  | Next p' i' => gsp_switch_unchecked (cut n p) idx b = Next (cut n p') i'
  | Return c p' => gsp_switch_unchecked (cut n p) idx b = Return c (cut n p')
  | Overrun => True
  end.
Proof.
  destruct p as [sc a ty l d].
  unfold gsp_switch, gsp_switch_unchecked, cut. cbn.
  destruct (idx =? 0); [by destruct (negb _)|].
  destruct (idx =? 1); [by destruct (negb _)|].
  destruct ((2 <=? idx) && (idx <=? 5)); [done|].
  destruct (idx =? 6); [done|].
  destruct (idx =? 7); [done|].
  destruct (idx =? 8); [done|].
  destruct (_ <=? idx - 9); [done|].
  destruct (idx - 8 =? l); unfold Packet.with_data; cbn;
    by rewrite cut_insert.
Qed.

Lemma gsp_loop_cut (n fuel : nat) (timeout : Z) (f f' : Fingerprint)
    (w w' : World) (p r : Packet.t) (idx timer code : Z) :
  gsp_loop fuel timeout f w p idx timer = Done (code, r, f', w') ->
  gsp_loop_unchecked fuel timeout f w (cut n p) idx timer
  = Done (code, cut n r, f', w').
Proof.
  revert f w p idx timer.
  induction fuel as [|fuel IH]; intros f w p idx timer; [done|].
  cbn [gsp_loop gsp_loop_unchecked].
  destruct (poll f w) as [f1 w1].
  destruct (pl f1 =? pe f1).
  - destruct (u16 (timer + 1) >=? timeout).
    + by intros [= <- <- <- <-].
    + apply IH.
  - destruct (readUARTbuff f1) as [byte f2].
    pose proof (gsp_switch_cut n p idx byte) as Hsw.
    destruct (gsp_switch p idx byte) as [p' i'|c p'|]; [| |done];
      rewrite Hsw.
    + apply IH.
    + by intros [= <- <- <- <-].
Qed.

Lemma gsp_switch_data_length (p : Packet.t) (idx b : Z) :
  match gsp_switch p idx b with
  | Next p' _ | Return _ p' =>
      length (Packet.data p') = length (Packet.data p)
  | Overrun => True
  end.
Proof.
  destruct p as [sc a ty l d]. unfold gsp_switch. cbn.
  destruct (idx =? 0); [by destruct (negb _)|].
  destruct (idx =? 1); [by destruct (negb _)|].
  destruct ((2 <=? idx) && (idx <=? 5)); [done|].
  destruct (idx =? 6); [done|].
  destruct (idx =? 7); [done|].
  destruct (idx =? 8); [done|].
  destruct (_ <=? idx - 9); [done|].
  destruct (idx - 8 =? l); unfold Packet.with_data; cbn;
    by rewrite length_insert.
Qed.

Lemma gsp_loop_data_length (fuel : nat) (timeout : Z) (f f' : Fingerprint)
    (w w' : World) (p r : Packet.t) (idx timer code : Z) :
  gsp_loop fuel timeout f w p idx timer = Done (code, r, f', w') ->
  length (Packet.data r) = length (Packet.data p).
Proof.
  revert f w p idx timer.
  induction fuel as [|fuel IH]; intros f w p idx timer; [done|].
  cbn [gsp_loop].
  destruct (poll f w) as [f1 w1].
  destruct (pl f1 =? pe f1).
  - destruct (u16 (timer + 1) >=? timeout).
    + by intros [= <- <- <- <-].
    + apply IH.
  - destruct (readUARTbuff f1) as [byte f2].
    pose proof (gsp_switch_data_length p idx byte) as Hsw.
    destruct (gsp_switch p idx byte) as [p' i'|c p'|]; [| |done].
    + intros Hl. apply IH in Hl. congruence.
    + by intros [= <- <- <- <-].
Qed.

(** Every result of the parser that stops at the end of the array is
    the result of the unchecked one. *)
Lemma getStructuredPacket_unchecked_agrees (packet r : Packet.t)
    (timeout code : Z) (f f' : Fingerprint) (w w' : World) :
  getStructuredPacket packet timeout f w = Done (code, r, f', w') ->
  getStructuredPacket_unchecked packet timeout f w = Done (code, r, f', w').
Proof.
  unfold getStructuredPacket, getStructuredPacket_unchecked. intros Hg.
  apply (gsp_loop_cut (length (Packet.data packet))) in Hg as Hu.
  rewrite cut_all in Hu by done. rewrite Hu. do 4 f_equal.
  pose proof (gsp_loop_data_length _ _ _ _ _ _ _ _ _ _ _ Hg) as Hlen.
  apply cut_all. lia.
Qed.

(** A frame behind bytes that do not start one, all in time: the
    unchecked parser returns [FINGERPRINT_OK] whatever length the frame
    declares, and the data array holds as much of the body as it has
    room for. *)
Lemma getStructuredPacket_unchecked_accepts (packet : Packet.t)
    (timeout : Z) (f : Fingerprint) (w : World) (q junk body rest : list Z)
    (a0 a1 a2 a3 ty lh ll : Z) :
  0 <= FINGERPRINT_STARTCODE < 65536 ->
  length (Packet.address packet) = 4%nat ->
  Z.of_nat (length (Packet.data packet)) < 65527 ->
  Z.of_nat (length body) < 65527 ->
  ring_holds f q ->
  Z.of_nat (length q) + Z.of_nat (length (rx w)) <= BUFF_SIZE ->
  0 <= timeout < 65536 ->
  arrives_in_time timeout w ->
  q ++ rx w = junk ++ header a0 a1 a2 a3 ty lh ll ++ body ++ rest ->
  Forall (fun b => b <> start_hi) junk ->
  body <> [] ->
  declared_length lh ll = Z.of_nat (length body) ->
  exists f' w' q',
    getStructuredPacket_unchecked packet timeout f w
    = Done (FINGERPRINT_OK,
            Packet.mk FINGERPRINT_STARTCODE [a0; a1; a2; a3] ty
              (Z.of_nat (length body))
              (take (length (Packet.data packet))
                 (body ++ drop (length body) (Packet.data packet))),
            f', w')
    /\ ring_holds f' q'
    /\ q' ++ rx w' = rest.
Proof.
  intros Hs Ha Hsmall Hbody Hq Hfit Hto Htime Hall Hj Hne Hl.
  set (N := length (Packet.data packet)).
  set (k := (length body - N)%nat).
  destruct (getStructuredPacket_accepts_within (widen k packet) timeout f w
              q junk body rest a0 a1 a2 a3 ty lh ll)
    as (f' & w' & q' & Hg & Hq' & Hrest & _); try done.
  - cbn. rewrite length_app, length_replicate. fold N. lia.
  - rewrite arrives_in_time_readable by done.
    rewrite <- length_app, Hall, !length_app. lia.
  - cbn. rewrite length_app, length_replicate. fold N. lia.
  - exists f', w', q'. split; [|done].
    unfold getStructuredPacket in Hg.
    apply (gsp_loop_cut N) in Hg.
    unfold getStructuredPacket_unchecked.
    pose proof (cut_widen k packet) as Hcw. fold N in Hcw.
    rewrite Hcw in Hg. rewrite Hg. do 4 f_equal.
    unfold cut, widen, Packet.with_data. cbn. f_equal.
    by apply take_body_slack.
Qed.

End UncheckedLemmas.

(** * Part III: the claims *)

(** ** Serializer *)

(** C1.  For every packet whose payload length does not exceed the payload
    array, [writeStructuredPacket] hands to the serial port, in order, the
    start code (two bytes, high byte first), the four address bytes, the
    type byte, the wire length [length + 2] (two bytes, high byte first),
    the payload bytes and the checksum (two bytes, high byte first), the
    checksum being the sum of the two wire-length bytes, the type byte and
    the payload bytes modulo 65536.  The payload array is taken to have at
    most 255 elements, the range of the 8-bit loop counter. *)
Theorem writeStructuredPacket_emits_frame `{H : FingerprintH}
    (p : Packet.t) (f : Fingerprint) :
  DATA_SIZE <= 255 ->
  packet_wf p ->
  Packet.length p <= DATA_SIZE ->
  let wl := Packet.length p + 2 in
  let body := take (Z.to_nat (Packet.length p)) (Packet.data p) in
  let sum := (wl / 256 + wl mod 256 + Packet.type p + byte_sum body)
             mod 65536 in
  exists f',
    writeStructuredPacket p f = Done f'
    /\ R503Serial f' =
         R503Serial f
         ++ [ Packet.start_code p / 256; Packet.start_code p mod 256 ]
         ++ Packet.address p
         ++ [ Packet.type p; wl / 256; wl mod 256 ]
         ++ body
         ++ [ sum / 256; sum mod 256 ]
    /\ length body = Z.to_nat (Packet.length p)
    /\ session f' = session f.
Proof.
  intros Hd (Hsc & Ha & _ & _ & Hl & Hdata & _) Hfit wl body sum.
  exists (with_serial (R503Serial f ++ wire_frame p) f).
  split; [|split; [done|split; [|done]]].
  - apply writeStructuredPacket_frame; [done|done|lia|lia].
  - subst body. rewrite length_take. lia.
Qed.

Lemma writeStructuredPacket_emits_frame_witness :
  exists f',
    writeStructuredPacket c1_packet (Fingerprint_ctor 0 0 0 0 ∅) = Done f'
    /\ R503Serial f' =
         [0xEF; 0x01; 0xFF; 0xFF; 0xFF; 0xFF; 0x01; 0x00; 0x05;
          0x1B; 0x01; 0xA3; 0x00; 0xC5]
    /\ length [0x1B; 0x01; 0xA3] = 3%nat
    /\ session f' = session (Fingerprint_ctor 0 0 0 0 ∅).
Proof.
  apply (@writeStructuredPacket_emits_frame adafruit_h c1_packet
           (Fingerprint_ctor 0 0 0 0 ∅)).
  - cbn. lia.
  - apply c1_packet_wf.
  - cbn. lia.
Defined.

(** ** Serializer and parser *)

(** C2.  Every valid outbound packet (the start code of the protocol, a
    payload length of at most the size of the data array) round-trips:
    when the line carries exactly the bytes [writeStructuredPacket]
    wrote and they arrive in time, [getStructuredPacket], which has no
    test for the end of the data array
    ([getStructuredPacket_unchecked]), returns [FINGERPRINT_OK] with the
    type and the address of the original packet; the parsed [length] is
    the original length plus the two checksum bytes (the
    checksum-in-payload quirk) and the data array starts with the
    original payload.  When payload and checksum together fit the
    array, the checksum follows the payload in it and no byte is stored
    behind the array. *)
Theorem write_then_get_round_trip `{H : FingerprintH}
    (p r : Packet.t) (f0 f1 f : Fingerprint) (w : World) (timeout : Z) :
  0 <= FINGERPRINT_STARTCODE < 65536 ->
  DATA_SIZE <= 255 ->
  packet_wf p -> Packet.start_code p = FINGERPRINT_STARTCODE ->
  Packet.length p <= DATA_SIZE ->
  packet_wf r ->
  writeStructuredPacket p f0 = Done f1 ->
  R503Serial f1 = R503Serial f0 ++ rx w ->
  ring_holds f [] ->
  Z.of_nat (length (rx w)) <= BUFF_SIZE ->
  0 <= timeout < 65536 ->
  arrives_in_time timeout w ->
  exists r' f' w',
    getStructuredPacket_unchecked r timeout f w
    = Done (FINGERPRINT_OK, r', f', w')
    /\ Packet.type r' = Packet.type p
    /\ Packet.address r' = Packet.address p
    /\ Packet.length r' = Packet.length p + 2
    /\ take (Z.to_nat (Packet.length p)) (Packet.data r') = payload p
    /\ (Packet.length p + 2 <= DATA_SIZE ->
        getStructuredPacket r timeout f w = Done (FINGERPRINT_OK, r', f', w')
        /\ take 2 (drop (Z.to_nat (Packet.length p)) (Packet.data r'))
           = [checksum p / 256; checksum p mod 256])
    /\ rx w' = [] /\ ring_holds f' [].
Proof.
  intros Hs Hd Hp Hstart Hlen Hr Hwrite Hline Hq Hbuf Hto Htime.
  pose proof Hp as (Hsc & Ha & _ & _ & Hl & Hdata & _).
  pose proof Hr as (_ & Har & _ & _ & _ & Hrdata & _).
  rewrite writeStructuredPacket_frame in Hwrite; [|done|done|lia|lia].
  injection Hwrite as <-. cbn in Hline.
  apply app_inv_head in Hline.
  pose proof (payload_length p ltac:(lia)) as Hpl.
  set (body := payload p ++ [checksum p / 256; checksum p mod 256]).
  assert (Hblen : Z.of_nat (length body) = Packet.length p + 2).
  { unfold body. rewrite length_app. cbn [length]. lia. }
  destruct (Packet.address p) as [|a0 [|a1 [|a2 [|a3 [|? ?]]]]] eqn:Hadr;
    try done.
  assert (Hall : [] ++ rx w
                 = [] ++ header a0 a1 a2 a3 (Packet.type p)
                           (wire_length p / 256) (wire_length p mod 256)
                   ++ body ++ []).
  { rewrite <- Hline. unfold header, body.
    rewrite Hstart, <- start_hi_div, <- start_lo_mod, app_nil_r.
    reflexivity. }
  assert (Hdecl : declared_length (wire_length p / 256)
                    (wire_length p mod 256) = Z.of_nat (length body)).
  { rewrite Hblen. apply declared_length_split. unfold wire_length. lia. }
  assert (Hne : body <> []) by (unfold body; by destruct (payload p)).
  destruct (getStructuredPacket_unchecked_accepts r timeout f w [] [] body []
              a0 a1 a2 a3 (Packet.type p)
              (wire_length p / 256) (wire_length p mod 256))
    as (f' & w' & q' & Hg & Hq' & Hrest);
    try done; try lia; try (cbn [length]; lia).
  apply app_eq_nil in Hrest as [-> Hrx].
  eexists _, f', w'. split; [exact Hg|]. cbn [Packet.type Packet.address
    Packet.length Packet.data].
  do 3 (split; [done|]).
  assert (Htake : forall tl,
            take (Z.to_nat (Packet.length p)) (body ++ tl) = payload p).
  { intros tl. unfold body. rewrite <- app_assoc.
    rewrite take_app_length'; [done|lia]. }
  split.
  { rewrite take_take, Nat.min_l by lia. apply Htake. }
  split; [|done].
  intros Hfit.
  assert (Hwhole : take (length (Packet.data r))
                     (body ++ drop (length body) (Packet.data r))
                   = body ++ drop (length body) (Packet.data r)).
  { apply take_ge. rewrite length_app, length_drop. lia. }
  rewrite Hwhole in Hg |- *. split.
  - destruct (getStructuredPacket_accepts_within r timeout f w [] [] body []
                a0 a1 a2 a3 (Packet.type p)
                (wire_length p / 256) (wire_length p mod 256))
      as (fg & wg & qg & Hgg & _);
      try done; try lia; try (cbn [length]; lia).
    { rewrite arrives_in_time_readable by done.
      rewrite app_nil_r in Hall. rewrite <- Hall. cbn [app length]. lia. }
    pose proof (getStructuredPacket_unchecked_agrees _ _ _ _ _ _ _ _ Hgg)
      as Hu.
    rewrite Hg in Hu. injection Hu as <- <-. exact Hgg.
  - unfold body. rewrite <- app_assoc.
    rewrite drop_app_length'; [done|lia].
Qed.

Lemma write_then_get_round_trip_witness :
  exists r' f' w',
    @getStructuredPacket_unchecked adafruit_h c2_full_packet 1000
      idle_driver c2_world
    = Done (@FINGERPRINT_OK adafruit_h, r', f', w')
    /\ Packet.type r' = Packet.type c2_full_packet
    /\ Packet.address r' = Packet.address c2_full_packet
    /\ Packet.length r' = Packet.length c2_full_packet + 2
    /\ take (Z.to_nat (Packet.length c2_full_packet)) (Packet.data r')
       = payload c2_full_packet
    /\ (Packet.length c2_full_packet + 2 <= @DATA_SIZE adafruit_h ->
        @getStructuredPacket adafruit_h c2_full_packet 1000 idle_driver
          c2_world
        = Done (@FINGERPRINT_OK adafruit_h, r', f', w')
        /\ take 2 (drop (Z.to_nat (Packet.length c2_full_packet))
                     (Packet.data r'))
           = [checksum c2_full_packet / 256; checksum c2_full_packet mod 256])
    /\ rx w' = [] /\ @ring_holds adafruit_h f' [].
Proof.
  apply (@write_then_get_round_trip adafruit_h c2_full_packet c2_full_packet
           idle_driver c2_sent idle_driver c2_world 1000).
  - cbn. lia.
  - cbn. lia.
  - unfold packet_wf, c2_full_packet, is_byte. cbn.
    repeat split; try lia; repeat constructor; lia.
  - reflexivity.
  - cbn. lia.
  - unfold packet_wf, c2_full_packet, is_byte. cbn.
    repeat split; try lia; repeat constructor; lia.
  - vm_compute. reflexivity.
  - reflexivity.
  - apply idle_driver_ring. cbn. lia.
  - vm_compute. discriminate.
  - lia.
  - split; [vm_compute; lia|by left].
Defined.

(** ** Parser *)

(** Frames within the data array.  Whenever the parser returns
    [FINGERPRINT_OK] without a store behind the array, it has consumed a
    frame, and behind the nine header bytes it has stored exactly as
    many bytes as the length field declares in the data array of the
    packet, the two trailing (checksum) bytes of the frame included.  No
    byte behind the header is compared with anything: with any other
    bytes in their place, the checksum bytes in particular, the call
    returns [FINGERPRINT_OK] all the same. *)
Theorem getStructuredPacket_ok_keeps_checksum `{H : FingerprintH}
    (packet p' : Packet.t) (timeout : Z) (f f' : Fingerprint)
    (w w' : World) (q : list Z) :
  0 <= FINGERPRINT_STARTCODE < 65536 ->
  FINGERPRINT_OK <> FINGERPRINT_TIMEOUT ->
  FINGERPRINT_OK <> FINGERPRINT_BADPACKET ->
  length (Packet.address packet) = 4%nat ->
  Z.of_nat (length (Packet.data packet)) < 65527 ->
  ring_holds f q ->
  Z.of_nat (length q) + Z.of_nat (length (rx w)) <= BUFF_SIZE ->
  Forall is_byte (q ++ rx w) ->
  0 <= timeout < 65536 ->
  getStructuredPacket packet timeout f w = Done (FINGERPRINT_OK, p', f', w') ->
  exists junk a0 a1 a2 a3 ty lh ll body q',
    q ++ rx w = junk ++ header a0 a1 a2 a3 ty lh ll ++ body ++ q' ++ rx w'
    /\ ring_holds f' q'
    /\ Forall (fun b => b <> start_hi) junk
    /\ Z.of_nat (length body) = declared_length lh ll
    /\ Packet.length p' = declared_length lh ll
    /\ take (length body) (Packet.data p') = body
    /\ (forall payload c1 c2, body = payload ++ [c1; c2] ->
          take 2 (drop (length payload) (Packet.data p')) = [c1; c2])
    /\ (forall body2 f2 w2 q2,
          length body2 = length body ->
          ring_holds f2 q2 -> length q2 = length q ->
          arrivals w2 = arrivals w ->
          q2 ++ rx w2
          = junk ++ header a0 a1 a2 a3 ty lh ll ++ body2 ++ q' ++ rx w' ->
          exists p2 f2' w2',
            getStructuredPacket packet timeout f2 w2
            = Done (FINGERPRINT_OK, p2, f2', w2')
            /\ take (length body2) (Packet.data p2) = body2).
Proof.
  intros Hs Hto Hbad Ha Hsmall Hq Hlen Hbytes Htime Hg.
  destruct (getStructuredPacket_ok_inv packet p' timeout f f' w w' q)
    as (junk & a0 & a1 & a2 & a3 & ty & lh & ll & body & q' & rest
        & Hall & Htake & Hh & Hj & Hne & Hl & Hfit & ->); try done.
  exists junk, a0, a1, a2, a3, ty, lh, ll, body, q'.
  split; [done|]. split; [done|]. split; [done|]. split; [done|].
  cbn [Packet.length Packet.data].
  split; [done|]. split; [by rewrite take_app_length|]. split.
  - intros payload c1 c2 ->.
    rewrite <- !app_assoc, drop_app_length. done.
  - intros body2 f2 w2 q2 Hb2 Hq2 Hlq Harr Hall2.
    assert (Htot : length (q2 ++ rx w2) = length (q ++ rx w)).
    { rewrite Hall, Hall2. rewrite !length_app. unfold header. cbn. lia. }
    assert (Hrx : length (rx w2) = length (rx w)).
    { rewrite !length_app in Htot. lia. }
    pose proof (getStructuredPacket_run packet timeout f2 w2 q2 Hq2
                  ltac:(lia) Htime) as Hrun.
    cbn zeta in Hrun. rewrite Hlq, Hrx, Harr in Hrun.
    set (r := readable (length q) (length (rx w)) (arrivals w) 0 timeout)
      in *.
    assert (Hpre : take r (q2 ++ rx w2)
                   = (junk ++ header a0 a1 a2 a3 ty lh ll ++ body2) ++ rest).
    { rewrite Hall2.
      replace (junk ++ header a0 a1 a2 a3 ty lh ll ++ body2 ++ q' ++ rx w')
        with ((junk ++ header a0 a1 a2 a3 ty lh ll ++ body2) ++ q' ++ rx w')
        by (by rewrite <- !app_assoc).
      apply (take_swap_prefix r (junk ++ header a0 a1 a2 a3 ty lh ll ++ body)).
      - rewrite <- Htake, Hall. by rewrite <- !app_assoc.
      - rewrite !length_app. lia. }
    rewrite <- !app_assoc in Hpre. unfold header in Hpre.
    rewrite Hpre, run_frame in Hrun; [|done|done|done| |lia|lia|done].
    + destruct Hrun as (consumed2 & q2' & f2' & w2' & Hg2 & _).
      eexists _, f2', w2'. split; [exact Hg2|].
      cbn. by rewrite take_app_length.
    + intros ->. destruct body; [done|discriminate].
Qed.

Lemma getStructuredPacket_ok_keeps_checksum_witness :
  exists junk a0 a1 a2 a3 ty lh ll body q',
    [] ++ c1_frame
    = junk ++ @header adafruit_h a0 a1 a2 a3 ty lh ll ++ body ++ q'
      ++ rx c3_out.2
    /\ @ring_holds adafruit_h c3_out.1.2 q'
    /\ Forall (fun b => b <> @start_hi adafruit_h) junk
    /\ Z.of_nat (length body) = declared_length lh ll
    /\ Packet.length c3_out.1.1.2 = declared_length lh ll
    /\ take (length body) (Packet.data c3_out.1.1.2) = body
    /\ (forall payload c1 c2, body = payload ++ [c1; c2] ->
          take 2 (drop (length payload) (Packet.data c3_out.1.1.2))
          = [c1; c2])
    /\ (forall body2 f2 w2 q2,
          length body2 = length body ->
          @ring_holds adafruit_h f2 q2 -> length q2 = length (@nil Z) ->
          arrivals w2 = [14%nat] ->
          q2 ++ rx w2
          = junk ++ @header adafruit_h a0 a1 a2 a3 ty lh ll ++ body2 ++ q'
            ++ rx c3_out.2 ->
          exists p2 f2' w2',
            @getStructuredPacket adafruit_h c1_packet 1000 f2 w2
            = Done (0x00, p2, f2', w2')
            /\ take (length body2) (Packet.data p2) = body2).
Proof.
  apply (@getStructuredPacket_ok_keeps_checksum adafruit_h c1_packet
           c3_out.1.1.2 1000 idle_driver c3_out.1.2 c3_world c3_out.2 []).
  - cbn. lia.
  - cbn. lia.
  - cbn. lia.
  - reflexivity.
  - cbn. lia.
  - apply idle_driver_ring. cbn. lia.
  - cbn. lia.
  - unfold is_byte. cbn. repeat constructor; lia.
  - lia.
  - vm_compute. reflexivity.
Defined.

(** C3 does not hold of the code: nothing compares the declared length
    with the size of the data array.  For a frame that declares more
    bytes than the array of the packet has elements, all arriving in
    time, the call stores the bytes that do not fit behind the end of
    the array (the parser that watches the bound stops there) and, run
    on, returns [FINGERPRINT_OK] with the declared length in [length]
    while the data array holds the first bytes of the body only: the
    last bytes of the frame, its checksum, are not in the data array. *)
Theorem getStructuredPacket_checksum_behind_array `{H : FingerprintH}
    (packet : Packet.t) (timeout : Z) (f : Fingerprint) (w : World)
    (q junk body rest : list Z) (a0 a1 a2 a3 ty lh ll : Z) :
  0 <= FINGERPRINT_STARTCODE < 65536 ->
  length (Packet.address packet) = 4%nat ->
  Z.of_nat (length body) < 65527 ->
  ring_holds f q ->
  Z.of_nat (length q) + Z.of_nat (length (rx w)) <= BUFF_SIZE ->
  0 <= timeout < 65536 ->
  arrives_in_time timeout w ->
  q ++ rx w = junk ++ header a0 a1 a2 a3 ty lh ll ++ body ++ rest ->
  Forall (fun b => b <> start_hi) junk ->
  declared_length lh ll = Z.of_nat (length body) ->
  (length (Packet.data packet) < length body)%nat ->
  getStructuredPacket packet timeout f w = OutOfBounds
  /\ exists r' f' w',
       getStructuredPacket_unchecked packet timeout f w
       = Done (FINGERPRINT_OK, r', f', w')
       /\ Packet.length r' = declared_length lh ll
       /\ Packet.data r' = take (length (Packet.data packet)) body
       /\ Z.of_nat (length (Packet.data r')) < declared_length lh ll.
Proof.
  intros Hs Ha Hbody Hq Hfit Hto Htime Hall Hj Hl Hlong.
  assert (Hsmall : Z.of_nat (length (Packet.data packet)) < 65527) by lia.
  split.
  - pose proof (getStructuredPacket_run packet timeout f w q Hq Hfit Hto)
      as Hrun.
    cbn zeta in Hrun.
    rewrite arrives_in_time_readable in Hrun by done.
    rewrite <- length_app, firstn_all, Hall in Hrun.
    rewrite run_long_length in Hrun; [done|done|done|lia| |done].
    rewrite length_app. lia.
  - destruct (getStructuredPacket_unchecked_accepts packet timeout f w q
                junk body rest a0 a1 a2 a3 ty lh ll)
      as (f' & w' & q' & Hg & _); try done.
    { intros ->. cbn in Hlong. lia. }
    eexists _, f', w'. split; [exact Hg|].
    cbn [Packet.length Packet.data].
    split; [done|].
    rewrite take_app_le by lia. split; [done|].
    rewrite length_take. lia.
Qed.

Lemma getStructuredPacket_checksum_behind_array_witness :
  @getStructuredPacket adafruit_h c2_full_packet 1000 idle_driver c2_world
  = OutOfBounds
  /\ exists r' f' w',
       @getStructuredPacket_unchecked adafruit_h c2_full_packet 1000
         idle_driver c2_world
       = Done (@FINGERPRINT_OK adafruit_h, r', f', w')
       /\ Packet.length r' = declared_length 0x00 0x42
       /\ Packet.data r'
          = take (length (Packet.data c2_full_packet))
              (replicate 64 0 ++ [0x00; 0x43])
       /\ Z.of_nat (length (Packet.data r')) < declared_length 0x00 0x42.
Proof.
  apply (@getStructuredPacket_checksum_behind_array adafruit_h
           c2_full_packet 1000 idle_driver c2_world [] []
           (replicate 64 0 ++ [0x00; 0x43]) []
           0xFF 0xFF 0xFF 0xFF 0x01 0x00 0x42).
  - cbn. lia.
  - reflexivity.
  - vm_compute. reflexivity.
  - apply idle_driver_ring. cbn. lia.
  - vm_compute. discriminate.
  - lia.
  - split; [vm_compute; lia|by left].
  - vm_compute. reflexivity.
  - constructor.
  - vm_compute. reflexivity.
  - vm_compute. lia.
Defined.

(** C4, as stated, fails: the timer is shared by all the bytes of a call.
    Here every byte of a complete frame arrives after a single idle test,
    below the timeout of 2, and the call returns [FINGERPRINT_TIMEOUT]
    with most of the frame still to come. *)
Lemma getStructuredPacket_gap_budget_counterexample :
  let ticks := [0; 1; 0; 1; 0; 1; 0; 1; 0; 1; 0; 1; 0; 1;
                0; 1; 0; 1; 0; 1; 0; 1; 0; 1; 0; 1; 0; 1]%nat in
  (longest_gap 0 ticks < 2)%nat
  /\ sum_list ticks = length c1_frame
  /\ exists p' f' w',
       @getStructuredPacket adafruit_h c1_packet 2 idle_driver
         (mkWorld c1_frame ticks 0)
       = Done (@FINGERPRINT_TIMEOUT adafruit_h, p', f', w')
       /\ length (rx w') = 13%nat.
Proof.
  cbn zeta. split; [cbn; lia|]. split; [reflexivity|].
  eexists _, _, _. split; [vm_compute; reflexivity|reflexivity].
Qed.

(** C4, amended.  Every wait for a byte polls [pl == pe] with a sleep of
    1 ms in between and counts the sleeps in one timer for the whole
    call; the timer is never set back.  The call returns
    [FINGERPRINT_TIMEOUT] exactly when the count of sleeps of the whole
    call reaches the timeout (at least one sleep), and then the count is
    exactly that; so a frame all of whose bytes arrive, with fewer idle
    tests in all than the timeout, is accepted and not reported as a
    timeout. *)
Theorem getStructuredPacket_timeout_is_cumulative `{H : FingerprintH}
    (packet p' : Packet.t) (timeout code : Z) (f f' : Fingerprint)
    (w w' : World) :
  0 <= timeout < 65536 ->
  FINGERPRINT_TIMEOUT <> FINGERPRINT_OK ->
  FINGERPRINT_TIMEOUT <> FINGERPRINT_BADPACKET ->
  getStructuredPacket packet timeout f w = Done (code, p', f', w') ->
  let s := slept w' - slept w in
  0 <= s
  /\ (code = FINGERPRINT_TIMEOUT <-> 1 <= s /\ timeout <= s)
  /\ (code = FINGERPRINT_TIMEOUT -> s = Z.max 1 timeout)
  /\ (forall q junk body rest a0 a1 a2 a3 ty lh ll,
        0 <= FINGERPRINT_STARTCODE < 65536 ->
        length (Packet.address packet) = 4%nat ->
        Z.of_nat (length (Packet.data packet)) < 65527 ->
        ring_holds f q ->
        Z.of_nat (length q) + Z.of_nat (length (rx w)) <= BUFF_SIZE ->
        arrives_in_time timeout w ->
        q ++ rx w = junk ++ header a0 a1 a2 a3 ty lh ll ++ body ++ rest ->
        Forall (fun b => b <> start_hi) junk ->
        body <> [] ->
        declared_length lh ll = Z.of_nat (length body) ->
        (length body <= length (Packet.data packet))%nat ->
        code = FINGERPRINT_OK).
Proof.
  intros Htime Hok Hbad Hg s.
  pose proof Hg as Hs. unfold getStructuredPacket in Hs.
  apply gsp_loop_slept in Hs; [|lia..].
  cbn zeta in Hs. fold s in Hs.
  split; [lia|]. split; [|split].
  - split.
    + intros ->. destruct Hs as [Hs|[[?|?] _]]; [lia|done..].
    + intros [H1 H2]. destruct Hs as [[? _]|[_ Hs]]; [done|lia].
  - intros ->. destruct Hs as [Hs|[[?|?] _]]; [lia|done..].
  - intros q junk body rest a0 a1 a2 a3 ty lh ll Hs' Ha Hsmall Hq Hlen
      [Hsum Hidle] Hall Hj Hne Hl Hfit.
    pose proof (getStructuredPacket_run packet timeout f w q Hq Hlen Htime)
      as Hrun.
    cbn zeta in Hrun.
    rewrite readable_all in Hrun; [|lia|lia|done|lia].
    rewrite <- length_app, firstn_all, Hall in Hrun.
    unfold header in Hrun. rewrite run_frame in Hrun by done.
    destruct Hrun as (consumed & q' & f1 & w1 & Hg1 & _).
    rewrite Hg in Hg1. by injection Hg1.
Qed.

Lemma getStructuredPacket_timeout_is_cumulative_witness :
  let s := slept c4_out.2 - slept c4_world in
  0 <= s
  /\ (0xFF = @FINGERPRINT_TIMEOUT adafruit_h <-> 1 <= s /\ 2 <= s)
  /\ (0xFF = @FINGERPRINT_TIMEOUT adafruit_h -> s = Z.max 1 2)
  /\ (forall q junk body rest a0 a1 a2 a3 ty lh ll,
        0 <= @FINGERPRINT_STARTCODE adafruit_h < 65536 ->
        length (Packet.address c1_packet) = 4%nat ->
        Z.of_nat (length (Packet.data c1_packet)) < 65527 ->
        @ring_holds adafruit_h idle_driver q ->
        Z.of_nat (length q) + Z.of_nat (length (rx c4_world))
        <= @BUFF_SIZE adafruit_h ->
        arrives_in_time 2 c4_world ->
        q ++ rx c4_world
        = junk ++ @header adafruit_h a0 a1 a2 a3 ty lh ll ++ body ++ rest ->
        Forall (fun b => b <> @start_hi adafruit_h) junk ->
        body <> [] ->
        declared_length lh ll = Z.of_nat (length body) ->
        (length body <= length (Packet.data c1_packet))%nat ->
        0xFF = @FINGERPRINT_OK adafruit_h).
Proof.
  apply (@getStructuredPacket_timeout_is_cumulative adafruit_h c1_packet
           c4_out.1.1.2 2 0xFF idle_driver c4_out.1.2 c4_world c4_out.2).
  - lia.
  - cbn. lia.
  - cbn. lia.
  - vm_compute. reflexivity.
Defined.

(** C5.  When the bytes that [getStructuredPacket] gets to read within
    its budget stop short of the declared length of the frame (declared
    5, arrived 3, say), because the line falls silent or the rest comes
    too late, the call returns [FINGERPRINT_TIMEOUT], whatever the
    arrival times; and a call that returns [FINGERPRINT_OK] has read
    behind the header exactly as many bytes as the length field
    declares. *)
Theorem getStructuredPacket_short_frame_times_out `{H : FingerprintH}
    (packet : Packet.t) (timeout : Z) (f : Fingerprint) (w : World)
    (q junk body tail : list Z) (a0 a1 a2 a3 ty lh ll : Z) :
  0 <= FINGERPRINT_STARTCODE < 65536 ->
  FINGERPRINT_OK <> FINGERPRINT_TIMEOUT ->
  FINGERPRINT_OK <> FINGERPRINT_BADPACKET ->
  length (Packet.address packet) = 4%nat ->
  Z.of_nat (length (Packet.data packet)) < 65527 ->
  ring_holds f q ->
  Z.of_nat (length q) + Z.of_nat (length (rx w)) <= BUFF_SIZE ->
  Forall is_byte (q ++ rx w) ->
  0 <= timeout < 65536 ->
  (take (readable (length q) (length (rx w)) (arrivals w) 0 timeout)
     (q ++ rx w) ++ tail
   = junk ++ header a0 a1 a2 a3 ty lh ll ++ body ->
   Forall (fun b => b <> start_hi) junk ->
   Z.of_nat (length body) < declared_length lh ll ->
   (length body <= length (Packet.data packet))%nat ->
   exists p' f' w',
     getStructuredPacket packet timeout f w
     = Done (FINGERPRINT_TIMEOUT, p', f', w'))
  /\ (forall p' f' w',
        getStructuredPacket packet timeout f w
        = Done (FINGERPRINT_OK, p', f', w') ->
        exists junk' b0 b1 b2 b3 ty' lh' ll' body' q',
          q ++ rx w
          = junk' ++ header b0 b1 b2 b3 ty' lh' ll' ++ body' ++ q' ++ rx w'
          /\ Forall (fun b => b <> start_hi) junk'
          /\ Z.of_nat (length body') = declared_length lh' ll'
          /\ Packet.length p' = declared_length lh' ll').
Proof.
  intros Hs Hto Hbad Ha Hsmall Hq Hlen Hbytes Htime. split.
  - intros Hall Hj Hshort Hfit.
    pose proof (getStructuredPacket_run packet timeout f w q Hq Hlen Htime)
      as Hrun.
    cbn zeta in Hrun.
    destruct (run_frame_short junk body a0 a1 a2 a3 ty lh ll packet)
      as (p1 & i1 & Hst); try done.
    rewrite <- Hall in Hst.
    apply run_starved_prefix in Hst as (p2 & i2 & Hst).
    rewrite Hst in Hrun. destruct Hrun as (f' & w' & Hg & _).
    by exists p2, f', w'.
  - intros p' f' w' Hg.
    destruct (getStructuredPacket_ok_inv packet p' timeout f f' w w' q)
      as (junk' & b0 & b1 & b2 & b3 & ty' & lh' & ll' & body' & q' & rest
          & Hall & _ & _ & Hj & _ & Hl & _ & ->); try done.
    exists junk', b0, b1, b2, b3, ty', lh', ll', body', q'. done.
Qed.

(** The scenario of the spec: the frame declares 5 bytes, 3 of them
    arrive with the header; the parser reads these 12 bytes in 12 tests,
    then 5 tests find the ring empty and use up the budget of 5 ms
    before the last 2 bytes arrive. *)
Lemma getStructuredPacket_short_frame_times_out_witness :
  exists p' f' w',
    @getStructuredPacket adafruit_h c1_packet 5 idle_driver
      (mkWorld [0xEF; 0x01; 0xFF; 0xFF; 0xFF; 0xFF; 0x07; 0x00; 0x05;
                0x0A; 0x0B; 0x0C; 0x00; 0x34]
         [12; 0; 0; 0; 0; 0; 0; 0; 0; 0; 0; 0; 0; 0; 0; 0; 0; 2]%nat 0)
    = Done (0xFF, p', f', w').
Proof.
  destruct (@getStructuredPacket_short_frame_times_out adafruit_h
              c1_packet 5 idle_driver
              (mkWorld [0xEF; 0x01; 0xFF; 0xFF; 0xFF; 0xFF; 0x07; 0x00;
                        0x05; 0x0A; 0x0B; 0x0C; 0x00; 0x34]
                 [12; 0; 0; 0; 0; 0; 0; 0; 0; 0; 0; 0; 0; 0; 0; 0; 0; 2]%nat
                 0)
              [] [] [0x0A; 0x0B; 0x0C] [] 0xFF 0xFF 0xFF 0xFF 0x07 0x00 0x05)
    as [Hshort _].
  - cbn. lia.
  - cbn. lia.
  - cbn. lia.
  - reflexivity.
  - cbn. lia.
  - apply idle_driver_ring. cbn. lia.
  - cbn. lia.
  - unfold is_byte. cbn. repeat constructor; lia.
  - lia.
  - apply Hshort.
    + reflexivity.
    + constructor.
    + vm_compute. reflexivity.
    + cbn. lia.
Defined.

(** C6, as stated, fails: a first byte other than the start-code high byte
    is dropped and the search goes on.  Here the first two bytes, [0x00]
    and [0xEF], do not make up the start code [0xEF01]; the call reads on,
    consumes all 15 bytes and returns [FINGERPRINT_OK]. *)
Lemma getStructuredPacket_bad_first_bytes_counterexample :
  Z.lor (Z.shiftl 0x00 8) 0xEF <> @FINGERPRINT_STARTCODE adafruit_h
  /\ exists p' f' w',
       @getStructuredPacket adafruit_h c1_packet 1000 idle_driver
         (mkWorld (0x00 :: c1_frame) [15%nat] 0)
       = Done (@FINGERPRINT_OK adafruit_h, p', f', w')
       /\ @FINGERPRINT_OK adafruit_h <> @FINGERPRINT_BADPACKET adafruit_h
       /\ pl f' = 15 /\ pe f' = 15 /\ rx w' = [].
Proof.
  split; [by vm_compute|].
  eexists _, _, _. split; [vm_compute; reflexivity|].
  split; [by vm_compute|done].
Qed.

(** C6, amended.  When the first byte equal to the start-code high byte
    is followed by a byte other than the low byte, and both arrive in
    time, [getStructuredPacket] returns [FINGERPRINT_BADPACKET] and has
    consumed nothing behind that second byte; the bytes in front, all
    different from the high byte, have been consumed and dropped. *)
Theorem getStructuredPacket_bad_second_byte `{H : FingerprintH}
    (packet : Packet.t) (timeout : Z) (f : Fingerprint) (w : World)
    (q junk tail : list Z) (b : Z) :
  0 <= FINGERPRINT_STARTCODE < 65536 ->
  ring_holds f q ->
  Z.of_nat (length q) + Z.of_nat (length (rx w)) <= BUFF_SIZE ->
  0 <= timeout < 65536 ->
  arrives_in_time timeout w ->
  q ++ rx w = junk ++ start_hi :: b :: tail ->
  Forall (fun c => c <> start_hi) junk ->
  is_byte b -> b <> start_lo ->
  exists p' f' w' q',
    getStructuredPacket packet timeout f w
    = Done (FINGERPRINT_BADPACKET, p', f', w')
    /\ ring_holds f' q'
    /\ q' ++ rx w' = tail.
Proof.
  intros Hs Hq Hlen Htime [Hsum Hidle] Hall Hj Hb Hne.
  pose proof (getStructuredPacket_run packet timeout f w q Hq Hlen Htime)
    as Hrun.
  cbn zeta in Hrun.
  rewrite readable_all in Hrun; [|lia|lia|done|lia].
  rewrite <- length_app, firstn_all, Hall in Hrun.
  rewrite run_bad_start in Hrun by done.
  destruct Hrun as (consumed & q' & f' & w' & Hg & Hh & Hc1 & Hc2).
  eexists _, f', w', q'. split; [exact Hg|]. split; [done|].
  replace (junk ++ start_hi :: b :: tail)
    with ((junk ++ [start_hi; b]) ++ tail) in Hc1, Hc2
    by (by rewrite <- app_assoc).
  apply app_inv_tail in Hc1. subst consumed.
  by apply app_inv_head in Hc2.
Qed.

Lemma getStructuredPacket_bad_second_byte_witness :
  exists p' f' w' q',
    @getStructuredPacket adafruit_h c1_packet 1000 idle_driver
      (mkWorld [0x00; 0x12; 0xEF; 0x02; 0xFF; 0xFF] [1; 0; 5]%nat 0)
    = Done (0xFE, p', f', w')
    /\ @ring_holds adafruit_h f' q'
    /\ q' ++ rx w' = [0xFF; 0xFF].
Proof.
  apply (@getStructuredPacket_bad_second_byte adafruit_h c1_packet 1000
           idle_driver
           (mkWorld [0x00; 0x12; 0xEF; 0x02; 0xFF; 0xFF] [1; 0; 5]%nat 0)
           [] [0x00; 0x12] [0xFF; 0xFF] 0x02).
  - cbn. lia.
  - apply idle_driver_ring. cbn. lia.
  - cbn. lia.
  - lia.
  - split; cbn; [lia|right; lia].
  - reflexivity.
  - repeat constructor; by vm_compute.
  - unfold is_byte. lia.
  - by vm_compute.
Defined.

(** ** Commands *)

(** C7.  When the exchange of [getParameters] fails, that is, when
    [getStructuredPacket] does not return [FINGERPRINT_OK] or the packet
    received is not of the acknowledgment type, [getParameters] returns
    [FINGERPRINT_PACKETRECIEVEERR] and [status_reg], [system_id],
    [capacity], [security_level], [device_addr], [packet_len] and
    [baud_rate] are what they were before the call. *)
Theorem getParameters_failure_keeps_fields `{H : FingerprintH}
    (uninit : list Z) (f f1 f2 : Fingerprint) (w w2 : World)
    (p : Packet.t) (code : Z) :
  writeStructuredPacket
    (Fingerprint_Packet FINGERPRINT_COMMANDPACKET 1
       [FINGERPRINT_READSYSPARAM] uninit) f = Done f1 ->
  getStructuredPacket
    (Fingerprint_Packet FINGERPRINT_COMMANDPACKET 1
       [FINGERPRINT_READSYSPARAM] uninit) DEFAULTTIMEOUT f1 w
  = Done (code, p, f2, w2) ->
  code <> FINGERPRINT_OK \/ Packet.type p <> FINGERPRINT_ACKPACKET ->
  getParameters uninit f w = Done (FINGERPRINT_PACKETRECIEVEERR, f2, w2)
  /\ status_reg f2 = status_reg f
  /\ system_id f2 = system_id f
  /\ capacity f2 = capacity f
  /\ security_level f2 = security_level f
  /\ device_addr f2 = device_addr f
  /\ packet_len f2 = packet_len f
  /\ baud_rate f2 = baud_rate f.
Proof.
  intros Hw Hg Hfail. split.
  - unfold getParameters.
    by rewrite (GET_CMD_PACKET_failed [FINGERPRINT_READSYSPARAM] uninit
                  f f1 f2 w w2 p code Hw Hg Hfail).
  - apply writeStructuredPacket_session in Hw.
    unfold getStructuredPacket in Hg.
    apply gsp_loop_session in Hg as [Hs _].
    rewrite Hw in Hs. unfold session in Hs.
    by injection Hs as _ _ -> -> -> -> -> -> -> _ _ _.
Qed.

Lemma getParameters_failure_keeps_fields_witness :
  @getParameters adafruit_h (replicate 64 0) idle_driver c7_silence
  = Done (0x01, c7_out.1.2, c7_out.2)
  /\ status_reg c7_out.1.2 = 0
  /\ system_id c7_out.1.2 = 0
  /\ capacity c7_out.1.2 = 64
  /\ security_level c7_out.1.2 = 0
  /\ device_addr c7_out.1.2 = 0xFFFFFFFF
  /\ packet_len c7_out.1.2 = 64
  /\ baud_rate c7_out.1.2 = 57600.
Proof.
  apply (@getParameters_failure_keeps_fields adafruit_h (replicate 64 0)
           idle_driver c7_sent c7_out.1.2 c7_silence c7_out.2
           c7_out.1.1.2 0xFF).
  - vm_compute. reflexivity.
  - vm_compute. reflexivity.
  - left. by vm_compute.
Defined.

(** C8, as stated, fails: the two bytes of the code are taken as a 16-bit
    number and only the values 0 to 3 are decoded.  Here the response,
    accepted with status [FINGERPRINT_OK], carries the code 5 and
    [packet_len] is 5 after the call. *)
Lemma getParameters_packet_len_counterexample :
  exists f' w',
    @getParameters adafruit_h (replicate 64 0) idle_driver
      (mkWorld [0xEF; 0x01; 0xFF; 0xFF; 0xFF; 0xFF; 0x07; 0x00; 0x13;
                0x00; 0x00; 0x00; 0x00; 0x00; 0x00; 0x40; 0x00; 0x03;
                0xFF; 0xFF; 0xFF; 0xFF; 0x00; 0x05; 0x00; 0x06;
                0x04; 0x64] [28%nat] 0)
    = Done (@FINGERPRINT_OK adafruit_h, f', w')
    /\ packet_len f' = 5
    /\ ~ (packet_len f' = 32 \/ packet_len f' = 64
          \/ packet_len f' = 128 \/ packet_len f' = 256).
Proof.
  eexists _, _. split; [vm_compute; reflexivity|].
  split; [reflexivity|]. cbn. lia.
Qed.

(** C8, amended.  For every response accepted by [getParameters], the
    16-bit number in payload bytes 13 and 14 decides [packet_len]: 0
    gives 32, 1 gives 64, 2 gives 128, 3 gives 256, and any other number
    is stored as it is; so [packet_len] lies in {32, 64, 128, 256} for the
    codes 0 to 3. *)
Theorem getParameters_packet_len `{H : FingerprintH}
    (uninit : list Z) (f f1 f2 : Fingerprint) (w w2 : World) (p : Packet.t) :
  writeStructuredPacket
    (Fingerprint_Packet FINGERPRINT_COMMANDPACKET 1
       [FINGERPRINT_READSYSPARAM] uninit) f = Done f1 ->
  getStructuredPacket
    (Fingerprint_Packet FINGERPRINT_COMMANDPACKET 1
       [FINGERPRINT_READSYSPARAM] uninit) DEFAULTTIMEOUT f1 w
  = Done (FINGERPRINT_OK, p, f2, w2) ->
  Packet.type p = FINGERPRINT_ACKPACKET ->
  16 < Z.of_nat (length (Packet.data p)) ->
  let code :=
    Z.lor (Z.shiftl (u16 (at_ (Packet.data p) 13)) 8) (at_ (Packet.data p) 14)
  in
  exists f',
    getParameters uninit f w = Done (at_ (Packet.data p) 0, f', w2)
    /\ (code = 0 -> packet_len f' = 32)
    /\ (code = 1 -> packet_len f' = 64)
    /\ (code = 2 -> packet_len f' = 128)
    /\ (code = 3 -> packet_len f' = 256)
    /\ (~ 0 <= code <= 3 -> packet_len f' = code)
    /\ (0 <= code <= 3 ->
        packet_len f' = 32 \/ packet_len f' = 64
        \/ packet_len f' = 128 \/ packet_len f' = 256).
Proof.
  intros Hw Hg Hack Hlen code.
  exists (store_params p f2). split.
  - unfold getParameters.
    rewrite (GET_CMD_PACKET_got [FINGERPRINT_READSYSPARAM] uninit
               f f1 f2 w w2 p Hw Hg Hack).
    destruct (Z.leb_spec (Z.of_nat (length (Packet.data p))) 16); [lia|done].
  - cbn [store_params with_params packet_len]. fold code.
    unfold decode_packet_len.
    destruct (Z.eqb_spec code 0); [lia|].
    destruct (Z.eqb_spec code 1); [lia|].
    destruct (Z.eqb_spec code 2); [lia|].
    destruct (Z.eqb_spec code 3); lia.
Qed.

Lemma getParameters_packet_len_witness :
  let code :=
    Z.lor (Z.shiftl (u16 (at_ (Packet.data c8_out.1.1.2) 13)) 8)
      (at_ (Packet.data c8_out.1.1.2) 14) in
  exists f',
    @getParameters adafruit_h (replicate 64 0) idle_driver c8_world
    = Done (at_ (Packet.data c8_out.1.1.2) 0, f', c8_out.2)
    /\ (code = 0 -> packet_len f' = 32)
    /\ (code = 1 -> packet_len f' = 64)
    /\ (code = 2 -> packet_len f' = 128)
    /\ (code = 3 -> packet_len f' = 256)
    /\ (~ 0 <= code <= 3 -> packet_len f' = code)
    /\ (0 <= code <= 3 ->
        packet_len f' = 32 \/ packet_len f' = 64
        \/ packet_len f' = 128 \/ packet_len f' = 256).
Proof.
  apply (@getParameters_packet_len adafruit_h (replicate 64 0)
           idle_driver c7_sent c8_out.1.2 c8_world c8_out.2 c8_out.1.1.2).
  - vm_compute. reflexivity.
  - vm_compute. reflexivity.
  - vm_compute. reflexivity.
  - vm_compute. reflexivity.
Defined.

(** The scenario of the spec: status Ok, capacity 64, packet length 64,
    baud rate 57600. *)
Example getParameters_scenario :
  exists f' w',
    @getParameters adafruit_h (replicate 64 0) idle_driver c8_world
    = Done (@FINGERPRINT_OK adafruit_h, f', w')
    /\ capacity f' = 64 /\ packet_len f' = 64 /\ baud_rate f' = 57600.
Proof. eexists _, _. split; [vm_compute; reflexivity|done]. Qed.

(** C9.  When [fingerFastSearch] receives an acknowledgment packet whose
    first payload byte is [FINGERPRINT_NOTFOUND], it returns
    [FINGERPRINT_NOTFOUND], which is not [FINGERPRINT_OK]; [fingerID] and
    [confidence] are first set to 0xFFFF and then to the 16-bit numbers
    in payload bytes 1-2 and 3-4. *)
Theorem fingerFastSearch_not_found `{H : FingerprintH}
    (uninit : list Z) (f f1 f2 : Fingerprint) (w w2 : World) (p : Packet.t) :
  FINGERPRINT_NOTFOUND <> FINGERPRINT_OK ->
  writeStructuredPacket
    (Fingerprint_Packet FINGERPRINT_COMMANDPACKET 6
       [FINGERPRINT_HISPEEDSEARCH; 0x01; 0x00; 0x00; 0x00; 0xA3] uninit) f
  = Done f1 ->
  getStructuredPacket
    (Fingerprint_Packet FINGERPRINT_COMMANDPACKET 6
       [FINGERPRINT_HISPEEDSEARCH; 0x01; 0x00; 0x00; 0x00; 0xA3] uninit)
    DEFAULTTIMEOUT f1 w
  = Done (FINGERPRINT_OK, p, f2, w2) ->
  Packet.type p = FINGERPRINT_ACKPACKET ->
  4 < Z.of_nat (length (Packet.data p)) ->
  at_ (Packet.data p) 0 = FINGERPRINT_NOTFOUND ->
  exists code f',
    fingerFastSearch uninit f w = Done (code, f', w2)
    /\ code = FINGERPRINT_NOTFOUND
    /\ code <> FINGERPRINT_OK
    /\ f' = search_parse p (search_sentinel f2)
    /\ fingerID (search_sentinel f2) = 0xFFFF
    /\ confidence (search_sentinel f2) = 0xFFFF
    /\ fingerID f'
       = Z.lor (u16 (Z.shiftl (at_ (Packet.data p) 1) 8))
           (at_ (Packet.data p) 2)
    /\ confidence f'
       = Z.lor (u16 (Z.shiftl (at_ (Packet.data p) 3) 8))
           (at_ (Packet.data p) 4).
Proof.
  intros Hne Hw Hg Hack Hlen Hst.
  exists FINGERPRINT_NOTFOUND, (search_parse p (search_sentinel f2)).
  split; [|done].
  unfold fingerFastSearch.
  rewrite (GET_CMD_PACKET_got
             [FINGERPRINT_HISPEEDSEARCH; 0x01; 0x00; 0x00; 0x00; 0xA3]
             uninit f f1 f2 w w2 p Hw Hg Hack).
  destruct (Z.leb_spec (Z.of_nat (length (Packet.data p))) 4); [lia|].
  by rewrite Hst.
Qed.

Lemma fingerFastSearch_not_found_witness :
  exists code f',
    @fingerFastSearch adafruit_h (replicate 64 0) idle_driver c9_world
    = Done (code, f', c9_out.2)
    /\ code = 0x09
    /\ code <> 0x00
    /\ f' = search_parse c9_out.1.1.2 (search_sentinel c9_out.1.2)
    /\ fingerID (search_sentinel c9_out.1.2) = 0xFFFF
    /\ confidence (search_sentinel c9_out.1.2) = 0xFFFF
    /\ fingerID f' = 0x1234
    /\ confidence f' = 0x0056.
Proof.
  apply (@fingerFastSearch_not_found adafruit_h (replicate 64 0)
           idle_driver c9_sent c9_out.1.2 c9_world c9_out.2 c9_out.1.1.2).
  - by vm_compute.
  - vm_compute. reflexivity.
  - vm_compute. reflexivity.
  - vm_compute. reflexivity.
  - vm_compute. reflexivity.
  - vm_compute. reflexivity.
Defined.


(** ** Receive ring *)



(** * Part IV: further properties of the driver *)

(** ** The receive ring *)

(** X1.  The ring is a first-in first-out queue as long as it is not
    overrun: when the ring holds the unread bytes [q] and [receiveUART]
    then stores the bytes [cs], no more than [BUFF_SIZE] unread bytes in
    all, as many calls of [readUARTbuff] return [q] followed by [cs], in
    that order, and leave the two cursors equal (the ring empty). *)
Theorem ring_first_in_first_out `{H : FingerprintH}
    (q cs : list Z) (f : Fingerprint) :
  ring_holds f q ->
  Z.of_nat (length q) + Z.of_nat (length cs) <= BUFF_SIZE ->
  (pops (length (q ++ cs)) (pushes cs f)).1 = q ++ cs
  /\ pl (pops (length (q ++ cs)) (pushes cs f)).2
     = pe (pops (length (q ++ cs)) (pushes cs f)).2.
Proof.
  intros Hq Hfit.
  pose proof (pushes_holds cs f q Hq Hfit) as Hp.
  rewrite <- (app_nil_r (q ++ cs)) in Hp.
  destruct (pops_holds (q ++ cs) [] _ Hp) as [Hout Hempty].
  split; [done|].
  destruct Hempty as (Hl & _ & He & _). rewrite He. cbn [length].
  rewrite Z.add_0_r, Z.mod_small; lia.
Qed.

Lemma ring_first_in_first_out_witness :
  (@pops adafruit_h (length ([] ++ [0x10; 0x20; 0x30]))
     (@pushes adafruit_h [0x10; 0x20; 0x30] idle_driver)).1
  = [] ++ [0x10; 0x20; 0x30]
  /\ pl (@pops adafruit_h (length ([] ++ [0x10; 0x20; 0x30]))
           (@pushes adafruit_h [0x10; 0x20; 0x30] idle_driver)).2
     = pe (@pops adafruit_h (length ([] ++ [0x10; 0x20; 0x30]))
             (@pushes adafruit_h [0x10; 0x20; 0x30] idle_driver)).2.
Proof.
  apply (@ring_first_in_first_out adafruit_h [] [0x10; 0x20; 0x30]
           idle_driver).
  - apply idle_driver_ring. cbn. lia.
  - cbn. lia.
Defined.

(** X2.  The ring does not notice that it is overrun: after
    [BUFF_SIZE + 1] calls of [receiveUART] on an empty ring the write
    cursor has come round to the read cursor, [pl == pe] holds again, and
    a call of [getStructuredPacket] during which nothing more arrives
    finds no byte at all: it returns [FINGERPRINT_TIMEOUT] with the
    packet as it was, whatever the bytes stored were. *)
Theorem ring_overrun_looks_empty `{H : FingerprintH}
    (cs : list Z) (f : Fingerprint) (packet : Packet.t) (timeout : Z)
    (ticks : list nat) (s : Z) :
  0 <= pl f <= BUFF_SIZE -> pe f = pl f ->
  Z.of_nat (length cs) = BUFF_SIZE + 1 ->
  0 <= timeout < 65536 ->
  pl (pushes cs f) = pe (pushes cs f)
  /\ exists f' w',
       getStructuredPacket packet timeout (pushes cs f) (mkWorld [] ticks s)
       = Done (FINGERPRINT_TIMEOUT, packet, f', w').
Proof.
  intros Hl He Hn Hto.
  destruct (pushes_cursors cs f) as [Hpe Hpl]; [lia|].
  assert (Heq : pl (pushes cs f) = pe (pushes cs f)).
  { rewrite Hpe, Hpl, Hn, He.
    replace (pl f + (BUFF_SIZE + 1)) with (pl f + 1 * (BUFF_SIZE + 1))
      by lia.
    rewrite Z.mod_add, Z.mod_small; lia. }
  split; [done|].
  assert (Hq : ring_holds (pushes cs f) []).
  { apply ring_holds_nil; [lia|done]. }
  destruct (getStructuredPacket_no_start packet timeout (pushes cs f)
              (mkWorld [] ticks s) [] Hq) as (f' & w' & Hg & _).
  - cbn. lia.
  - done.
  - by cbn.
  - by exists f', w'.
Qed.

Lemma ring_overrun_looks_empty_witness :
  pl (@pushes adafruit_h (c1_frame ++ replicate 243 0) idle_driver)
  = pe (@pushes adafruit_h (c1_frame ++ replicate 243 0) idle_driver)
  /\ exists f' w',
       @getStructuredPacket adafruit_h c1_packet 1000
         (@pushes adafruit_h (c1_frame ++ replicate 243 0) idle_driver)
         (mkWorld [] [] 0)
       = Done (@FINGERPRINT_TIMEOUT adafruit_h, c1_packet, f', w').
Proof.
  apply (@ring_overrun_looks_empty adafruit_h
           (c1_frame ++ replicate 243 0) idle_driver c1_packet 1000 [] 0).
  - cbn. lia.
  - reflexivity.
  - vm_compute. reflexivity.
  - lia.
Defined.

(** ** The parser *)

(** X3.  A call of [getStructuredPacket] that returns gives one of the
    three codes [FINGERPRINT_OK], [FINGERPRINT_TIMEOUT] and
    [FINGERPRINT_BADPACKET]; it writes nothing to the serial port and
    changes no member of the driver outside the ring, and the bytes left
    on the line are a suffix of those that were there. *)
Theorem getStructuredPacket_touches_ring_only `{H : FingerprintH}
    (packet p' : Packet.t) (timeout code : Z) (f f' : Fingerprint)
    (w w' : World) :
  0 <= timeout < 65536 ->
  getStructuredPacket packet timeout f w = Done (code, p', f', w') ->
  (code = FINGERPRINT_OK \/ code = FINGERPRINT_TIMEOUT
   \/ code = FINGERPRINT_BADPACKET)
  /\ R503Serial f' = R503Serial f
  /\ session f' = session f
  /\ exists n, rx w' = drop n (rx w).
Proof.
  intros Hto Hg. unfold getStructuredPacket in Hg.
  split; [|split; [|split]].
  - apply gsp_loop_slept in Hg; [|lia..]. cbn zeta in Hg. tauto.
  - by apply gsp_loop_session in Hg as [_ ?].
  - by apply gsp_loop_session in Hg as [? _].
  - by apply gsp_loop_line in Hg.
Qed.

Lemma getStructuredPacket_touches_ring_only_witness :
  (c3_out.1.1.1 = @FINGERPRINT_OK adafruit_h
   \/ c3_out.1.1.1 = @FINGERPRINT_TIMEOUT adafruit_h
   \/ c3_out.1.1.1 = @FINGERPRINT_BADPACKET adafruit_h)
  /\ R503Serial c3_out.1.2 = R503Serial idle_driver
  /\ session c3_out.1.2 = session idle_driver
  /\ exists n, rx c3_out.2 = drop n (rx c3_world).
Proof.
  apply (@getStructuredPacket_touches_ring_only adafruit_h c1_packet
           c3_out.1.1.2 1000 c3_out.1.1.1 idle_driver c3_out.1.2
           c3_world c3_out.2).
  - lia.
  - vm_compute. reflexivity.
Defined.

(** X4.  Noise without a start: when none of the bytes in the ring and
    on the line has the value of the high byte of the start code,
    [getStructuredPacket] stays in its state 0, drops every byte it
    reads, and returns [FINGERPRINT_TIMEOUT] with the packet exactly as
    it was passed in and the ring empty. *)
Theorem getStructuredPacket_noise_times_out `{H : FingerprintH}
    (packet : Packet.t) (timeout : Z) (f : Fingerprint) (w : World)
    (q : list Z) :
  ring_holds f q ->
  Z.of_nat (length q) + Z.of_nat (length (rx w)) <= BUFF_SIZE ->
  0 <= timeout < 65536 ->
  Forall (fun b => b <> start_hi) (q ++ rx w) ->
  exists f' w',
    getStructuredPacket packet timeout f w
    = Done (FINGERPRINT_TIMEOUT, packet, f', w')
    /\ pl f' = pe f'.
Proof.
  intros Hq Hfit Hto Hall.
  destruct (getStructuredPacket_no_start packet timeout f w q)
    as (f' & w' & Hg & Hempty & _); try done.
  exists f', w'. split; [done|].
  destruct Hempty as (Hl & _ & He & _). rewrite He. cbn [length].
  rewrite Z.add_0_r, Z.mod_small; lia.
Qed.

Lemma getStructuredPacket_noise_times_out_witness :
  exists f' w',
    @getStructuredPacket adafruit_h c1_packet 20 idle_driver
      (mkWorld [0x01; 0xFF; 0x07; 0x00] [2; 0; 2]%nat 0)
    = Done (@FINGERPRINT_TIMEOUT adafruit_h, c1_packet, f', w')
    /\ pl f' = pe f'.
Proof.
  apply (@getStructuredPacket_noise_times_out adafruit_h c1_packet 20
           idle_driver (mkWorld [0x01; 0xFF; 0x07; 0x00] [2; 0; 2]%nat 0)
           []).
  - apply idle_driver_ring. cbn. lia.
  - cbn. lia.
  - lia.
  - repeat constructor; by vm_compute.
Defined.

(** X5.  Two frames one behind the other, each behind bytes that are not
    the start-code high byte, are returned by two successive calls of
    [getStructuredPacket], in their order: each call consumes exactly
    the bytes up to the end of its frame, stores the type and the body of
    the frame, leaves the elements of the data array behind the body as
    they were, and the bytes behind the second frame stay unread. *)
Theorem getStructuredPacket_twice `{H : FingerprintH}
    (p1 p2 : Packet.t) (timeout : Z) (f : Fingerprint) (w : World)
    (junk1 frame1 body1 junk2 frame2 body2 rest : list Z) (ty1 ty2 : Z) :
  0 <= FINGERPRINT_STARTCODE < 65536 ->
  0 <= timeout < 65536 ->
  length (Packet.address p1) = 4%nat ->
  length (Packet.address p2) = 4%nat ->
  Z.of_nat (length (Packet.data p1)) < 65527 ->
  Z.of_nat (length (Packet.data p2)) < 65527 ->
  pending timeout f w (junk1 ++ frame1 ++ junk2 ++ frame2 ++ rest) ->
  reply ty1 body1 frame1 -> reply ty2 body2 frame2 ->
  Forall (fun b => b <> start_hi) junk1 ->
  Forall (fun b => b <> start_hi) junk2 ->
  (length body1 <= length (Packet.data p1))%nat ->
  (length body2 <= length (Packet.data p2))%nat ->
  exists r1 f1 w1 r2 f2 w2,
    getStructuredPacket p1 timeout f w = Done (FINGERPRINT_OK, r1, f1, w1)
    /\ getStructuredPacket p2 timeout f1 w1
       = Done (FINGERPRINT_OK, r2, f2, w2)
    /\ Packet.type r1 = ty1
    /\ Packet.data r1 = body1 ++ drop (length body1) (Packet.data p1)
    /\ Packet.type r2 = ty2
    /\ Packet.data r2 = body2 ++ drop (length body2) (Packet.data p2)
    /\ pending timeout f2 w2 rest.
Proof.
  intros Hs Hto Ha1 Ha2 Hd1 Hd2 Hpend Hr1 Hr2 Hj1 Hj2 Hb1 Hb2.
  destruct (getStructuredPacket_pending p1 timeout f w junk1 frame1 body1
              (junk2 ++ frame2 ++ rest) ty1)
    as (r1 & f1 & w1 & Hg1 & _ & Ht1 & _ & Hdata1 & Hpend1 & _); try done.
  destruct (getStructuredPacket_pending p2 timeout f1 w1 junk2 frame2 body2
              rest ty2)
    as (r2 & f2 & w2 & Hg2 & _ & Ht2 & _ & Hdata2 & Hpend2 & _); try done.
  by exists r1, f1, w1, r2, f2, w2.
Qed.

Lemma getStructuredPacket_twice_witness :
  exists r1 f1 w1 r2 f2 w2,
    @getStructuredPacket adafruit_h c1_packet 1000 idle_driver x5_world
    = Done (@FINGERPRINT_OK adafruit_h, r1, f1, w1)
    /\ @getStructuredPacket adafruit_h c1_packet 1000 f1 w1
       = Done (@FINGERPRINT_OK adafruit_h, r2, f2, w2)
    /\ Packet.type r1 = 0x07
    /\ Packet.data r1
       = [0x00; 0x00; 0x0A] ++ drop (length [0x00; 0x00; 0x0A])
                                 (Packet.data c1_packet)
    /\ Packet.type r2 = 0x07
    /\ Packet.data r2
       = [0x09; 0x00; 0x13] ++ drop (length [0x09; 0x00; 0x13])
                                 (Packet.data c1_packet)
    /\ @pending adafruit_h 1000 f2 w2 [0x55].
Proof.
  apply (@getStructuredPacket_twice adafruit_h c1_packet c1_packet 1000
           idle_driver x5_world
           [0x00] x5_frame1 [0x00; 0x00; 0x0A]
           [0x33; 0x44] x5_frame2 [0x09; 0x00; 0x13] [0x55] 0x07 0x07).
  - cbn. lia.
  - lia.
  - reflexivity.
  - reflexivity.
  - cbn. lia.
  - cbn. lia.
  - exists []. split; [apply idle_driver_ring; cbn; lia|].
    split; [cbn; lia|]. split; [|reflexivity].
    split; cbn; [lia|right; lia].
  - exists 0xFF, 0xFF, 0xFF, 0xFF, 0x00, 0x03.
    split; [reflexivity|]. split; [done|]. vm_compute. reflexivity.
  - exists 0xFF, 0xFF, 0xFF, 0xFF, 0x00, 0x03.
    split; [reflexivity|]. split; [done|]. vm_compute. reflexivity.
  - repeat constructor; by vm_compute.
  - repeat constructor; by vm_compute.
  - cbn. lia.
  - cbn. lia.
Defined.

(** X6.  A frame whose length field declares 0 is never accepted and
    never rejected: the test for the end of the frame is made only after
    a byte has been stored, when the count is already 1, so the parser
    keeps storing whatever follows, later frames included, until the
    timeout or until it stores behind the end of the data array. *)
Theorem getStructuredPacket_zero_length `{H : FingerprintH}
    (packet : Packet.t) (timeout : Z) (f : Fingerprint) (w : World)
    (q junk tail : list Z) (a0 a1 a2 a3 ty lh ll : Z) :
  0 <= FINGERPRINT_STARTCODE < 65536 ->
  Z.of_nat (length (Packet.data packet)) < 65527 ->
  ring_holds f q ->
  Z.of_nat (length q) + Z.of_nat (length (rx w)) <= BUFF_SIZE ->
  0 <= timeout < 65536 ->
  q ++ rx w = junk ++ header a0 a1 a2 a3 ty lh ll ++ tail ->
  Forall (fun b => b <> start_hi) junk ->
  declared_length lh ll = 0 ->
  getStructuredPacket packet timeout f w = OutOfBounds
  \/ exists p' f' w',
       getStructuredPacket packet timeout f w
       = Done (FINGERPRINT_TIMEOUT, p', f', w').
Proof.
  intros Hs Hsmall Hq Hfit Hto Hall Hj Hl.
  pose proof (getStructuredPacket_run packet timeout f w q Hq Hfit Hto)
    as Hrun.
  cbn zeta in Hrun.
  set (r := readable (length q) (length (rx w)) (arrivals w) 0 timeout) in *.
  destruct (run packet 0 (take r (q ++ rx w))) as [code p' rest|p' i|]
    eqn:Hr.
  - exfalso.
    apply (run_returned_app _ (drop r (q ++ rx w))) in Hr.
    rewrite take_drop, Hall in Hr.
    by apply run_zero_length in Hr.
  - destruct Hrun as (f' & w' & Hg & _). right. by exists p', f', w'.
  - by left.
Qed.

Lemma getStructuredPacket_zero_length_witness :
  @getStructuredPacket adafruit_h c1_packet 50 idle_driver x6_world
  = OutOfBounds
  \/ exists p' f' w',
       @getStructuredPacket adafruit_h c1_packet 50 idle_driver x6_world
       = Done (@FINGERPRINT_TIMEOUT adafruit_h, p', f', w').
Proof.
  apply (@getStructuredPacket_zero_length adafruit_h c1_packet 50
           idle_driver x6_world [] [] x5_frame2
           0xFF 0xFF 0xFF 0xFF 0x07 0x00 0x00).
  - cbn. lia.
  - cbn. lia.
  - apply idle_driver_ring. cbn. lia.
  - cbn. lia.
  - lia.
  - reflexivity.
  - constructor.
  - vm_compute. reflexivity.
Defined.

(** X7.  The declared length is not compared with the size of the data
    array: when a frame declares more bytes than the array of the packet
    passed in has elements, and more bytes than that follow the header
    in time, [getStructuredPacket] stores behind the end of the array. *)
Theorem getStructuredPacket_length_unchecked `{H : FingerprintH}
    (packet : Packet.t) (timeout : Z) (f : Fingerprint) (w : World)
    (q junk tail : list Z) (a0 a1 a2 a3 ty lh ll : Z) :
  0 <= FINGERPRINT_STARTCODE < 65536 ->
  Z.of_nat (length (Packet.data packet)) < 65527 ->
  ring_holds f q ->
  Z.of_nat (length q) + Z.of_nat (length (rx w)) <= BUFF_SIZE ->
  0 <= timeout < 65536 ->
  arrives_in_time timeout w ->
  q ++ rx w = junk ++ header a0 a1 a2 a3 ty lh ll ++ tail ->
  Forall (fun b => b <> start_hi) junk ->
  Z.of_nat (length (Packet.data packet)) < declared_length lh ll ->
  (length (Packet.data packet) < length tail)%nat ->
  getStructuredPacket packet timeout f w = OutOfBounds.
Proof.
  intros Hs Hsmall Hq Hfit Hto Htime Hall Hj Hl Hlong.
  pose proof (getStructuredPacket_run packet timeout f w q Hq Hfit Hto)
    as Hrun.
  cbn zeta in Hrun.
  rewrite arrives_in_time_readable in Hrun by done.
  rewrite <- length_app, firstn_all, Hall in Hrun.
  by rewrite run_long_length in Hrun.
Qed.

Lemma getStructuredPacket_length_unchecked_witness :
  @getStructuredPacket adafruit_h x7_packet 1000 idle_driver x7_world
  = OutOfBounds.
Proof.
  apply (@getStructuredPacket_length_unchecked adafruit_h x7_packet 1000
           idle_driver x7_world [] [] [0x00; 0x00; 0x0A]
           0xFF 0xFF 0xFF 0xFF 0x07 0x00 0x03).
  - cbn. lia.
  - cbn. lia.
  - apply idle_driver_ring. cbn. lia.
  - cbn. lia.
  - lia.
  - split; cbn; [lia|by left].
  - vm_compute. reflexivity.
  - constructor.
  - vm_compute. reflexivity.
  - cbn. lia.
Defined.

(** ** The serializer *)

(** X8.  [writeStructuredPacket] checks the payload length neither
    against the size of the data array nor against the range of its
    8-bit loop counter.  With a length of at most 255 inside the array
    the call returns, having sent the payload and eleven bytes more;
    with a length beyond an array of at most 255 elements the loop reads
    the element behind the end of the array; with a length of 256 or
    more inside the array the counter wraps before it reaches the length
    and the call never returns. *)
Theorem writeStructuredPacket_length_unchecked `{H : FingerprintH}
    (p : Packet.t) (f : Fingerprint) :
  0 <= Packet.length p ->
  let n := Z.of_nat (length (Packet.data p)) in
  (Packet.length p <= 255 -> Packet.length p <= n ->
   exists f',
     writeStructuredPacket p f = Done f'
     /\ Z.of_nat (length (R503Serial f'))
        = Z.of_nat (length (R503Serial f)) + Packet.length p + 11)
  /\ (n < Packet.length p -> n <= 255 ->
      writeStructuredPacket p f = OutOfBounds)
  /\ (256 <= Packet.length p -> 256 <= n ->
      writeStructuredPacket p f = Diverges).
Proof.
  intros H0 n. split; [|split].
  - intros H255 Hfit. unfold writeStructuredPacket. cbn zeta.
    set (sum0 := u16 _).
    assert (Hsum : 0 <= sum0 < 65536).
    { unfold sum0, u16. apply Z.mod_pos_bound. lia. }
    rewrite (write_loop_spec p (Z.to_nat (Packet.length p)));
      [|unfold write_fuel; lia|lia|lia|lia|unfold n in Hfit; lia|done].
    eexists. split; [reflexivity|].
    cbn [R503Serial with_serial]. rewrite !length_app, length_take.
    cbn [length app drop Z.to_nat]. rewrite length_drop.
    unfold n in Hfit. lia.
  - intros Hlong H255.
    destruct (writeStructuredPacket_cases p f H0)
      as [(H1 & H2 & _)|[(H1 & H2 & Hw)|(H1 & H2 & _)]];
      fold n in H1, H2; (done || lia).
  - intros Hlen Harr.
    destruct (writeStructuredPacket_cases p f H0)
      as [(H1 & H2 & _)|[(H1 & H2 & _)|(H1 & H2 & Hw)]];
      fold n in H1, H2; (done || lia).
Qed.

Lemma writeStructuredPacket_length_unchecked_witness :
  let n := Z.of_nat (length (Packet.data x7_packet)) in
  (Packet.length x7_packet <= 255 -> Packet.length x7_packet <= n ->
   exists f',
     writeStructuredPacket x7_packet idle_driver = Done f'
     /\ Z.of_nat (length (R503Serial f'))
        = Z.of_nat (length (R503Serial idle_driver))
          + Packet.length x7_packet + 11)
  /\ (n < Packet.length x7_packet -> n <= 255 ->
      writeStructuredPacket x7_packet idle_driver = OutOfBounds)
  /\ (256 <= Packet.length x7_packet -> 256 <= n ->
      writeStructuredPacket x7_packet idle_driver = Diverges).
Proof.
  apply (@writeStructuredPacket_length_unchecked adafruit_h x7_packet
           idle_driver).
  cbn. lia.
Defined.

(** ** The commands *)

(** X9.  Every command built on the macro [SEND_CMD_PACKET] ([getImage],
    [image2Tz], [createModel], [storeModel], [loadModel], [getModel],
    [deleteModel], [emptyDatabase], both [LEDcontrol], [setPassword])
    that returns, with whatever code, has written to the serial port
    exactly one frame, the command packet with its arguments as payload
    (eleven bytes more than the arguments), and has changed no member of
    the driver. *)
Theorem SEND_CMD_PACKET_sends_one_frame `{H : FingerprintH}
    (args uninit : list Z) (f f' : Fingerprint) (w w' : World) (code : Z) :
  header_sane ->
  Z.of_nat (length uninit) = DATA_SIZE ->
  Z.of_nat (length args) <= DATA_SIZE ->
  SEND_CMD_PACKET args uninit f w = Done (code, f', w') ->
  R503Serial f' = R503Serial f ++ command_frame args
  /\ length (command_frame args) = (length args + 11)%nat
  /\ session f' = session f.
Proof.
  intros Hh Hu Ha Hs.
  apply SEND_CMD_PACKET_sends in Hs as [Hser Hsess]; [|done..].
  split; [done|]. split; [|done].
  unfold command_frame. cbn [app length]. rewrite length_app. cbn. lia.
Qed.

Lemma SEND_CMD_PACKET_sends_one_frame_witness :
  R503Serial x9_out.1.2
  = R503Serial idle_driver ++ @command_frame adafruit_h [0x01]
  /\ length (@command_frame adafruit_h [0x01]) = (length [0x01] + 11)%nat
  /\ session x9_out.1.2 = session idle_driver.
Proof.
  apply (@SEND_CMD_PACKET_sends_one_frame adafruit_h [0x01]
           (replicate 64 0) idle_driver x9_out.1.2 x7_world x9_out.2
           x9_out.1.1).
  - unfold header_sane. cbn. lia.
  - reflexivity.
  - cbn. lia.
  - vm_compute. reflexivity.
Defined.

(** X10.  When the sensor answers such a command with a frame whose body
    starts with the byte [st], the command returns [st], the
    confirmation code, if the frame is of the acknowledgment type, and
    [FINGERPRINT_PACKETRECIEVEERR] if it is of any other type; nothing
    behind [st], the checksum included, has any influence, and the bytes
    behind the frame stay unread for the next command. *)
Theorem SEND_CMD_PACKET_returns_confirmation `{H : FingerprintH}
    (args uninit : list Z) (f : Fingerprint) (w : World)
    (junk more rest : list Z) (ty st : Z) :
  header_sane ->
  Z.of_nat (length uninit) = DATA_SIZE ->
  Z.of_nat (length args) <= DATA_SIZE ->
  answers DEFAULTTIMEOUT f w junk ty (st :: more) rest ->
  Z.of_nat (length (st :: more)) <= DATA_SIZE ->
  exists f' w',
    SEND_CMD_PACKET args uninit f w
    = Done (if ty =? FINGERPRINT_ACKPACKET then st
            else FINGERPRINT_PACKETRECIEVEERR, f', w')
    /\ pending DEFAULTTIMEOUT f' w' rest.
Proof.
  intros Hh Hu Ha Hans Hb.
  destruct (SEND_CMD_PACKET_reply args uninit f w junk more rest ty st)
    as (f' & w' & Hs & Hp & _); try done.
  by exists f', w'.
Qed.

Lemma SEND_CMD_PACKET_returns_confirmation_witness :
  exists f' w',
    @SEND_CMD_PACKET adafruit_h [0x01] (replicate 64 0) idle_driver x5_world
    = Done (if 0x07 =? @FINGERPRINT_ACKPACKET adafruit_h then 0x00
            else @FINGERPRINT_PACKETRECIEVEERR adafruit_h, f', w')
    /\ @pending adafruit_h (@DEFAULTTIMEOUT adafruit_h) f' w'
         ([0x33; 0x44] ++ x5_frame2 ++ [0x55]).
Proof.
  apply (@SEND_CMD_PACKET_returns_confirmation adafruit_h [0x01]
           (replicate 64 0) idle_driver x5_world [0x00] [0x00; 0x0A]
           ([0x33; 0x44] ++ x5_frame2 ++ [0x55]) 0x07 0x00).
  - unfold header_sane. cbn. lia.
  - reflexivity.
  - cbn. lia.
  - exists x5_frame1. split; [|split].
    + exists 0xFF, 0xFF, 0xFF, 0xFF, 0x00, 0x03.
      split; [reflexivity|]. split; [done|]. vm_compute. reflexivity.
    + apply (@idle_driver_pending adafruit_h 1000 x5_world).
      * cbn. lia.
      * cbn. lia.
      * split; cbn; [lia|right; lia].
    + repeat constructor; by vm_compute.
  - cbn. lia.
Defined.

(** X11.  When nothing that could start a frame arrives (no pending
    byte has the value of the start-code high byte; in particular when
    the sensor is silent), such a command returns
    [FINGERPRINT_PACKETRECIEVEERR] after having slept the whole
    [DEFAULTTIMEOUT] milliseconds (one millisecond if the timeout is 0),
    the request sent and the members unchanged. *)
Theorem SEND_CMD_PACKET_unanswered `{H : FingerprintH}
    (args uninit : list Z) (f : Fingerprint) (w : World) (noise : list Z) :
  header_sane ->
  FINGERPRINT_TIMEOUT <> FINGERPRINT_OK ->
  FINGERPRINT_TIMEOUT <> FINGERPRINT_BADPACKET ->
  Z.of_nat (length uninit) = DATA_SIZE ->
  Z.of_nat (length args) <= DATA_SIZE ->
  pending DEFAULTTIMEOUT f w noise ->
  Forall (fun b => b <> start_hi) noise ->
  exists f' w',
    SEND_CMD_PACKET args uninit f w
    = Done (FINGERPRINT_PACKETRECIEVEERR, f', w')
    /\ slept w' = slept w + Z.max 1 DEFAULTTIMEOUT
    /\ session f' = session f
    /\ R503Serial f' = R503Serial f ++ command_frame args.
Proof.
  intros Hh Hne Hnb Hu Ha Hp Hj.
  destruct (SEND_CMD_PACKET_noise args uninit f w noise)
    as (f' & w' & Hs & Hsess & Hser & Hsl); try done.
  by exists f', w'.
Qed.

Lemma SEND_CMD_PACKET_unanswered_witness :
  exists f' w',
    @SEND_CMD_PACKET adafruit_h [0x01] (replicate 64 0) idle_driver
      (mkWorld [] [] 0)
    = Done (@FINGERPRINT_PACKETRECIEVEERR adafruit_h, f', w')
    /\ slept w' = slept (mkWorld [] [] 0)
                  + Z.max 1 (@DEFAULTTIMEOUT adafruit_h)
    /\ session f' = session idle_driver
    /\ R503Serial f' = R503Serial idle_driver
                       ++ @command_frame adafruit_h [0x01].
Proof.
  apply (@SEND_CMD_PACKET_unanswered adafruit_h [0x01] (replicate 64 0)
           idle_driver (mkWorld [] [] 0) []).
  - unfold header_sane. cbn. lia.
  - by vm_compute.
  - by vm_compute.
  - reflexivity.
  - cbn. lia.
  - apply (@idle_driver_pending adafruit_h 1000 (mkWorld [] [] 0)).
    + cbn. lia.
    + cbn. lia.
    + split; cbn; [lia|by left].
  - constructor.
Defined.

(** X12.  [storeModel], [loadModel] and [deleteModel] put the 16-bit
    location into their request high byte first: behind the command
    code and the buffer number 1 for [storeModel] and [loadModel], and
    directly behind the command code, followed by the 16-bit count 1,
    for [deleteModel]. *)
Theorem location_is_sent_high_byte_first `{H : FingerprintH}
    `{C : FingerprintCmds} (location : Z) (uninit : list Z)
    (f : Fingerprint) (w : World) :
  header_sane -> 5 <= DATA_SIZE ->
  Z.of_nat (length uninit) = DATA_SIZE ->
  0 <= location < 65536 ->
  exists hi lo,
    is_byte hi /\ is_byte lo /\ be16 hi lo = location
    /\ (forall code f' w',
          storeModel location uninit f w = Done (code, f', w') ->
          R503Serial f'
          = R503Serial f ++ command_frame [FINGERPRINT_STORE; 0x01; hi; lo])
    /\ (forall code f' w',
          loadModel location uninit f w = Done (code, f', w') ->
          R503Serial f'
          = R503Serial f ++ command_frame [FINGERPRINT_LOAD; 0x01; hi; lo])
    /\ (forall code f' w',
          deleteModel location uninit f w = Done (code, f', w') ->
          R503Serial f'
          = R503Serial f
            ++ command_frame [FINGERPRINT_DELETE; hi; lo; 0x00; 0x01]).
Proof.
  intros Hh H5 Hu Hloc.
  destruct (be16_split location Hloc) as (Hbe & Hhi & Hlo).
  exists (u8 (Z.shiftr location 8)), (u8 (Z.land location 0xFF)).
  do 3 (split; [done|]).
  split; [|split]; intros code f' w' Hs;
    apply SEND_CMD_PACKET_sends in Hs as [Hser _]; try done; cbn; lia.
Qed.

Lemma location_is_sent_high_byte_first_witness :
  exists hi lo,
    is_byte hi /\ is_byte lo /\ be16 hi lo = 300
    /\ (forall code f' w',
          @storeModel adafruit_h adafruit_cmds 300 (replicate 64 0)
            idle_driver x7_world = Done (code, f', w') ->
          R503Serial f'
          = R503Serial idle_driver
            ++ @command_frame adafruit_h
                 [@FINGERPRINT_STORE adafruit_cmds; 0x01; hi; lo])
    /\ (forall code f' w',
          @loadModel adafruit_h adafruit_cmds 300 (replicate 64 0)
            idle_driver x7_world = Done (code, f', w') ->
          R503Serial f'
          = R503Serial idle_driver
            ++ @command_frame adafruit_h
                 [@FINGERPRINT_LOAD adafruit_cmds; 0x01; hi; lo])
    /\ (forall code f' w',
          @deleteModel adafruit_h adafruit_cmds 300 (replicate 64 0)
            idle_driver x7_world = Done (code, f', w') ->
          R503Serial f'
          = R503Serial idle_driver
            ++ @command_frame adafruit_h
                 [@FINGERPRINT_DELETE adafruit_cmds; hi; lo; 0x00; 0x01]).
Proof.
  apply (@location_is_sent_high_byte_first adafruit_h adafruit_cmds 300
           (replicate 64 0) idle_driver x7_world).
  - unfold header_sane. cbn. lia.
  - cbn. lia.
  - reflexivity.
  - lia.
Defined.

(** X13.  [setPassword] sends the new password to the sensor, most
    significant byte first, but does not store it in the driver: a
    [checkPassword] (or [verifyPassword]) that follows still sends the
    password the driver was constructed with. *)
Theorem setPassword_keeps_old_password `{H : FingerprintH}
    `{C : FingerprintCmds} (password : Z) (u1 u2 : list Z)
    (f f1 f2 : Fingerprint) (w w1 w2 : World) (c1 c2 : Z) :
  header_sane -> 5 <= DATA_SIZE ->
  Z.of_nat (length u1) = DATA_SIZE ->
  Z.of_nat (length u2) = DATA_SIZE ->
  0 <= password < 4294967296 ->
  0 <= thePassword f < 4294967296 ->
  setPassword password u1 f w = Done (c1, f1, w1) ->
  checkPassword u2 f1 w1 = Done (c2, f2, w2) ->
  exists a3 a2 a1 a0 b3 b2 b1 b0,
    Forall is_byte [a3; a2; a1; a0; b3; b2; b1; b0]
    /\ be32 a3 a2 a1 a0 = password
    /\ be32 b3 b2 b1 b0 = thePassword f
    /\ R503Serial f2
       = R503Serial f
         ++ command_frame [FINGERPRINT_SETPASSWORD; a3; a2; a1; a0]
         ++ command_frame [FINGERPRINT_VERIFYPASSWORD; b3; b2; b1; b0]
    /\ thePassword f2 = thePassword f.
Proof.
  intros Hh H5 Hu1 Hu2 Hpw Hold Hset Hcheck.
  apply SEND_CMD_PACKET_sends in Hset as [Hser1 Hsess1];
    [|done|done|cbn; lia].
  apply checkPassword_sends in Hcheck as [Hser2 Hsess2]; [|done..].
  apply session_inv in Hsess1 as (Hp1 & _).
  apply session_inv in Hsess2 as (Hp2 & _).
  destruct (be32_split password Hpw) as (Ha & Hl & Ha3 & Ha2 & Ha1 & Ha0).
  destruct (be32_split (thePassword f) Hold)
    as (Hb & Hbl & Hb3 & Hb2 & Hb1 & Hb0).
  exists (u8 (Z.shiftr password 24)), (u8 (Z.shiftr password 16)),
    (u8 (Z.shiftr password 8)), (u8 password),
    (u8 (Z.shiftr (thePassword f) 24)), (u8 (Z.shiftr (thePassword f) 16)),
    (u8 (Z.shiftr (thePassword f) 8)), (u8 (thePassword f)).
  split; [repeat (apply Forall_cons_2; [done|]); apply Forall_nil_2|].
  split; [by rewrite <- Hl|]. split; [by rewrite <- Hbl|].
  split; [|congruence].
  rewrite Hser2, Hser1, Hp1, <- app_assoc, Hbl. done.
Qed.

Lemma setPassword_keeps_old_password_witness :
  exists a3 a2 a1 a0 b3 b2 b1 b0,
    Forall is_byte [a3; a2; a1; a0; b3; b2; b1; b0]
    /\ be32 a3 a2 a1 a0 = 0x01020304
    /\ be32 b3 b2 b1 b0 = thePassword idle_driver
    /\ R503Serial x13_out2.1.2
       = R503Serial idle_driver
         ++ @command_frame adafruit_h
              [@FINGERPRINT_SETPASSWORD adafruit_cmds; a3; a2; a1; a0]
         ++ @command_frame adafruit_h
              [@FINGERPRINT_VERIFYPASSWORD adafruit_cmds; b3; b2; b1; b0]
    /\ thePassword x13_out2.1.2 = thePassword idle_driver.
Proof.
  apply (@setPassword_keeps_old_password adafruit_h adafruit_cmds
           0x01020304 (replicate 64 0) (replicate 64 0)
           idle_driver x13_out1.1.2 x13_out2.1.2
           x5_world x13_out1.2 x13_out2.2 x13_out1.1.1 x13_out2.1.1).
  - unfold header_sane. cbn. lia.
  - cbn. lia.
  - reflexivity.
  - reflexivity.
  - lia.
  - cbn. lia.
  - vm_compute. reflexivity.
  - vm_compute. reflexivity.
Defined.

(** X14.  [checkPassword] reduces the answer of the sensor to two
    values: it returns [FINGERPRINT_OK] when the confirmation code of
    the acknowledgment is [FINGERPRINT_OK] and
    [FINGERPRINT_PACKETRECIEVEERR] for every other confirmation code,
    so a wrong password and a failed exchange give the same result;
    [verifyPassword] is true exactly when the confirmation code is
    [FINGERPRINT_OK]. *)
Theorem checkPassword_two_results `{H : FingerprintH} `{C : FingerprintCmds}
    (uninit : list Z) (f : Fingerprint) (w : World)
    (junk more rest : list Z) (st : Z) :
  header_sane -> 5 <= DATA_SIZE ->
  FINGERPRINT_PACKETRECIEVEERR <> FINGERPRINT_OK ->
  Z.of_nat (length uninit) = DATA_SIZE ->
  answers DEFAULTTIMEOUT f w junk FINGERPRINT_ACKPACKET (st :: more) rest ->
  Z.of_nat (length (st :: more)) <= DATA_SIZE ->
  exists f' w',
    checkPassword uninit f w
    = Done (if st =? FINGERPRINT_OK then FINGERPRINT_OK
            else FINGERPRINT_PACKETRECIEVEERR, f', w')
    /\ verifyPassword uninit f w = Done (st =? FINGERPRINT_OK, f', w')
    /\ pending DEFAULTTIMEOUT f' w' rest.
Proof.
  intros Hh H5 Hne Hu Hans Hb.
  destruct (GET_CMD_PACKET_answered
              [ FINGERPRINT_VERIFYPASSWORD;
                u8 (Z.shiftr (thePassword f) 24);
                u8 (Z.shiftr (thePassword f) 16);
                u8 (Z.shiftr (thePassword f) 8);
                u8 (Z.land (thePassword f) 0xFF) ]
              uninit f w junk (st :: more) rest FINGERPRINT_ACKPACKET)
    as (p' & f' & w' & Hg & _ & _ & Hlen & Ht & Hpend & _); try done.
  rewrite Z.eqb_refl in Hg.
  assert (Hc : checkPassword uninit f w
               = Done (if st =? FINGERPRINT_OK then FINGERPRINT_OK
                       else FINGERPRINT_PACKETRECIEVEERR, f', w')).
  { unfold checkPassword. rewrite Hg.
    destruct (Z.leb_spec (Z.of_nat (length (Packet.data p'))) 0); [lia|].
    rewrite (at_take _ _ _ 0 Ht) by (cbn; lia).
    change (at_ (st :: more) 0) with st.
    by destruct (st =? FINGERPRINT_OK). }
  exists f', w'. split; [done|]. split; [|done].
  unfold verifyPassword. rewrite Hc.
  destruct (Z.eqb_spec st FINGERPRINT_OK) as [_|_].
  - by rewrite Z.eqb_refl.
  - by destruct (Z.eqb_spec FINGERPRINT_PACKETRECIEVEERR FINGERPRINT_OK).
Qed.

Lemma checkPassword_two_results_witness :
  exists f' w',
    @checkPassword adafruit_h adafruit_cmds (replicate 64 0) idle_driver
      x14_world
    = Done (if 0x13 =? @FINGERPRINT_OK adafruit_h
            then @FINGERPRINT_OK adafruit_h
            else @FINGERPRINT_PACKETRECIEVEERR adafruit_h, f', w')
    /\ @verifyPassword adafruit_h adafruit_cmds (replicate 64 0)
         idle_driver x14_world
       = Done (0x13 =? @FINGERPRINT_OK adafruit_h, f', w')
    /\ @pending adafruit_h (@DEFAULTTIMEOUT adafruit_h) f' w' [].
Proof.
  apply (@checkPassword_two_results adafruit_h adafruit_cmds
           (replicate 64 0) idle_driver x14_world [] [0x00; 0x1D] [] 0x13).
  - unfold header_sane. cbn. lia.
  - cbn. lia.
  - by vm_compute.
  - reflexivity.
  - exists (rx x14_world). split; [|split].
    + exists 0xFF, 0xFF, 0xFF, 0xFF, 0x00, 0x03.
      split; [reflexivity|]. split; [done|]. vm_compute. reflexivity.
    + apply (@idle_driver_pending adafruit_h 1000 x14_world).
      * cbn. lia.
      * cbn. lia.
      * split; cbn; [lia|by left].
    + constructor.
  - cbn. lia.
Defined.

(** X15.  [getTemplateCount] stores the 16-bit number in body bytes 1
    and 2 of the acknowledgment, high byte first, in [templateCount] and
    returns the confirmation code; it stores the number whatever the
    confirmation code is, and changes no other member. *)
Theorem getTemplateCount_stores_count `{H : FingerprintH}
    `{C : FingerprintCmds} (uninit : list Z) (f : Fingerprint) (w : World)
    (junk more rest : list Z) (st c1 c2 : Z) :
  header_sane ->
  Z.of_nat (length uninit) = DATA_SIZE ->
  answers DEFAULTTIMEOUT f w junk FINGERPRINT_ACKPACKET
    (st :: c1 :: c2 :: more) rest ->
  Z.of_nat (length (st :: c1 :: c2 :: more)) <= DATA_SIZE ->
  is_byte c1 -> is_byte c2 ->
  exists f' w',
    getTemplateCount uninit f w = Done (st, f', w')
    /\ templateCount f' = be16 c1 c2
    /\ session f' = session (with_templateCount (be16 c1 c2) f)
    /\ pending DEFAULTTIMEOUT f' w' rest.
Proof.
  intros Hh Hu Hans Hb H1 H2.
  destruct (GET_CMD_PACKET_answered [FINGERPRINT_TEMPLATECOUNT]
              uninit f w junk (st :: c1 :: c2 :: more) rest
              FINGERPRINT_ACKPACKET)
    as (p' & f' & w' & Hg & _ & _ & Hlen & Ht & Hpend & Hsess & _);
    try done.
  { destruct Hh as (_ & Hd & _). cbn. lia. }
  rewrite Z.eqb_refl in Hg.
  exists (with_templateCount (be16 c1 c2) f'), w'.
  split; [|split; [done|split]].
  - unfold getTemplateCount. rewrite Hg. cbn [length] in Hb.
    destruct (Z.leb_spec (Z.of_nat (length (Packet.data p'))) 2); [lia|].
    rewrite (at_take _ _ _ 0 Ht) by (cbn; lia).
    by rewrite (count_parse_reply p' f' st c1 c2 more).
  - by apply session_with_templateCount.
  - by apply pending_templateCount.
Qed.

Lemma getTemplateCount_stores_count_witness :
  exists f' w',
    @getTemplateCount adafruit_h adafruit_cmds (replicate 64 0) idle_driver
      x15_world
    = Done (0x01, f', w')
    /\ templateCount f' = be16 0x01 0x2C
    /\ session f' = session (with_templateCount (be16 0x01 0x2C) idle_driver)
    /\ @pending adafruit_h (@DEFAULTTIMEOUT adafruit_h) f' w' [].
Proof.
  apply (@getTemplateCount_stores_count adafruit_h adafruit_cmds
           (replicate 64 0) idle_driver x15_world [] [0x00; 0x36] []
           0x01 0x01 0x2C).
  - unfold header_sane. cbn. lia.
  - reflexivity.
  - exists (rx x15_world). split; [|split].
    + exists 0xFF, 0xFF, 0xFF, 0xFF, 0x00, 0x05.
      split; [reflexivity|]. split; [done|]. vm_compute. reflexivity.
    + apply (@idle_driver_pending adafruit_h 1000 x15_world).
      * cbn. lia.
      * cbn. lia.
      * split; cbn; [lia|by left].
    + constructor.
  - cbn. lia.
  - unfold is_byte. lia.
  - unfold is_byte. lia.
Defined.

(** X16.  [fingerSearch] asks for a search of the pages 0 up to the
    member [capacity], sent high byte first, and on an acknowledgment
    returns the confirmation code and stores body bytes 1-2 in
    [fingerID] and 3-4 in [confidence], high byte first; it stores them
    whatever the confirmation code is, so nothing of the 0xFFFF written
    first remains, and it changes no other member. *)
Theorem fingerSearch_stores_match `{H : FingerprintH} `{C : FingerprintCmds}
    (slot : Z) (uninit : list Z) (f : Fingerprint) (w : World)
    (junk more rest : list Z) (st i1 i2 c1 c2 : Z) :
  header_sane -> 6 <= DATA_SIZE ->
  Z.of_nat (length uninit) = DATA_SIZE ->
  0 <= capacity f < 65536 ->
  answers DEFAULTTIMEOUT f w junk FINGERPRINT_ACKPACKET
    (st :: i1 :: i2 :: c1 :: c2 :: more) rest ->
  Z.of_nat (length (st :: i1 :: i2 :: c1 :: c2 :: more)) <= DATA_SIZE ->
  is_byte i1 -> is_byte i2 -> is_byte c1 -> is_byte c2 ->
  exists f' w' hi lo,
    fingerSearch slot uninit f w = Done (st, f', w')
    /\ fingerID f' = be16 i1 i2
    /\ confidence f' = be16 c1 c2
    /\ session f' = session (with_match (be16 i1 i2) (be16 c1 c2) f)
    /\ be16 hi lo = capacity f
    /\ R503Serial f'
       = R503Serial f
         ++ command_frame [FINGERPRINT_SEARCH; slot; 0x00; 0x00; hi; lo].
Proof.
  intros Hh H6 Hu Hcap Hans Hb H1 H2 H3 H4.
  destruct (fingerSearch_reply slot uninit f w junk more rest st i1 i2 c1 c2)
    as (f' & w' & Hs & _ & Hsess & Hser); try done.
  destruct (be16_split (capacity f) Hcap) as (Hbe & _).
  exists f', w', (u8 (Z.shiftr (capacity f) 8)),
    (u8 (Z.land (capacity f) 0xFF)).
  split; [done|].
  pose proof (session_inv _ _ Hsess) as (_ & _ & Hid & Hconf & _).
  done.
Qed.

Lemma fingerSearch_stores_match_witness :
  exists f' w' hi lo,
    @fingerSearch adafruit_h adafruit_cmds 1 (replicate 64 0) idle_driver
      x16_world
    = Done (0x09, f', w')
    /\ fingerID f' = be16 0x01 0x02
    /\ confidence f' = be16 0x00 0x64
    /\ session f'
       = session (with_match (be16 0x01 0x02) (be16 0x00 0x64) idle_driver)
    /\ be16 hi lo = capacity idle_driver
    /\ R503Serial f'
       = R503Serial idle_driver
         ++ @command_frame adafruit_h
              [@FINGERPRINT_SEARCH adafruit_cmds; 1; 0x00; 0x00; hi; lo].
Proof.
  apply (@fingerSearch_stores_match adafruit_h adafruit_cmds 1
           (replicate 64 0) idle_driver x16_world [] [0x00; 0x7E] []
           0x09 0x01 0x02 0x00 0x64).
  - unfold header_sane. cbn. lia.
  - cbn. lia.
  - reflexivity.
  - cbn. lia.
  - exists (rx x16_world). split; [|split].
    + exists 0xFF, 0xFF, 0xFF, 0xFF, 0x00, 0x07.
      split; [reflexivity|]. split; [done|]. vm_compute. reflexivity.
    + apply (@idle_driver_pending adafruit_h 1000 x16_world).
      * cbn. lia.
      * cbn. lia.
      * split; cbn; [lia|by left].
    + constructor.
  - cbn. lia.
  - unfold is_byte. lia.
  - unfold is_byte. lia.
  - unfold is_byte. lia.
  - unfold is_byte. lia.
Defined.

(** X17.  When nothing that could start a frame arrives, [fingerSearch],
    [fingerFastSearch] and [getTemplateCount] return
    [FINGERPRINT_PACKETRECIEVEERR] before any of their assignments:
    [fingerID], [confidence] and [templateCount] keep the values of the
    last successful exchange, and no other member changes. *)
Theorem stored_results_survive_failure `{H : FingerprintH}
    `{C : FingerprintCmds} (slot : Z) (uninit : list Z) (f : Fingerprint)
    (w : World) (noise : list Z) :
  header_sane -> 6 <= DATA_SIZE ->
  FINGERPRINT_TIMEOUT <> FINGERPRINT_OK ->
  FINGERPRINT_TIMEOUT <> FINGERPRINT_BADPACKET ->
  Z.of_nat (length uninit) = DATA_SIZE ->
  pending DEFAULTTIMEOUT f w noise ->
  Forall (fun b => b <> start_hi) noise ->
  (exists f' w',
     fingerSearch slot uninit f w
     = Done (FINGERPRINT_PACKETRECIEVEERR, f', w')
     /\ session f' = session f)
  /\ (exists f' w',
        fingerFastSearch uninit f w
        = Done (FINGERPRINT_PACKETRECIEVEERR, f', w')
        /\ session f' = session f)
  /\ (exists f' w',
        getTemplateCount uninit f w
        = Done (FINGERPRINT_PACKETRECIEVEERR, f', w')
        /\ session f' = session f).
Proof.
  intros Hh H6 Hne Hnb Hu Hp Hj.
  split; [|split].
  - destruct (GET_CMD_PACKET_unanswered
                [ FINGERPRINT_SEARCH; slot; u8 0x00; u8 0x00;
                  u8 (Z.shiftr (capacity f) 8);
                  u8 (Z.land (capacity f) 0xFF) ] uninit f w noise)
      as (f' & w' & Hg & Hsess & _); try done.
    exists f', w'. split; [|done]. unfold fingerSearch. by rewrite Hg.
  - destruct (GET_CMD_PACKET_unanswered
                [FINGERPRINT_HISPEEDSEARCH; 0x01; 0x00; 0x00; 0x00; 0xA3]
                uninit f w noise)
      as (f' & w' & Hg & Hsess & _); try done.
    exists f', w'. split; [|done]. unfold fingerFastSearch. by rewrite Hg.
  - destruct (GET_CMD_PACKET_unanswered [FINGERPRINT_TEMPLATECOUNT]
                uninit f w noise)
      as (f' & w' & Hg & Hsess & _); try done.
    { cbn. lia. }
    exists f', w'. split; [|done]. unfold getTemplateCount. by rewrite Hg.
Qed.

Lemma stored_results_survive_failure_witness :
  (exists f' w',
     @fingerSearch adafruit_h adafruit_cmds 1 (replicate 64 0) x17_driver
       (mkWorld [0x00; 0x07] [2%nat] 0)
     = Done (@FINGERPRINT_PACKETRECIEVEERR adafruit_h, f', w')
     /\ session f' = session x17_driver)
  /\ (exists f' w',
        @fingerFastSearch adafruit_h (replicate 64 0) x17_driver
          (mkWorld [0x00; 0x07] [2%nat] 0)
        = Done (@FINGERPRINT_PACKETRECIEVEERR adafruit_h, f', w')
        /\ session f' = session x17_driver)
  /\ (exists f' w',
        @getTemplateCount adafruit_h adafruit_cmds (replicate 64 0)
          x17_driver (mkWorld [0x00; 0x07] [2%nat] 0)
        = Done (@FINGERPRINT_PACKETRECIEVEERR adafruit_h, f', w')
        /\ session f' = session x17_driver).
Proof.
  apply (@stored_results_survive_failure adafruit_h adafruit_cmds 1
           (replicate 64 0) x17_driver (mkWorld [0x00; 0x07] [2%nat] 0)
           [0x00; 0x07]).
  - unfold header_sane. cbn. lia.
  - cbn. lia.
  - by vm_compute.
  - by vm_compute.
  - reflexivity.
  - exists []. split; [apply ring_holds_nil; cbn; lia|].
    split; [cbn; lia|]. split; [|reflexivity].
    split; cbn; [lia|by left].
  - repeat constructor; by vm_compute.
Defined.

(** X18.  On an acknowledgment [getParameters] stores the numbers of the
    body, each high byte first: bytes 1-2 in [status_reg], 3-4 in
    [system_id], 5-6 in [capacity], 7-8 in [security_level], 9-12 in
    [device_addr], the decoded packet-length code of bytes 13-14 in
    [packet_len] and, in the 16 bits of [baud_rate], 9600 times the
    number in bytes 15-16 modulo 65536: the product itself for the codes
    0 to 6 only (the code 12 of 115200 baud gives 49664).  It returns the
    confirmation code, stores the numbers whatever that code is, and
    changes no other member. *)
Theorem getParameters_stores_parameters `{H : FingerprintH}
    (uninit : list Z) (f : Fingerprint) (w : World)
    (junk more rest : list Z)
    (st d1 d2 d3 d4 d5 d6 d7 d8 d9 d10 d11 d12 d13 d14 d15 d16 : Z) :
  let body :=
    st :: d1 :: d2 :: d3 :: d4 :: d5 :: d6 :: d7 :: d8 :: d9 :: d10
       :: d11 :: d12 :: d13 :: d14 :: d15 :: d16 :: more in
  header_sane ->
  Z.of_nat (length uninit) = DATA_SIZE ->
  answers DEFAULTTIMEOUT f w junk FINGERPRINT_ACKPACKET body rest ->
  Z.of_nat (length body) <= DATA_SIZE ->
  Forall is_byte (take 17 body) ->
  exists f' w',
    getParameters uninit f w = Done (st, f', w')
    /\ session f'
       = session
           (with_params (be16 d1 d2) (be16 d3 d4) (be16 d5 d6) (be16 d7 d8)
              (be32 d9 d10 d11 d12) (decode_packet_len (be16 d13 d14))
              ((be16 d15 d16 * 9600) mod 65536) f)
    /\ (be16 d15 d16 <= 6 -> baud_rate f' = be16 d15 d16 * 9600)
    /\ (be16 d15 d16 = 12 -> baud_rate f' = 49664)
    /\ pending DEFAULTTIMEOUT f' w' rest.
Proof.
  intros body Hh Hu Hans Hb Hbytes.
  destruct (GET_CMD_PACKET_answered [FINGERPRINT_READSYSPARAM]
              uninit f w junk body rest FINGERPRINT_ACKPACKET)
    as (p' & f' & w' & Hg & _ & _ & Hlen & Ht & Hpend & Hsess & _);
    try done.
  { destruct Hh as (_ & Hd & _). cbn. lia. }
  rewrite Z.eqb_refl in Hg.
  exists (with_params (be16 d1 d2) (be16 d3 d4) (be16 d5 d6) (be16 d7 d8)
            (be32 d9 d10 d11 d12) (decode_packet_len (be16 d13 d14))
            ((be16 d15 d16 * 9600) mod 65536) f'), w'.
  assert (Hcode : 0 <= be16 d15 d16).
  { cbn [take] in Hbytes.
    apply Forall_lookup_1 with (i := 15%nat) (x := d15) in Hbytes as H15;
      [|done].
    apply Forall_lookup_1 with (i := 16%nat) (x := d16) in Hbytes as H16;
      [|done].
    unfold be16, is_byte in *. lia. }
  split; [|split; [by apply session_with_params|split; [|split]]].
  2: { intros Hle. cbn [with_params baud_rate]. apply Z.mod_small. lia. }
  2: { intros ->. reflexivity. }
  2: { by apply pending_params. }
  unfold getParameters. rewrite Hg. subst body. cbn [length] in Hb.
  destruct (Z.leb_spec (Z.of_nat (length (Packet.data p'))) 16); [lia|].
  rewrite (at_take _ _ _ 0 Ht) by (cbn; lia).
  change (at_ (st :: _) 0) with st. do 2 f_equal.
  unfold store_params.
  rewrite (at_take _ _ _ 1 Ht), (at_take _ _ _ 2 Ht), (at_take _ _ _ 3 Ht),
    (at_take _ _ _ 4 Ht), (at_take _ _ _ 5 Ht), (at_take _ _ _ 6 Ht),
    (at_take _ _ _ 7 Ht), (at_take _ _ _ 8 Ht), (at_take _ _ _ 9 Ht),
    (at_take _ _ _ 10 Ht), (at_take _ _ _ 11 Ht), (at_take _ _ _ 12 Ht),
    (at_take _ _ _ 13 Ht), (at_take _ _ _ 14 Ht), (at_take _ _ _ 15 Ht),
    (at_take _ _ _ 16 Ht) by (cbn; lia).
  cbn [take] in Hbytes.
  repeat match goal with
         | Hx : Forall _ (_ :: _) |- _ =>
             apply Forall_cons_1 in Hx; destruct Hx as [? Hx]
         end.
  unfold at_. cbn [lookup list_lookup default].
  rewrite !be16_cast, be32_parse by done. done.
Qed.

Lemma getParameters_stores_parameters_witness :
  exists f' w',
    @getParameters adafruit_h (replicate 64 0) idle_driver x18_world
    = Done (0x00, f', w')
    /\ session f'
       = session
           (with_params (be16 0 0) (be16 0 0) (be16 0 0x40) (be16 0 0)
              (be32 0 0 0 0) (decode_packet_len (be16 0 1))
              ((be16 0 12 * 9600) mod 65536) idle_driver)
    /\ (be16 0 12 <= 6 -> baud_rate f' = be16 0 12 * 9600)
    /\ (be16 0 12 = 12 -> baud_rate f' = 49664)
    /\ @pending adafruit_h (@DEFAULTTIMEOUT adafruit_h) f' w' [].
Proof.
  apply (@getParameters_stores_parameters adafruit_h (replicate 64 0)
           idle_driver x18_world [] [0x00; 0x67] []
           0 0 0 0 0 0 0x40 0 0 0 0 0 0 0 1 0 12).
  - unfold header_sane. cbn. lia.
  - reflexivity.
  - exists (rx x18_world). split; [|split].
    + exists 0xFF, 0xFF, 0xFF, 0xFF, 0x00, 0x13.
      split; [reflexivity|]. split; [done|]. vm_compute. reflexivity.
    + apply (@idle_driver_pending adafruit_h 1000 x18_world).
      * cbn. lia.
      * cbn. lia.
      * split; cbn; [lia|by left].
    + constructor.
  - cbn. lia.
  - cbn [take]. repeat (apply Forall_cons_2; [unfold is_byte; lia|]).
    apply Forall_nil_2.
Defined.

(** ** The identification routines of the application *)

(** X19.  When the sensor acknowledges the three commands of
    [getFingerprintIDez] with the confirmation code [FINGERPRINT_OK],
    the routine sends the requests of [getImage], [image2Tz] (default
    slot) and [fingerFastSearch], in this order and nothing else, and
    returns the 16-bit identifier of body bytes 1-2 of the third
    answer; [confidence] holds the number of body bytes 3-4. *)
Theorem getFingerprintIDez_match `{H : FingerprintH} `{C : FingerprintCmds}
    (u1 u2 u3 : list Z) (f : Fingerprint) (w : World)
    (frame1 frame2 frame3 more1 more2 more3 rest : list Z)
    (i1 i2 c1 c2 : Z) :
  header_sane -> 6 <= DATA_SIZE ->
  Z.of_nat (length u1) = DATA_SIZE ->
  Z.of_nat (length u2) = DATA_SIZE ->
  Z.of_nat (length u3) = DATA_SIZE ->
  pending DEFAULTTIMEOUT f w (frame1 ++ frame2 ++ frame3 ++ rest) ->
  reply FINGERPRINT_ACKPACKET (FINGERPRINT_OK :: more1) frame1 ->
  reply FINGERPRINT_ACKPACKET (FINGERPRINT_OK :: more2) frame2 ->
  reply FINGERPRINT_ACKPACKET
    (FINGERPRINT_OK :: i1 :: i2 :: c1 :: c2 :: more3) frame3 ->
  Z.of_nat (length (FINGERPRINT_OK :: more1)) <= DATA_SIZE ->
  Z.of_nat (length (FINGERPRINT_OK :: more2)) <= DATA_SIZE ->
  Z.of_nat (length (FINGERPRINT_OK :: i1 :: i2 :: c1 :: c2 :: more3))
  <= DATA_SIZE ->
  is_byte i1 -> is_byte i2 -> is_byte c1 -> is_byte c2 ->
  exists f' w',
    getFingerprintIDez u1 u2 u3 f w = Done (be16 i1 i2, f', w')
    /\ fingerID f' = be16 i1 i2
    /\ confidence f' = be16 c1 c2
    /\ R503Serial f'
       = R503Serial f
         ++ command_frame [FINGERPRINT_GETIMAGE]
         ++ command_frame [FINGERPRINT_IMAGE2TZ; IMAGE2TZ_DEFAULT_SLOT]
         ++ command_frame
              [FINGERPRINT_HISPEEDSEARCH; 0x01; 0x00; 0x00; 0x00; 0xA3]
    /\ pending DEFAULTTIMEOUT f' w' rest.
Proof.
  intros Hh H6 Hu1 Hu2 Hu3 Hp Hr1 Hr2 Hr3 Hb1 Hb2 Hb3 Hi1 Hi2 Hc1 Hc2.
  destruct (SEND_CMD_PACKET_reply [FINGERPRINT_GETIMAGE] u1 f w [] more1
              (frame2 ++ frame3 ++ rest) FINGERPRINT_ACKPACKET FINGERPRINT_OK)
    as (f1 & w1 & Hs1 & Hp1 & _ & Hser1); try done.
  { cbn. lia. }
  { by apply (answers_intro _ _ _ _ _ frame1). }
  destruct (SEND_CMD_PACKET_reply
              [FINGERPRINT_IMAGE2TZ; IMAGE2TZ_DEFAULT_SLOT] u2 f1 w1 [] more2
              (frame3 ++ rest) FINGERPRINT_ACKPACKET FINGERPRINT_OK)
    as (f2 & w2 & Hs2 & Hp2 & _ & Hser2); try done.
  { cbn. lia. }
  { by apply (answers_intro _ _ _ _ _ frame2). }
  destruct (fingerFastSearch_reply u3 f2 w2 [] more3 rest
              FINGERPRINT_OK i1 i2 c1 c2)
    as (f3 & w3 & Hs3 & Hp3 & Hsess3 & Hser3); try done.
  { by apply (answers_intro _ _ _ _ _ frame3). }
  rewrite Z.eqb_refl in Hs1, Hs2.
  pose proof (session_inv _ _ Hsess3) as (_ & _ & Hid & Hconf & _).
  cbn in Hid, Hconf.
  exists f3, w3. split; [|split; [done|split; [done|split; [|done]]]].
  - unfold getFingerprintIDez, getImage, image2Tz.
    rewrite Hs1, Z.eqb_refl. cbn [negb].
    rewrite Hs2, Z.eqb_refl. cbn [negb].
    rewrite Hs3, Z.eqb_refl. cbn [negb]. by rewrite Hid.
  - rewrite Hser3, Hser2, Hser1. by rewrite <- !app_assoc.
Qed.

Lemma getFingerprintIDez_match_witness :
  exists f' w',
    @getFingerprintIDez adafruit_h adafruit_cmds
      (replicate 64 0) (replicate 64 0) (replicate 64 0) idle_driver
      x19_world
    = Done (be16 0x01 0x02, f', w')
    /\ fingerID f' = be16 0x01 0x02
    /\ confidence f' = be16 0x00 0x64
    /\ R503Serial f'
       = R503Serial idle_driver
         ++ @command_frame adafruit_h [@FINGERPRINT_GETIMAGE adafruit_cmds]
         ++ @command_frame adafruit_h
              [@FINGERPRINT_IMAGE2TZ adafruit_cmds;
               @IMAGE2TZ_DEFAULT_SLOT adafruit_cmds]
         ++ @command_frame adafruit_h
              [@FINGERPRINT_HISPEEDSEARCH adafruit_h;
               0x01; 0x00; 0x00; 0x00; 0xA3]
    /\ @pending adafruit_h (@DEFAULTTIMEOUT adafruit_h) f' w' [].
Proof.
  apply (@getFingerprintIDez_match adafruit_h adafruit_cmds
           (replicate 64 0) (replicate 64 0) (replicate 64 0) idle_driver
           x19_world x5_frame1 x5_frame1 x19_frame3
           [0x00; 0x0A] [0x00; 0x0A] [0x00; 0x75] [] 0x01 0x02 0x00 0x64).
  - unfold header_sane. cbn. lia.
  - cbn. lia.
  - reflexivity.
  - reflexivity.
  - reflexivity.
  - apply (@idle_driver_pending adafruit_h 1000 x19_world).
    + cbn. lia.
    + cbn. lia.
    + split; cbn; [lia|right; lia].
  - exists 0xFF, 0xFF, 0xFF, 0xFF, 0x00, 0x03.
    split; [reflexivity|]. split; [done|]. vm_compute. reflexivity.
  - exists 0xFF, 0xFF, 0xFF, 0xFF, 0x00, 0x03.
    split; [reflexivity|]. split; [done|]. vm_compute. reflexivity.
  - exists 0xFF, 0xFF, 0xFF, 0xFF, 0x00, 0x07.
    split; [reflexivity|]. split; [done|]. vm_compute. reflexivity.
  - cbn. lia.
  - cbn. lia.
  - cbn. lia.
  - unfold is_byte. lia.
  - unfold is_byte. lia.
  - unfold is_byte. lia.
  - unfold is_byte. lia.
Defined.

(** X20.  [getFingerprintIDez] stops at the first command that is not
    confirmed: when the acknowledgment of [getImage] carries a
    confirmation code other than [FINGERPRINT_OK] (no finger on the
    sensor, say), the routine returns -1 having sent the request of
    [getImage] only; the members, [fingerID] included, are unchanged and
    what the sensor sent behind that acknowledgment stays unread. *)
Theorem getFingerprintIDez_stops_early `{H : FingerprintH}
    `{C : FingerprintCmds} (u1 u2 u3 : list Z) (f : Fingerprint) (w : World)
    (junk more rest : list Z) (st : Z) :
  header_sane ->
  Z.of_nat (length u1) = DATA_SIZE ->
  answers DEFAULTTIMEOUT f w junk FINGERPRINT_ACKPACKET (st :: more) rest ->
  Z.of_nat (length (st :: more)) <= DATA_SIZE ->
  st <> FINGERPRINT_OK ->
  exists f' w',
    getFingerprintIDez u1 u2 u3 f w = Done (-1, f', w')
    /\ R503Serial f' = R503Serial f ++ command_frame [FINGERPRINT_GETIMAGE]
    /\ session f' = session f
    /\ pending DEFAULTTIMEOUT f' w' rest.
Proof.
  intros Hh Hu1 Hans Hb Hst.
  destruct (SEND_CMD_PACKET_reply [FINGERPRINT_GETIMAGE] u1 f w junk more
              rest FINGERPRINT_ACKPACKET st)
    as (f1 & w1 & Hs1 & Hp1 & Hsess1 & Hser1); try done.
  { destruct Hh as (_ & Hd & _). cbn. lia. }
  rewrite Z.eqb_refl in Hs1.
  exists f1, w1. split; [|done].
  unfold getFingerprintIDez, getImage. rewrite Hs1.
  by destruct (Z.eqb_spec st FINGERPRINT_OK).
Qed.

Lemma getFingerprintIDez_stops_early_witness :
  exists f' w',
    @getFingerprintIDez adafruit_h adafruit_cmds
      (replicate 64 0) (replicate 64 0) (replicate 64 0) x17_driver
      x20_world
    = Done (-1, f', w')
    /\ R503Serial f'
       = R503Serial x17_driver
         ++ @command_frame adafruit_h [@FINGERPRINT_GETIMAGE adafruit_cmds]
    /\ session f' = session x17_driver
    /\ @pending adafruit_h (@DEFAULTTIMEOUT adafruit_h) f' w' x5_frame1.
Proof.
  apply (@getFingerprintIDez_stops_early adafruit_h adafruit_cmds
           (replicate 64 0) (replicate 64 0) (replicate 64 0) x17_driver
           x20_world [] [0x00; 0x0C] x5_frame1 0x02).
  - unfold header_sane. cbn. lia.
  - reflexivity.
  - exists [0xEF; 0x01; 0xFF; 0xFF; 0xFF; 0xFF; 0x07; 0x00; 0x03;
            0x02; 0x00; 0x0C].
    split; [|split].
    + exists 0xFF, 0xFF, 0xFF, 0xFF, 0x00, 0x03.
      split; [reflexivity|]. split; [done|]. vm_compute. reflexivity.
    + exists []. split; [apply ring_holds_nil; cbn; lia|].
      split; [cbn; lia|]. split; [|reflexivity].
      split; cbn; [lia|by left].
    + constructor.
  - cbn. lia.
  - by vm_compute.
Defined.

(** X21.  [getFingerprintID] returns a [uint8_t]: when the three
    commands (the third is [fingerSearch]) are confirmed with
    [FINGERPRINT_OK], [fingerID] holds the 16-bit identifier of the
    match but the routine returns its low byte only, so the identifiers
    258 and 2 give the same result, and an identifier whose low byte is
    the value of an error code gives the result of that error. *)
Theorem getFingerprintID_returns_low_byte `{H : FingerprintH}
    `{C : FingerprintCmds} (u1 u2 u3 : list Z) (f : Fingerprint) (w : World)
    (frame1 frame2 frame3 more1 more2 more3 rest : list Z)
    (i1 i2 c1 c2 : Z) :
  header_sane -> 6 <= DATA_SIZE ->
  Z.of_nat (length u1) = DATA_SIZE ->
  Z.of_nat (length u2) = DATA_SIZE ->
  Z.of_nat (length u3) = DATA_SIZE ->
  pending DEFAULTTIMEOUT f w (frame1 ++ frame2 ++ frame3 ++ rest) ->
  reply FINGERPRINT_ACKPACKET (FINGERPRINT_OK :: more1) frame1 ->
  reply FINGERPRINT_ACKPACKET (FINGERPRINT_OK :: more2) frame2 ->
  reply FINGERPRINT_ACKPACKET
    (FINGERPRINT_OK :: i1 :: i2 :: c1 :: c2 :: more3) frame3 ->
  Z.of_nat (length (FINGERPRINT_OK :: more1)) <= DATA_SIZE ->
  Z.of_nat (length (FINGERPRINT_OK :: more2)) <= DATA_SIZE ->
  Z.of_nat (length (FINGERPRINT_OK :: i1 :: i2 :: c1 :: c2 :: more3))
  <= DATA_SIZE ->
  is_byte i1 -> is_byte i2 -> is_byte c1 -> is_byte c2 ->
  exists f' w',
    getFingerprintID u1 u2 u3 f w = Done (i2, f', w')
    /\ fingerID f' = be16 i1 i2
    /\ confidence f' = be16 c1 c2.
Proof.
  intros Hh H6 Hu1 Hu2 Hu3 Hp Hr1 Hr2 Hr3 Hb1 Hb2 Hb3 Hi1 Hi2 Hc1 Hc2.
  destruct (SEND_CMD_PACKET_reply [FINGERPRINT_GETIMAGE] u1 f w [] more1
              (frame2 ++ frame3 ++ rest) FINGERPRINT_ACKPACKET FINGERPRINT_OK)
    as (f1 & w1 & Hs1 & Hp1 & _); try done.
  { cbn. lia. }
  { by apply (answers_intro _ _ _ _ _ frame1). }
  destruct (SEND_CMD_PACKET_reply
              [FINGERPRINT_IMAGE2TZ; IMAGE2TZ_DEFAULT_SLOT] u2 f1 w1 [] more2
              (frame3 ++ rest) FINGERPRINT_ACKPACKET FINGERPRINT_OK)
    as (f2 & w2 & Hs2 & Hp2 & _); try done.
  { cbn. lia. }
  { by apply (answers_intro _ _ _ _ _ frame2). }
  destruct (fingerSearch_reply SEARCH_DEFAULT_SLOT u3 f2 w2 [] more3 rest
              FINGERPRINT_OK i1 i2 c1 c2)
    as (f3 & w3 & Hs3 & _ & Hsess3 & _); try done.
  { by apply (answers_intro _ _ _ _ _ frame3). }
  rewrite Z.eqb_refl in Hs1, Hs2.
  pose proof (session_inv _ _ Hsess3) as (_ & _ & Hid & Hconf & _).
  cbn in Hid, Hconf.
  exists f3, w3. split; [|done].
  unfold getFingerprintID, getImage, image2Tz.
  rewrite Hs1, Z.eqb_refl. cbn [negb].
  rewrite Hs2, Z.eqb_refl. cbn [negb].
  rewrite Hs3, Z.eqb_refl, Hid. do 3 f_equal.
  unfold u8, be16, is_byte in *.
  rewrite Z.add_comm, Z.mod_add by lia. apply Z.mod_small. lia.
Qed.

Lemma getFingerprintID_returns_low_byte_witness :
  exists f' w',
    @getFingerprintID adafruit_h adafruit_cmds
      (replicate 64 0) (replicate 64 0) (replicate 64 0) idle_driver
      x19_world
    = Done (0x02, f', w')
    /\ fingerID f' = be16 0x01 0x02
    /\ confidence f' = be16 0x00 0x64.
Proof.
  apply (@getFingerprintID_returns_low_byte adafruit_h adafruit_cmds
           (replicate 64 0) (replicate 64 0) (replicate 64 0) idle_driver
           x19_world x5_frame1 x5_frame1 x19_frame3
           [0x00; 0x0A] [0x00; 0x0A] [0x00; 0x75] [] 0x01 0x02 0x00 0x64).
  - unfold header_sane. cbn. lia.
  - cbn. lia.
  - reflexivity.
  - reflexivity.
  - reflexivity.
  - apply (@idle_driver_pending adafruit_h 1000 x19_world).
    + cbn. lia.
    + cbn. lia.
    + split; cbn; [lia|right; lia].
  - exists 0xFF, 0xFF, 0xFF, 0xFF, 0x00, 0x03.
    split; [reflexivity|]. split; [done|]. vm_compute. reflexivity.
  - exists 0xFF, 0xFF, 0xFF, 0xFF, 0x00, 0x03.
    split; [reflexivity|]. split; [done|]. vm_compute. reflexivity.
  - exists 0xFF, 0xFF, 0xFF, 0xFF, 0x00, 0x07.
    split; [reflexivity|]. split; [done|]. vm_compute. reflexivity.
  - cbn. lia.
  - cbn. lia.
  - cbn. lia.
  - unfold is_byte. lia.
  - unfold is_byte. lia.
  - unfold is_byte. lia.
  - unfold is_byte. lia.
Defined.

(** X22.  The routine [redLED] of the application asks for purple: the
    frame it sends carries the colour index [FINGERPRINT_LED_PURPLE],
    like the frame of [purpleLED], and whenever the two indices differ
    it is not the frame that asks for [FINGERPRINT_LED_RED]. *)
Theorem redLED_asks_for_purple `{H : FingerprintH} `{C : FingerprintCmds}
    (uninit : list Z) (f f' : Fingerprint) (w w' : World) :
  header_sane -> 5 <= DATA_SIZE ->
  Z.of_nat (length uninit) = DATA_SIZE ->
  redLED uninit f w = Done (f', w') ->
  purpleLED uninit f w = Done (f', w')
  /\ R503Serial f'
     = R503Serial f
       ++ command_frame
            [ FINGERPRINT_AURALEDCONFIG; FINGERPRINT_LED_ON; 0;
              FINGERPRINT_LED_PURPLE; LEDCONTROL_DEFAULT_COUNT ]
  /\ (FINGERPRINT_LED_RED <> FINGERPRINT_LED_PURPLE ->
      R503Serial f'
      <> R503Serial f
         ++ command_frame
              [ FINGERPRINT_AURALEDCONFIG; FINGERPRINT_LED_ON; 0;
                FINGERPRINT_LED_RED; LEDCONTROL_DEFAULT_COUNT ]).
Proof.
  intros Hh H5 Hu Hred. split; [exact Hred|].
  unfold redLED, dropped, LEDcontrol_aura in Hred.
  destruct (SEND_CMD_PACKET _ uninit f w) as [[[code f2] w2]| |] eqn:Hs;
    [|done..].
  injection Hred as <- <-.
  apply SEND_CMD_PACKET_sends in Hs as [Hser _]; [|done|done|cbn; lia].
  split; [done|]. intros Hne Heq. rewrite Hser in Heq.
  apply app_inv_head in Heq. unfold command_frame in Heq.
  cbn [length] in Heq. injection Heq as Heq. done.
Qed.

Lemma redLED_asks_for_purple_witness :
  @purpleLED adafruit_h adafruit_cmds (replicate 64 0) idle_driver x7_world
  = Done (x22_out.1, x22_out.2)
  /\ R503Serial x22_out.1
     = R503Serial idle_driver
       ++ @command_frame adafruit_h
            [ @FINGERPRINT_AURALEDCONFIG adafruit_cmds;
              @FINGERPRINT_LED_ON adafruit_cmds; 0;
              @FINGERPRINT_LED_PURPLE adafruit_cmds;
              @LEDCONTROL_DEFAULT_COUNT adafruit_cmds ]
  /\ (@FINGERPRINT_LED_RED adafruit_cmds
      <> @FINGERPRINT_LED_PURPLE adafruit_cmds ->
      R503Serial x22_out.1
      <> R503Serial idle_driver
         ++ @command_frame adafruit_h
              [ @FINGERPRINT_AURALEDCONFIG adafruit_cmds;
                @FINGERPRINT_LED_ON adafruit_cmds; 0;
                @FINGERPRINT_LED_RED adafruit_cmds;
                @LEDCONTROL_DEFAULT_COUNT adafruit_cmds ]).
Proof.
  apply (@redLED_asks_for_purple adafruit_h adafruit_cmds (replicate 64 0)
           idle_driver x22_out.1 x7_world x22_out.2).
  - unfold header_sane. cbn. lia.
  - cbn. lia.
  - reflexivity.
  - vm_compute. reflexivity.
Defined.
